(** * Shipment tracker: QR payload parsing, QR decode chain, shipment
      status transitions, spreadsheet push and login check.

    A shallow embedding of [qr_scanner.py], [database.py], the status
    handlers of [app.py], [google_sheets.py] and [auth.py], followed by
    the properties proved about them. *)

From Stdlib Require Import ZArith NArith Lia.
From Stdlib Require Import DecimalString.
From stdpp Require Import base option list strings gmap sorting.

Open Scope Z_scope.

(* ===================================================================== *)
(** * Python text *)
(* ===================================================================== *)

(** A Python [str] is a sequence of Unicode code points.  The parser and
    the spreadsheet push look inside strings ([split], [strip]), so they
    work on code points; text that is only stored and compared (status
    values, user names, messages) is kept as a UTF-8 literal. *)
Module PyStr.

Definition char := N.
Definition pystr := list char.

Definition comma : char := 44%N.

(** [str.isspace] for one code point: the characters [str.strip()]
    removes when called without argument. *)
Definition isspace (c : char) : bool :=
  ((9 <=? c) && (c <=? 13) ||
   (28 <=? c) && (c <=? 32) ||
   (c =? 133) || (c =? 160) || (c =? 5760) ||
   (8192 <=? c) && (c <=? 8202) ||
   (c =? 8232) || (c =? 8233) || (c =? 8239) || (c =? 8287) ||
   (c =? 12288))%N.

(** [s.lstrip()] *)
Fixpoint lstrip (s : pystr) : pystr :=
  match s with
  | [] => []
  | c :: s' => if isspace c then lstrip s' else s
  end.

(** [s.rstrip()] *)
Definition rstrip (s : pystr) : pystr := reverse (lstrip (reverse s)).

(** [s.strip()] *)
Definition strip (s : pystr) : pystr := rstrip (lstrip s).

(** [s.split(sep)] for a one-character separator: never returns the
    empty list, and [''.split(sep) = ['']]. *)
Fixpoint split (sep : char) (s : pystr) : list pystr :=
  match s with
  | [] => [[]]
  | c :: s' =>
      if (c =? sep)%N then [] :: split sep s'
      else match split sep s' with
           | [] => [[c]]
           | w :: ws => (c :: w) :: ws
           end
  end.

(** [sep.join(parts)] *)
Fixpoint join (sep : char) (parts : list pystr) : pystr :=
  match parts with
  | [] => []
  | [p] => p
  | p :: ps => p ++ sep :: join sep ps
  end.

(** Code points of well-formed UTF-8 bytes. *)
Fixpoint utf8_decode (bytes : list N) : pystr :=
  (match bytes with
   | [] => []
   | b :: rest =>
       if b <? 128 then b :: utf8_decode rest
       else if b <? 224 then
         match rest with
         | b1 :: rest1 => ((b - 192) * 64 + (b1 - 128)) :: utf8_decode rest1
         | _ => []
         end
       else if b <? 240 then
         match rest with
         | b1 :: b2 :: rest2 =>
             ((b - 224) * 4096 + (b1 - 128) * 64 + (b2 - 128))
               :: utf8_decode rest2
         | _ => []
         end
       else
         match rest with
         | b1 :: b2 :: b3 :: rest3 =>
             ((b - 240) * 262144 + (b1 - 128) * 4096 + (b2 - 128) * 64
              + (b3 - 128)) :: utf8_decode rest3
         | _ => []
         end
   end)%N.

(** The text a UTF-8 literal denotes. *)
Definition of_string (s : string) : pystr :=
  utf8_decode ((fun a => Ascii.N_of_ascii a) <$> String.list_ascii_of_string s).

(** [str(n)] for an integer. *)
Definition str_int (n : Z) : pystr :=
  of_string (NilZero.string_of_int (Z.to_int n)).

(** Truthiness of a string: [if s:] *)
Definition truthy (s : pystr) : bool :=
  match s with [] => false | _ => true end.

(** No leading and no trailing white space. *)
Definition starts_with_space (s : pystr) : bool :=
  match s with [] => false | c :: _ => isspace c end.

Definition ends_with_space (s : pystr) : bool :=
  starts_with_space (reverse s).

Definition trimmed (s : pystr) : Prop :=
  starts_with_space s = false ∧ ends_with_space s = false.

Definition comma_free (s : pystr) : Prop := comma ∉ s.

End PyStr.

(* ===================================================================== *)
(** * qr_scanner.py: the payload parser *)
(* ===================================================================== *)

Module QrParser.
Import PyStr.

(** The dictionary [parse_qr_code] returns: its four keys. *)
Record qr_data := {
  qr_code : pystr;
  imei : pystr;
  device_name : pystr;
  capacity : pystr
}.

Definition fields (d : qr_data) : list pystr :=
  [qr_code d; imei d; device_name d; capacity d].

(** [while len(parts) < 4: parts.append('')].  The loop runs at most four
    times, [fuel] bounds its iterations. *)
Fixpoint pad_loop (fuel : nat) (parts : list pystr) : list pystr :=
  match fuel with
  | O => parts
  | S k => if (length parts <? 4)%nat then pad_loop k (parts ++ [[]]) else parts
  end.

(** [parts[i] if len(parts) > i else ''] *)
Definition item_or_empty (parts : list pystr) (i : nat) : pystr :=
  if (i <? length parts)%nat then default [] (parts !! i) else [].

(** [parse_qr_code(qr_string)]; [None] as argument is Python's [None]. *)
Definition parse_qr_code (qr_string : option pystr) : option qr_data :=
  match qr_string with
  | None => None
  | Some [] => None
  | Some s =>
      let parts := split comma s in
      let parts := strip <$> parts in
      let parts := pad_loop 4 parts in
      Some {| qr_code := item_or_empty parts 0;
              imei := item_or_empty parts 1;
              device_name := item_or_empty parts 2;
              capacity := item_or_empty parts 3 |}
  end.

(** The algorithm as the specification words it: the first four of the
    trimmed segments, missing trailing ones replaced by empty strings. *)
Definition first_four_padded (segments : list pystr) : list pystr :=
  take 4 (segments ++ replicate (4 - length segments) []).

(** Serialisation of a record: its four fields joined with commas. *)
Definition serialize (d : qr_data) : pystr := join comma (fields d).

End QrParser.

(* ===================================================================== *)
(** * qr_scanner.py: the decode chain *)
(* ===================================================================== *)

Module QrDecode.
Import PyStr.

(** What a library call does: it returns a value or raises. *)
Inductive outcome (A : Type) : Type :=
| Returned (a : A)
| Raised.
Arguments Returned {A} a.
Arguments Raised {A}.

(** The [cv2] constants the module passes. *)
Inductive color_conversion := COLOR_BGR2GRAY | COLOR_RGB2GRAY.
Inductive interpolation := INTER_NEAREST | INTER_LINEAR | INTER_CUBIC.
Inductive threshold_type := THRESH_BINARY | THRESH_BINARY_INV.
Inductive adaptive_method := ADAPTIVE_THRESH_MEAN_C | ADAPTIVE_THRESH_GAUSSIAN_C.

(** [decoded_info] of [detectAndDecodeMulti]: a sequence of strings, or a
    bare string (the [isinstance] test of the source). *)
Inductive decoded_info :=
| InfoSeq (l : list pystr)
| InfoStr (s : pystr).

(** [if decoded_info:] *)
Definition info_truthy (d : decoded_info) : bool :=
  match d with
  | InfoSeq l => match l with [] => false | _ => true end
  | InfoStr s => truthy s
  end.

(** [decoded_info[0] if isinstance(decoded_info, (list, tuple)) else decoded_info];
    only evaluated on a truthy [decoded_info]. *)
Definition info_first (d : decoded_info) : pystr :=
  match d with
  | InfoSeq l => default [] (head l)
  | InfoStr s => s
  end.

(** [height, width = t]: a tuple of exactly two items, or [ValueError]. *)
Definition unpack2 (t : list Z) : outcome (Z * Z) :=
  match t with
  | [h; w] => Returned (h, w)
  | _ => Raised
  end.

Section Libraries.

(** [ndarray] is a numpy buffer, [pil] a [PIL.Image.Image]. *)
Context {ndarray pil : Type}.

(** The imaging libraries, as far as the module calls them.  A decoded
    object of [pyzbar] stands for the outcome of its
    [.data.decode('utf-8')]. *)
Record libs := {
  CV2_AVAILABLE : bool;
  PYZBAR_AVAILABLE : bool;
  np_array : pil → outcome ndarray;
  shape : ndarray → list Z;
  cvtColor : ndarray → color_conversion → outcome ndarray;
  resize : ndarray → Z * Z → interpolation → outcome ndarray;
  threshold : ndarray → Z → Z → threshold_type → outcome ndarray;
  adaptiveThreshold :
    ndarray → Z → adaptive_method → threshold_type → Z → Z → outcome ndarray;
  QRCodeDetector : outcome unit;
  detectAndDecodeMulti : ndarray → outcome (bool * decoded_info);
  detectAndDecode : ndarray → outcome pystr;
  pyzbar_decode : ndarray → outcome (list (outcome pystr))
}.

(** The argument of [decode_qr_from_image]. *)
Inductive image :=
| PILImage (p : pil)
| Array (a : ndarray).

(** A decode attempt: which decoder was called, on which buffer. *)
Inductive attempt :=
| DetectMulti (a : ndarray)
| DetectSingle (a : ndarray)
| Pyzbar (a : ndarray).

(** Computations: the decode attempts made so far, and a value or an
    exception. *)
Definition M (A : Type) : Type := list attempt * outcome A.

Definition ret {A} (a : A) : M A := ([], Returned a).

Definition bind {A B} (m : M A) (f : A → M B) : M B :=
  match m with
  | (l, Returned a) => let '(l', r) := f a in (l ++ l', r)
  | (l, Raised) => (l, Raised)
  end.

(** [try: m except: handler] *)
Definition try_except {A} (m : M A) (handler : M A) : M A :=
  match m with
  | (l, Raised) => let '(l', r) := handler in (l ++ l', r)
  | _ => m
  end.

(** A library call that is not a decode attempt. *)
Definition call {A} (o : outcome A) : M A := ([], o).

(** A decode attempt. *)
Definition decode_call {A} (t : attempt) (o : outcome A) : M A := ([t], o).

Notation "'let*' x ':=' m 'in' k" := (bind m (fun x => k))
  (at level 10, x name, m at level 100, k at level 200, only parsing).
Notation "'let*' ' p ':=' m 'in' k" := (bind m (fun x => let 'p := x in k))
  (at level 10, p pattern, m at level 100, k at level 200, only parsing).

Variable L : libs.

(** [len(image_array.shape) == 3] *)
Definition is_3d (a : ndarray) : bool := (length (shape L a) =? 3)%nat.

(** The grayscale step every [cv2] path starts with. *)
Definition to_gray (a : ndarray) : M ndarray :=
  if is_3d a then call (cvtColor L a COLOR_RGB2GRAY) else ret a.

(** Body of the [try] of "Method 1"; [Some r] stands for [return r],
    [None] for falling through. *)
Definition method1_opencv (image_array : ndarray) : M (option pystr) :=
  let* gray := to_gray image_array in
  let* _ := call (QRCodeDetector L) in
  let* '(retval, info) :=
    decode_call (DetectMulti gray) (detectAndDecodeMulti L gray) in
  let found :=
    if retval && info_truthy info
    then (let result := info_first info in
          if truthy result then Some result else None)
    else None in
  match found with
  | Some result => ret (Some result)
  | None =>
      let* data := decode_call (DetectSingle gray) (detectAndDecode L gray) in
      if truthy data then ret (Some data) else ret None
  end.

(** Body of the [try] of "Method 2". *)
Definition method2_pyzbar (image_array : ndarray) : M (option pystr) :=
  let* decoded_objects :=
    decode_call (Pyzbar image_array) (pyzbar_decode L image_array) in
  match decoded_objects with
  | [] => ret None
  | first :: _ => let* result := call first in ret (Some result)
  end.

(** [decode_grayscale_opencv(image_array)] *)
Definition decode_grayscale_opencv (image_array : ndarray) : M (option pystr) :=
  if negb (CV2_AVAILABLE L) then ret None else
  try_except
    (let* gray := to_gray image_array in
     let* _ := call (QRCodeDetector L) in
     let* data := decode_call (DetectSingle gray) (detectAndDecode L gray) in
     if truthy data then ret (Some data) else ret None)
    (ret None).

(** The first statement of [decode_resized_opencv]: both branches of
    its [if] resize to twice the width and height, cubic interpolation. *)
Definition resized_2x (image_array : ndarray) : M ndarray :=
  if is_3d image_array then
    let* '(height, width) := call (unpack2 (take 2 (shape L image_array))) in
    call (resize L image_array (width * 2, height * 2) INTER_CUBIC)
  else
    let* '(height, width) := call (unpack2 (shape L image_array)) in
    call (resize L image_array (width * 2, height * 2) INTER_CUBIC).

(** [decode_resized_opencv(image_array)] *)
Definition decode_resized_opencv (image_array : ndarray) : M (option pystr) :=
  if negb (CV2_AVAILABLE L) then ret None else
  try_except
    (let* resized := resized_2x image_array in
     let* _ := call (QRCodeDetector L) in
     let* data := decode_call (DetectSingle resized) (detectAndDecode L resized) in
     if truthy data then ret (Some data) else ret None)
    (ret None).

(** [decode_binarized_opencv(image_array)] *)
Definition decode_binarized_opencv (image_array : ndarray) : M (option pystr) :=
  if negb (CV2_AVAILABLE L) then ret None else
  try_except
    (let* gray := to_gray image_array in
     let* binary := call (threshold L gray 127 255 THRESH_BINARY) in
     let* adaptive :=
       call (adaptiveThreshold L gray 255 ADAPTIVE_THRESH_GAUSSIAN_C
               THRESH_BINARY 11 2) in
     let* _ := call (QRCodeDetector L) in
     let* data := decode_call (DetectSingle binary) (detectAndDecode L binary) in
     if truthy data then ret (Some data) else
     let* data2 :=
       decode_call (DetectSingle adaptive) (detectAndDecode L adaptive) in
     if truthy data2 then ret (Some data2) else ret None)
    (ret None).

(** [for i, method in enumerate(methods): try: ... except: continue] *)
Fixpoint try_methods (methods : list (ndarray → M (option pystr)))
    (image_array : ndarray) : M (option pystr) :=
  match methods with
  | [] => ret None
  | method :: rest =>
      let* result := try_except (method image_array) (ret None) in
      match result with
      | Some r => if truthy r then ret (Some r) else try_methods rest image_array
      | None => try_methods rest image_array
      end
  end.

Definition methods : list (ndarray → M (option pystr)) :=
  [decode_grayscale_opencv; decode_resized_opencv; decode_binarized_opencv].

(** [decode_qr_from_image(image)]: [Returned None] is Python's [None],
    [Returned (Some s)] the string [s]. *)
Definition decode_qr_from_image (img : image) : M (option pystr) :=
  try_except
    (let* image_array :=
       match img with
       | PILImage p => call (np_array L p)
       | Array a => ret a
       end in
     let* r1 :=
       (if CV2_AVAILABLE L
        then try_except (method1_opencv image_array) (ret None)
        else ret None) in
     match r1 with
     | Some result => ret (Some result)
     | None =>
         let* r2 :=
           (if PYZBAR_AVAILABLE L
            then try_except (method2_pyzbar image_array) (ret None)
            else ret None) in
         match r2 with
         | Some result => ret (Some result)
         | None =>
             if CV2_AVAILABLE L then try_methods methods image_array
             else ret None
         end
     end)
    (ret None).

(** ** The chain as an ordered list of strategies *)

(** The three decode calls. *)
Inductive decoder := Multi | Single | Fallback.

(** A strategy prepares a buffer from the captured one and hands it to a
    decoder. *)
Record strategy := {
  prepare : ndarray → M ndarray;
  decoder_of : decoder
}.

Definition nonempty (s : pystr) : option pystr :=
  if truthy s then Some s else None.

(** What a decoder yields on a buffer: a non-empty string or nothing.
    The multi-code call yields its first decoded string. *)
Definition run_decoder (d : decoder) (buf : ndarray) : M (option pystr) :=
  match d with
  | Multi =>
      let* _ := call (QRCodeDetector L) in
      let* '(retval, info) :=
        decode_call (DetectMulti buf) (detectAndDecodeMulti L buf) in
      ret (if retval && info_truthy info then nonempty (info_first info)
           else None)
  | Single =>
      let* _ := call (QRCodeDetector L) in
      let* data := decode_call (DetectSingle buf) (detectAndDecode L buf) in
      ret (nonempty data)
  | Fallback =>
      let* decoded_objects := decode_call (Pyzbar buf) (pyzbar_decode L buf) in
      match decoded_objects with
      | [] => ret None
      | first :: _ => let* result := call first in ret (nonempty result)
      end
  end.

(** One strategy; an exception counts as finding nothing. *)
Definition run_strategy (s : strategy) (captured : ndarray) : M (option pystr) :=
  try_except
    (let* buf := prepare s captured in run_decoder (decoder_of s) buf)
    (ret None).

(** Strategies in order; the first that yields a string wins and the
    chain stops. *)
Fixpoint first_success (chain : list strategy) (captured : ndarray)
    : M (option pystr) :=
  match chain with
  | [] => ret None
  | s :: rest =>
      let* r := run_strategy s captured in
      match r with
      | Some result => ret (Some result)
      | None => first_success rest captured
      end
  end.

Definition fixed_binary (a : ndarray) : M ndarray :=
  let* gray := to_gray a in call (threshold L gray 127 255 THRESH_BINARY).

Definition adaptive_binary (a : ndarray) : M ndarray :=
  let* gray := to_gray a in
  call (adaptiveThreshold L gray 255 ADAPTIVE_THRESH_GAUSSIAN_C THRESH_BINARY 11 2).

(** The strategies, named by the buffer they hand to the decoder. *)
Definition multi_on_gray : strategy :=
  {| prepare := to_gray; decoder_of := Multi |}.
Definition single_on_gray : strategy :=
  {| prepare := to_gray; decoder_of := Single |}.
Definition fallback_on_original : strategy :=
  {| prepare := ret; decoder_of := Fallback |}.
Definition single_on_upscaled : strategy :=
  {| prepare := resized_2x; decoder_of := Single |}.
Definition single_on_gray_of_upscaled : strategy :=
  {| prepare := (fun a => let* r := resized_2x a in to_gray r);
     decoder_of := Single |}.
Definition single_on_fixed_binary : strategy :=
  {| prepare := fixed_binary; decoder_of := Single |}.
Definition single_on_adaptive_binary : strategy :=
  {| prepare := adaptive_binary; decoder_of := Single |}.

(** The order the specification gives: the upscaling variant converts
    to grayscale after resizing. *)
Definition claimed_chain : list strategy :=
  [ multi_on_gray; single_on_gray; fallback_on_original; single_on_gray;
    single_on_gray_of_upscaled; single_on_fixed_binary;
    single_on_adaptive_binary ].

(** The same order with the upscaled buffer handed over as it is. *)
Definition code_chain : list strategy :=
  [ multi_on_gray; single_on_gray; fallback_on_original; single_on_gray;
    single_on_upscaled; single_on_fixed_binary; single_on_adaptive_binary ].

(** ** The chain as guarded blocks *)

(** [if flag: try: block except: pass] *)
Definition guarded (flag : bool) (block : ndarray → M (option pystr))
    (image_array : ndarray) : M (option pystr) :=
  if flag then try_except (block image_array) (ret None) else ret None.

(** The five [try] blocks of the module, each behind its availability
    flag. *)
Definition guarded_blocks : list (ndarray → M (option pystr)) :=
  [ guarded (CV2_AVAILABLE L) method1_opencv;
    guarded (PYZBAR_AVAILABLE L) method2_pyzbar;
    guarded (CV2_AVAILABLE L) decode_grayscale_opencv;
    guarded (CV2_AVAILABLE L) decode_resized_opencv;
    guarded (CV2_AVAILABLE L) decode_binarized_opencv ].

(** Blocks in order; the first that returns a value ends the chain. *)
Fixpoint first_returned (blocks : list (ndarray → M (option pystr)))
    (image_array : ndarray) : M (option pystr) :=
  match blocks with
  | [] => ret None
  | block :: rest =>
      let* r := block image_array in
      match r with
      | Some result => ret (Some result)
      | None => first_returned rest image_array
      end
  end.

(** ** Conditions on the libraries *)

Definition returns {A} (o : outcome A) : Prop := ∃ a, o = Returned a.

(** No decode call of the detector and no thresholding call raises. *)
Definition detector_never_raises : Prop :=
  (∀ a, returns (detectAndDecodeMulti L a)) ∧
  (∀ a, returns (detectAndDecode L a)) ∧
  (∀ a, returns (threshold L a 127 255 THRESH_BINARY)) ∧
  (∀ a, returns (adaptiveThreshold L a 255 ADAPTIVE_THRESH_GAUSSIAN_C
                   THRESH_BINARY 11 2)).

(** The first payload of the fallback library is never the empty text. *)
Definition fallback_payload_nonempty : Prop :=
  ∀ a objs s, pyzbar_decode L a = Returned (Returned s :: objs) → truthy s = true.

(** A decode call found no code: it raised, or came back empty. *)
Definition multi_found_nothing (o : outcome (bool * decoded_info)) : bool :=
  match o with
  | Returned (retval, info) =>
      negb (retval && info_truthy info && truthy (info_first info))
  | Raised => true
  end.

Definition single_found_nothing (o : outcome pystr) : bool :=
  match o with
  | Returned data => negb (truthy data)
  | Raised => true
  end.

Definition fallback_found_nothing (o : outcome (list (outcome pystr))) : bool :=
  match o with
  | Returned (Returned _ :: _) => false
  | _ => true
  end.

(** A decoder finds no code on a buffer. *)
Definition decoder_found_nothing (d : decoder) (buf : ndarray) : bool :=
  match d with
  | Multi => multi_found_nothing (detectAndDecodeMulti L buf)
  | Single => single_found_nothing (detectAndDecode L buf)
  | Fallback => fallback_found_nothing (pyzbar_decode L buf)
  end.

(** No strategy finds a code in the captured image: on the buffer a
    strategy of the chain prepares from it, that strategy's decoder finds
    nothing.  Nothing is said of any other buffer, nor of a strategy
    whose preparation raises. *)
Definition no_strategy_finds (captured : ndarray) : Prop :=
  ∀ s buf, s ∈ code_chain →
           (prepare s captured).2 = Returned buf →
           decoder_found_nothing (decoder_of s) buf = true.

End Libraries.

Arguments libs : clear implicits.
Arguments image : clear implicits.
Arguments attempt : clear implicits.

(** ** The libraries on symbolic buffers *)

(** A buffer named by the processing that produced it from the captured
    colour image. *)
Inductive buffer :=
| Captured
| Gray (b : buffer)
| Upscaled (b : buffer)
| Binary127 (b : buffer)
| AdaptiveGaussian (b : buffer).

Fixpoint buffer_shape (b : buffer) : list Z :=
  match b with
  | Captured => [480; 640; 3]
  | Gray b' => take 2 (buffer_shape b')
  | Upscaled b' =>
      match buffer_shape b' with
      | h :: w :: rest => h * 2 :: w * 2 :: rest
      | other => other
      end
  | Binary127 b' => buffer_shape b'
  | AdaptiveGaussian b' => buffer_shape b'
  end.

(** Libraries that process buffers symbolically and accept only the
    parameters the module passes; [single] is what the single-code
    detector reads from a buffer, the multi-code call and the fallback
    library find nothing. *)
Definition symbolic_libs (single : buffer → pystr) : libs buffer unit :=
  {| CV2_AVAILABLE := true;
     PYZBAR_AVAILABLE := true;
     np_array := λ _, Returned Captured;
     shape := buffer_shape;
     cvtColor := λ a c,
       match c with COLOR_RGB2GRAY => Returned (Gray a) | _ => Raised end;
     resize := λ a size i,
       match i, buffer_shape a with
       | INTER_CUBIC, h :: w :: _ =>
           if bool_decide (size = (w * 2, h * 2)) then Returned (Upscaled a)
           else Raised
       | _, _ => Raised
       end;
     threshold := λ a t m k,
       match k with
       | THRESH_BINARY =>
           if bool_decide (t = 127 ∧ m = 255) then Returned (Binary127 a)
           else Raised
       | _ => Raised
       end;
     adaptiveThreshold := λ a m am k blk c,
       match am, k with
       | ADAPTIVE_THRESH_GAUSSIAN_C, THRESH_BINARY =>
           if bool_decide (m = 255 ∧ blk = 11 ∧ c = 2)
           then Returned (AdaptiveGaussian a) else Raised
       | _, _ => Raised
       end;
     QRCodeDetector := Returned tt;
     detectAndDecodeMulti := λ _, Returned (false, InfoSeq []);
     detectAndDecode := λ a, Returned (single a);
     pyzbar_decode := λ _, Returned [] |}.

(** A detector that reads the code only from the grayscale version of
    the upscaled image. *)
Definition reads_gray_upscaled (b : buffer) : pystr :=
  match b with
  | Gray (Upscaled Captured) => of_string "ABC123"
  | _ => []
  end.

(** A detector that reads nothing. *)
Definition reads_nothing (b : buffer) : pystr := [].

End QrDecode.

(* ===================================================================== *)
(** * config.py and database.py: shipments and their audit log *)
(* ===================================================================== *)

Module Database.

(** [config.py] *)
Definition STATUS_VALUES : list string := ["Đang gửi"; "Đã nhận"; "Hư hỏng"; "Mất"].
Definition DEFAULT_STATUS : string := "Đang gửi".

(** The literal ['Đã nhận'] that [update_shipment_status] tests for. *)
Definition RECEIVED : string := "Đã nhận".

(** A row of [ShipmentDetails]; nullable columns are options. *)
Record shipment := {
  sd_id : Z;
  sd_qr_code : string;
  sd_imei : string;
  sd_device_name : string;
  sd_capacity : string;
  sd_supplier : string;
  sd_status : string;
  sd_sent_time : string;
  sd_received_time : option string;
  sd_created_by : string;
  sd_updated_by : option string;
  sd_notes : option string;
  sd_image_url : option string;
  sd_telegram_message_id : option Z
}.

(** A row of [AuditLog]. *)
Record audit_entry := {
  al_id : Z;
  al_shipment_id : Z;
  al_action : string;
  al_old_value : option string;
  al_new_value : string;
  al_changed_by : string;
  al_timestamp : string
}.

(** The two tables, rows in insertion order, each with the counter
    [AUTOINCREMENT] keeps for it. *)
Record db := {
  ShipmentDetails : list shipment;
  ShipmentDetails_seq : Z;
  AuditLog : list audit_entry;
  AuditLog_seq : Z
}.

Definition empty_db : db :=
  {| ShipmentDetails := []; ShipmentDetails_seq := 0;
     AuditLog := []; AuditLog_seq := 0 |}.

(** The key [AUTOINCREMENT] hands out: one more than the largest key the
    table has ever held. *)
Definition next_rowid (seq : Z) (ids : list Z) : Z :=
  1 + foldr Z.max seq ids.

(** [{'success': ..., 'id': ..., 'error': ...}] *)
Record save_result := {
  save_success : bool;
  save_id : option Z;
  save_error : option string
}.

(** [{'success': ..., 'error': ...}] *)
Record result := {
  success : bool;
  error : option string
}.

(** What SQLite answers to the [INSERT] of [log_audit]: it executes it,
    at the [CURRENT_TIMESTAMP] it then reads, or it raises (a locked or
    unwritable database file). *)
Inductive audit_insert :=
| Executed (current_timestamp : string)
| Raises.

(** [log_audit(shipment_id, action, old_value, new_value, changed_by)].
    The row is appended when the [INSERT] is executed and [changed_by],
    a [NOT NULL] column, is not [None]; any exception of the [INSERT] is
    printed and swallowed, and the tables stay as they were. *)
Definition log_audit (d : db) (w : audit_insert) (shipment_id : Z)
    (action : string) (old_value : option string) (new_value : string)
    (changed_by : option string) : db :=
  match w, changed_by with
  | Executed current_timestamp, Some user =>
      let new_id := next_rowid (AuditLog_seq d) (al_id <$> AuditLog d) in
      {| ShipmentDetails := ShipmentDetails d;
         ShipmentDetails_seq := ShipmentDetails_seq d;
         AuditLog := AuditLog d ++
           [{| al_id := new_id; al_shipment_id := shipment_id;
               al_action := action; al_old_value := old_value;
               al_new_value := new_value; al_changed_by := user;
               al_timestamp := current_timestamp |}];
         AuditLog_seq := new_id |}
  | _, _ => d
  end.

(** [WHERE qr_code = ?] *)
Definition has_qr_code (qr_code : string) (r : shipment) : bool :=
  bool_decide (sd_qr_code r = qr_code).

(** [save_shipment(qr_code, imei, device_name, capacity, supplier,
    created_by, notes, image_url)].  The [INSERT] violates
    [qr_code TEXT UNIQUE] when a row already carries the code; [now] is
    the [CURRENT_TIMESTAMP] the row gets as its sent time, [w] the answer
    to the audit [INSERT] that follows; the spreadsheet mirror that
    follows a successful insert does not touch the tables. *)
Definition save_shipment (d : db) (now : string) (w : audit_insert)
    (qr_code imei device_name capacity supplier created_by : string)
    (notes image_url : option string) : save_result * db :=
  if existsb (has_qr_code qr_code) (ShipmentDetails d) then
    ({| save_success := false; save_id := None;
        save_error := Some "Mã QR đã tồn tại" |}, d)
  else
    let shipment_id :=
      next_rowid (ShipmentDetails_seq d) (sd_id <$> ShipmentDetails d) in
    let row :=
      {| sd_id := shipment_id; sd_qr_code := qr_code; sd_imei := imei;
         sd_device_name := device_name; sd_capacity := capacity;
         sd_supplier := supplier; sd_status := DEFAULT_STATUS;
         sd_sent_time := now; sd_received_time := None;
         sd_created_by := created_by; sd_updated_by := None;
         sd_notes := notes; sd_image_url := image_url;
         sd_telegram_message_id := None |} in
    let d1 :=
      {| ShipmentDetails := ShipmentDetails d ++ [row];
         ShipmentDetails_seq := shipment_id;
         AuditLog := AuditLog d; AuditLog_seq := AuditLog_seq d |} in
    let d2 := log_audit d1 w shipment_id "CREATED" None
                ("Created shipment: " +:+ qr_code) (Some created_by) in
    ({| save_success := true; save_id := Some shipment_id;
        save_error := None |}, d2).

(** [if notes:] on an optional text *)
Definition notes_given (notes : option string) : bool :=
  match notes with
  | Some s => negb (bool_decide (s = ""))
  | None => false
  end.

(** The [SET] clause [update_shipment_status] builds, applied to a row. *)
Definition set_status_fields (now new_status : string)
    (updated_by notes : option string) (r : shipment) : shipment :=
  {| sd_id := sd_id r; sd_qr_code := sd_qr_code r; sd_imei := sd_imei r;
     sd_device_name := sd_device_name r; sd_capacity := sd_capacity r;
     sd_supplier := sd_supplier r;
     sd_status := new_status;
     sd_sent_time := sd_sent_time r;
     sd_received_time :=
       if bool_decide (new_status = RECEIVED) then Some now
       else sd_received_time r;
     sd_created_by := sd_created_by r;
     sd_updated_by := updated_by;
     sd_notes := if notes_given notes then notes else sd_notes r;
     sd_image_url := sd_image_url r;
     sd_telegram_message_id := sd_telegram_message_id r |}.

(** [update_shipment_status(qr_code, new_status, updated_by, notes)];
    [now] is [datetime.now().isoformat()], [w] the answer to the audit
    [INSERT], and [updated_by] is [None] when the caller passes no user
    name. *)
Definition update_shipment_status (d : db) (now : string) (w : audit_insert)
    (qr_code new_status : string) (updated_by notes : option string)
    : result * db :=
  match find (λ r, has_qr_code qr_code r) (ShipmentDetails d) with
  | None => ({| success := false; error := Some "Phiếu không tồn tại" |}, d)
  | Some found =>
      let shipment_id := sd_id found in
      let old_status := sd_status found in
      let d1 :=
        {| ShipmentDetails :=
             (λ r, if has_qr_code qr_code r
                   then set_status_fields now new_status updated_by notes r
                   else r) <$> ShipmentDetails d;
           ShipmentDetails_seq := ShipmentDetails_seq d;
           AuditLog := AuditLog d; AuditLog_seq := AuditLog_seq d |} in
      let d2 := log_audit d1 w shipment_id "STATUS_CHANGED"
                  (Some old_status) new_status updated_by in
      ({| success := true; error := None |}, d2)
  end.

(** [get_shipment_by_qr_code(qr_code)] *)
Definition get_shipment_by_qr_code (d : db) (qr_code : string) : option shipment :=
  find (λ r, has_qr_code qr_code r) (ShipmentDetails d).

(** ** app.py: the update button of the status screens *)

(** What the screen shows after the click; the wording of the banners is
    left out, an error carries the reason the storage layer gave. *)
Inductive feedback :=
| st_success
| st_error (reason : option string)
| st_warning.

(** The [if st.button(...)] body shared by [show_shipment_info] and
    [show_update_shipment_form]: [shipment] is the record the screen
    displays, [new_status] the selected value, [notes] the text area.
    The notification and the refresh that follow a successful update are
    not modelled. *)
Definition update_status_button (d : db) (now : string) (w : audit_insert)
    (shipment : shipment) (new_status notes current_user : string)
    : feedback * db :=
  let current_status := sd_status shipment in
  if negb (bool_decide (new_status = current_status)) then
    let '(res, d') :=
      update_shipment_status d now w (sd_qr_code shipment) new_status
        (Some current_user)
        (if negb (bool_decide (notes = "")) then Some notes else None) in
    if success res then (st_success, d') else (st_error (error res), d')
  else (st_warning, d).

(** ** Histories *)

(** The two operations a history is made of, each with the clock reading
    at the time it runs and the answer to its audit [INSERT]. *)
Inductive op :=
| Create (now : string) (w : audit_insert)
    (qr_code imei device_name capacity supplier created_by : string)
    (notes image_url : option string)
| Transition (now : string) (w : audit_insert) (qr_code new_status : string)
    (updated_by notes : option string).

Definition step (d : db) (o : op) : db :=
  match o with
  | Create now w qr_code imei device_name capacity supplier created_by notes
      image_url =>
      (save_shipment d now w qr_code imei device_name capacity supplier
         created_by notes image_url).2
  | Transition now w qr_code new_status updated_by notes =>
      (update_shipment_status d now w qr_code new_status updated_by notes).2
  end.

(** The store after a history, starting from the empty tables. *)
Definition run (ops : list op) : db := foldl step empty_db ops.

(** The shipment with key [i] held the received status at some point of
    the history. *)
Definition ever_received (ops : list op) (i : Z) : Prop :=
  ∃ (k : nat) (r : shipment),
    r ∈ ShipmentDetails (run (take k ops)) ∧ sd_id r = i ∧ sd_status r = RECEIVED.

(** The keys of the shipments in the store. *)
Definition ids (d : db) : list Z := sd_id <$> ShipmentDetails d.

(** A history used in the examples: a shipment is created, received the
    next day and reported damaged the day after. *)
Definition sample_create : op :=
  Create "2024-05-01 08:00:00" (Executed "2024-05-01 08:00:00") "ABC123"
    "IMEI001" "iPhone 15" "128GB" "GHN" "admin" None None.

Definition sample_history : list op :=
  [ sample_create;
    Transition "2024-05-02T09:30:00" (Executed "2024-05-02 02:30:00") "ABC123"
      "Đã nhận" (Some "staff") None;
    Transition "2024-05-03T10:00:00" (Executed "2024-05-03 03:00:00") "ABC123"
      "Hư hỏng" (Some "staff") (Some "vỡ màn hình") ].

End Database.

(* ===================================================================== *)
(** * google_sheets.py: pushing rows to the worksheet *)
(* ===================================================================== *)

Module GoogleSheets.
Import PyStr.

(** A worksheet is its rows of cells, the header row first. *)
Definition row := list pystr.
Definition worksheet := list row.

(** The exceptions the push tells apart; [msg] is [str(e)]. *)
Inductive exn :=
| APIError (msg : string)
| Exception (msg : string).

(** The worksheet calls of [gspread] the module makes. *)
Inductive api :=
| RowValues | Clear | AppendRow | Format | BatchClear | ColValues | AppendRows.

(** What the outside world answers during one push: the error
    [get_google_sheets_client] or [get_or_create_worksheet] reports, and
    the calls that raise. *)
Record env := {
  client_error : option string;
  open_by_key_raises : option exn;
  worksheet_error : option string;
  api_raises : api → option exn
}.

Inductive reply (A : Type) : Type :=
| Replied (a : A)
| Failed (e : exn).
Arguments Replied {A} a.
Arguments Failed {A} e.

(** Computations over the worksheet that may raise. *)
Definition S (A : Type) : Type := worksheet → reply A * worksheet.

Definition pure {A} (a : A) : S A := λ ws, (Replied a, ws).

Definition and_then {A B} (m : S A) (f : A → S B) : S B :=
  λ ws, match m ws with
        | (Replied a, ws') => f a ws'
        | (Failed e, ws') => (Failed e, ws')
        end.

Definition raise {A} (e : exn) : S A := λ ws, (Failed e, ws).

(** [try: m except ... as e: handler(e)] *)
Definition try_catch {A} (m : S A) (handler : exn → S A) : S A :=
  λ ws, match m ws with
        | (Failed e, ws') => handler e ws'
        | r => r
        end.

(** [{'success': ..., 'message': ..., 'rows_added': ...}] *)
Record push_result := {
  success : bool;
  message : string;
  rows_added : nat
}.

(** A nullable column as pandas delivers it: a text, [None], or the
    float [nan] that stands for a missing value. *)
Inductive nullable :=
| PyText (s : pystr)
| PyNone
| PyNaN.

(** A row of the DataFrame handed to the push. *)
Record df_row := {
  df_id : Z;
  df_qr_code : pystr;
  df_imei : pystr;
  df_device_name : pystr;
  df_capacity : pystr;
  df_supplier : pystr;
  df_status : pystr;
  df_sent_time : pystr;
  df_received_time : nullable;
  df_created_by : pystr;
  df_updated_by : nullable;
  df_notes : nullable
}.

(** [str(len(rows))] *)
Definition str_nat (n : nat) : string := NilZero.string_of_uint (Nat.to_uint n).

Definition headers : row :=
  of_string <$>
    ["ID"; "Mã QR Code"; "IMEI"; "Tên Thiết Bị"; "Dung Lượng";
     "Nhà Cung Cấp"; "Trạng Thái"; "Thời Gian Gửi"; "Thời Gian Nhận";
     "Người Tạo"; "Người Cập Nhật"; "Ghi Chú"; "Thời Gian Đồng Bộ"].

Section Push.

Notation "'let*' x ':=' m 'in' k" := (and_then m (fun x => k))
  (at level 10, x name, m at level 100, k at level 200, only parsing).

Variable E : env.

(** A worksheet call: it raises when the world says so, and otherwise
    acts on the rows. *)
Definition api_call {A} (c : api) (f : worksheet → A * worksheet) : S A :=
  λ ws, match api_raises E c with
        | Some e => (Failed e, ws)
        | None => let '(a, ws') := f ws in (Replied a, ws')
        end.

(** [worksheet.row_values(1)] *)
Definition row_values_1 : S row :=
  api_call RowValues (λ ws, (default [] (head ws), ws)).

(** [worksheet.clear()] *)
Definition clear : S unit := api_call Clear (λ _, (tt, [])).

(** [worksheet.append_row(r)] *)
Definition append_row (r : row) : S unit :=
  api_call AppendRow (λ ws, (tt, ws ++ [r])).

(** [worksheet.format('A1:M1', ...)] *)
Definition format_header : S unit := api_call Format (λ ws, (tt, ws)).

(** [worksheet.batch_clear(['A2:Z10000'])] *)
Definition batch_clear_below_header : S unit :=
  api_call BatchClear (λ ws, (tt, take 1 ws)).

(** [worksheet.col_values(1)]: the first cell of every row. *)
Definition col_values_1 : S (list pystr) :=
  api_call ColValues (λ ws, ((λ r, default [] (head r)) <$> ws, ws)).

(** [worksheet.append_rows(rows, value_input_option='USER_ENTERED')] *)
Definition append_rows (rows : list row) : S unit :=
  api_call AppendRows (λ ws, (tt, ws ++ rows)).

(** [setup_headers(worksheet)] *)
Definition setup_headers : S bool :=
  try_catch
    (let* existing_headers := row_values_1 in
     if bool_decide (existing_headers = []) ||
        negb (bool_decide (existing_headers = headers))
     then
       let* _ := clear in
       let* _ := append_row headers in
       let* _ := format_header in
       pure true
     else pure false)
    (λ _, pure false).

(** [str(v or '')] for a nullable column: [None] and the empty text are
    falsy, [nan] is truthy and is written as the text [nan]. *)
Definition str_or_empty (v : nullable) : pystr :=
  match v with
  | PyText s => s
  | PyNone => []
  | PyNaN => of_string "nan"
  end.

(** The [row_data] list built for one DataFrame row. *)
Definition row_data (sync_time : pystr) (r : df_row) : row :=
  [ str_int (df_id r); df_qr_code r; df_imei r; df_device_name r;
    df_capacity r; df_supplier r; df_status r; df_sent_time r;
    str_or_empty (df_received_time r); df_created_by r;
    str_or_empty (df_updated_by r); str_or_empty (df_notes r); sync_time ].

(** [str(row[0]).strip()] *)
Definition row_key (r : row) : pystr := strip (default [] (head r)).

(** The identifiers already in the sheet, from what [col_values(1)]
    returned: the header is skipped, empty cells dropped, the rest
    stripped. *)
Definition existing_ids_of (column : list pystr) : list pystr :=
  strip <$> filter (λ id_val, truthy id_val = true) (drop 1 column).

(** [push_shipments_to_sheets(shipments_df, append_mode)]; [sync_time] is
    the formatted clock reading. *)
Definition push_shipments_to_sheets (sync_time : pystr)
    (shipments_df : list df_row) (append_mode : bool) : S push_result :=
  if bool_decide (shipments_df = []) then
    pure {| success := false;
           message := "Không có dữ liệu để push lên Google Sheets";
           rows_added := 0 |}
  else
  try_catch
    (match client_error E with
     | Some error => pure {| success := false; message := error; rows_added := 0 |}
     | None =>
     let* _ := (match open_by_key_raises E with
                | Some e => raise e
                | None => pure tt
                end) in
     match worksheet_error E with
     | Some error => pure {| success := false; message := error; rows_added := 0 |}
     | None =>
     let* _ := setup_headers in
     let rows_to_add := row_data sync_time <$> shipments_df in
     let* rows_to_add :=
       (if negb append_mode then
          let* _ := batch_clear_below_header in pure rows_to_add
        else
          try_catch
            (let* column := col_values_1 in
             let existing_ids := existing_ids_of column in
             pure (filter (λ r, row_key r ∉ existing_ids) rows_to_add))
            (λ _, pure rows_to_add)) in
     if negb (bool_decide (rows_to_add = [])) then
       let* _ := append_rows rows_to_add in
       pure {| success := true;
              message := "Đã push " +:+ str_nat (length rows_to_add) +:+
                         " dòng dữ liệu lên Google Sheets thành công!";
              rows_added := length rows_to_add |}
     else if append_mode then
       pure {| success := true;
              message := "Tất cả dữ liệu đã tồn tại trong Google Sheets. Không có dữ liệu mới để thêm.";
              rows_added := 0 |}
     else
       pure {| success := true;
              message := "Đã push " +:+ str_nat (length rows_to_add) +:+
                         " dòng dữ liệu lên Google Sheets thành công!";
              rows_added := length rows_to_add |}
     end
     end)
    (λ e, match e with
          | APIError msg =>
              pure {| success := false;
                     message := "Lỗi API Google Sheets: " +:+ msg;
                     rows_added := 0 |}
          | Exception msg =>
              pure {| success := false;
                     message := "Lỗi không xác định: " +:+ msg;
                     rows_added := 0 |}
          end).

(** The worksheet as the duplicate check finds it: after header set-up. *)
Definition sheet_after_setup (ws : worksheet) : worksheet :=
  (setup_headers ws).2.

End Push.

(** ** The claim's notions *)

(** The cell of a row in column A. *)
Definition cell_A (r : row) : pystr := default [] (head r).

(** The identifier [i] already exists in the first column of the
    worksheet: a row below the header row carries it in column A, white
    space around it aside. *)
Definition id_listed (ws : worksheet) (i : Z) : Prop :=
  Exists (λ r, strip (cell_A r) = str_int i) (drop 1 ws).

Global Instance id_listed_dec (ws : worksheet) (i : Z) :
  Decision (id_listed ws i).
Proof. unfold id_listed. apply _. Defined.

(** The rows of the frame whose identifier the worksheet does not list. *)
Definition unlisted (ws : worksheet) (shipments_df : list df_row)
    : list df_row :=
  filter (λ r, ¬ id_listed ws (df_id r)) shipments_df.

(** The result of an append push that found nothing new. *)
Definition no_new_data : push_result :=
  {| success := true;
     message := "Tất cả dữ liệu đã tồn tại trong Google Sheets. Không có dữ liệu mới để thêm.";
     rows_added := 0 |}.

(** A world in which every call succeeds. *)
Definition all_calls_succeed : env :=
  {| client_error := None; open_by_key_raises := None;
     worksheet_error := None; api_raises := λ _, None |}.

(** Sample data: shipment 5, and a sheet that already lists it. *)
Definition sample_row : df_row :=
  {| df_id := 5; df_qr_code := of_string "ABC123";
     df_imei := of_string "IMEI001"; df_device_name := of_string "iPhone 15";
     df_capacity := of_string "128GB"; df_supplier := of_string "GHN";
     df_status := of_string "Đang gửi";
     df_sent_time := of_string "2024-05-01 08:00:00";
     df_received_time := PyNone; df_created_by := of_string "admin";
     df_updated_by := PyNone; df_notes := PyNone |}.

Definition sample_sheet : worksheet :=
  [ headers; row_data (of_string "2024-05-01 08:05:00") sample_row ].

(** A world in which the read of column A raises and every other call
    succeeds. *)
Definition column_read_fails : env :=
  {| client_error := None; open_by_key_raises := None;
     worksheet_error := None;
     api_raises := λ c, match c with
                        | ColValues => Some (APIError "Quota exceeded")
                        | _ => None
                        end |}.

(** The sample sheet under a header row that lacks the last column. *)
Definition old_header_sheet : worksheet :=
  [ take 12 headers; row_data (of_string "2024-05-01 08:05:00") sample_row ].

End GoogleSheets.

(* ===================================================================== *)
(** * auth.py: the login check *)
(* ===================================================================== *)

Module Auth.

(** [config.USERS] *)
Definition USERS : gmap string string :=
  {[ "admin" := "admin123"; "user" := "user123"; "staff" := "staff123" ]}.

(** A row of the [Users] table, keyed by its user name. *)
Record user := {
  password : string;
  is_admin : bool
}.

(** The [Users] table; [None] when the query raises (no database, no
    table). *)
Definition users_table := option (gmap string user).

(** [get_user(username)]: the row, or [None] when there is none or the
    query raised. *)
Definition get_user (t : users_table) (username : string) : option user :=
  match t with
  | Some rows => rows !! username
  | None => None
  end.

(** [set_user_password(username, password, is_admin)] *)
Definition set_user_password (t : users_table) (username new_password : string)
    (admin : bool) : users_table :=
  match t with
  | Some rows =>
      Some (<[username := {| password := new_password; is_admin := admin |}]> rows)
  | None => None
  end.

(** [check_login(username, password)] *)
Definition check_login (t : users_table) (username pwd : string) : bool :=
  match get_user t username with
  | Some db_user =>
      if bool_decide (password db_user = pwd) then true
      else bool_decide (USERS !! username = Some pwd)
  | None => bool_decide (USERS !! username = Some pwd)
  end.

End Auth.


(* ===================================================================== *)
(** * database.py: lookups by key, general updates, full histories *)
(* ===================================================================== *)

Module DatabaseUpdates.
Import Database.

(** [WHERE id = ?] *)
Definition has_id (shipment_id : Z) (r : shipment) : bool :=
  bool_decide (sd_id r = shipment_id).

(** [get_shipment_by_id(shipment_id)] *)
Definition get_shipment_by_id (d : db) (shipment_id : Z) : option shipment :=
  find (λ r, has_id shipment_id r) (ShipmentDetails d).

(** The arguments of [update_shipment] other than the key; [None] is an
    argument left at its default. *)
Record changes := {
  ch_qr_code : option string;
  ch_imei : option string;
  ch_device_name : option string;
  ch_capacity : option string;
  ch_supplier : option string;
  ch_status : option string;
  ch_notes : option string;
  ch_updated_by : option string;
  ch_image_url : option string;
  ch_telegram_message_id : option Z
}.

(** [if not updates:] no argument was given. *)
Definition no_changes (c : changes) : bool :=
  bool_decide (ch_qr_code c = None) && bool_decide (ch_imei c = None) &&
  bool_decide (ch_device_name c = None) && bool_decide (ch_capacity c = None) &&
  bool_decide (ch_supplier c = None) && bool_decide (ch_status c = None) &&
  bool_decide (ch_notes c = None) && bool_decide (ch_updated_by c = None) &&
  bool_decide (ch_image_url c = None) &&
  bool_decide (ch_telegram_message_id c = None).

(** The [SET] clause [update_shipment] builds, applied to a row; [now]
    is [CURRENT_TIMESTAMP]. *)
Definition set_fields (now : string) (c : changes) (r : shipment) : shipment :=
  {| sd_id := sd_id r;
     sd_qr_code := default (sd_qr_code r) (ch_qr_code c);
     sd_imei := default (sd_imei r) (ch_imei c);
     sd_device_name := default (sd_device_name r) (ch_device_name c);
     sd_capacity := default (sd_capacity r) (ch_capacity c);
     sd_supplier := default (sd_supplier r) (ch_supplier c);
     sd_status := default (sd_status r) (ch_status c);
     sd_sent_time := sd_sent_time r;
     sd_received_time :=
       match ch_status c with
       | Some status =>
           if bool_decide (status = RECEIVED) then Some now
           else sd_received_time r
       | None => sd_received_time r
       end;
     sd_created_by := sd_created_by r;
     sd_updated_by :=
       match ch_updated_by c with
       | Some u => Some u
       | None => sd_updated_by r
       end;
     sd_notes :=
       match ch_notes c with
       | Some n => Some n
       | None => sd_notes r
       end;
     sd_image_url :=
       match ch_image_url c with
       | Some u => Some u
       | None => sd_image_url r
       end;
     sd_telegram_message_id :=
       match ch_telegram_message_id c with
       | Some m => Some m
       | None => sd_telegram_message_id r
       end |}.

(** The [UPDATE] would give the row with key [shipment_id] a code that
    another row carries: [qr_code TEXT UNIQUE] is violated. *)
Definition code_taken_by_other (d : db) (shipment_id : Z) (c : changes) : bool :=
  match ch_qr_code c with
  | Some q =>
      existsb (has_id shipment_id) (ShipmentDetails d) &&
      existsb (λ r, negb (has_id shipment_id r) && has_qr_code q r)
        (ShipmentDetails d)
  | None => false
  end.

(** [updated_by or 'system'] *)
Definition actor (updated_by : option string) : string :=
  match updated_by with
  | Some u => if bool_decide (u = "") then "system" else u
  | None => "system"
  end.

(** [update_shipment(shipment_id, qr_code, ..., telegram_message_id)];
    [now] is the [CURRENT_TIMESTAMP] of the [UPDATE], [w] the answer to
    the audit [INSERT] that follows. *)
Definition update_shipment (d : db) (now : string) (w : audit_insert)
    (shipment_id : Z) (c : changes) : result * db :=
  if no_changes c then
    ({| success := false; error := Some "Không có thông tin để cập nhật" |}, d)
  else if code_taken_by_other d shipment_id c then
    ({| success := false; error := Some "Mã QR đã tồn tại" |}, d)
  else
    let d1 :=
      {| ShipmentDetails :=
           (λ r, if has_id shipment_id r then set_fields now c r else r)
             <$> ShipmentDetails d;
         ShipmentDetails_seq := ShipmentDetails_seq d;
         AuditLog := AuditLog d; AuditLog_seq := AuditLog_seq d |} in
    let d2 := log_audit d1 w shipment_id "UPDATED" None
                "Shipment information updated"
                (Some (actor (ch_updated_by c))) in
    ({| success := true; error := None |}, d2).

(** [update_telegram_message(shipment_id, message_id)]; it returns
    [True]. *)
Definition update_telegram_message (d : db) (shipment_id message_id : Z) : db :=
  {| ShipmentDetails :=
       (λ r, if has_id shipment_id r
             then {| sd_id := sd_id r; sd_qr_code := sd_qr_code r;
                     sd_imei := sd_imei r; sd_device_name := sd_device_name r;
                     sd_capacity := sd_capacity r; sd_supplier := sd_supplier r;
                     sd_status := sd_status r; sd_sent_time := sd_sent_time r;
                     sd_received_time := sd_received_time r;
                     sd_created_by := sd_created_by r;
                     sd_updated_by := sd_updated_by r; sd_notes := sd_notes r;
                     sd_image_url := sd_image_url r;
                     sd_telegram_message_id := Some message_id |}
             else r) <$> ShipmentDetails d;
     ShipmentDetails_seq := ShipmentDetails_seq d;
     AuditLog := AuditLog d; AuditLog_seq := AuditLog_seq d |}.

(** ** Histories over every operation that writes shipments *)

Inductive action :=
| Save (now : string) (w : audit_insert)
    (qr_code imei device_name capacity supplier created_by : string)
    (notes image_url : option string)
| SetStatus (now : string) (w : audit_insert) (qr_code new_status : string)
    (updated_by notes : option string)
| Update (now : string) (w : audit_insert) (shipment_id : Z) (c : changes)
| SetTelegram (shipment_id message_id : Z).

Definition perform (d : db) (a : action) : db :=
  match a with
  | Save now w qr_code imei device_name capacity supplier created_by notes
      image_url =>
      (save_shipment d now w qr_code imei device_name capacity supplier
         created_by notes image_url).2
  | SetStatus now w qr_code new_status updated_by notes =>
      (update_shipment_status d now w qr_code new_status updated_by notes).2
  | Update now w shipment_id c => (update_shipment d now w shipment_id c).2
  | SetTelegram shipment_id message_id =>
      update_telegram_message d shipment_id message_id
  end.

(** The store after a list of actions, starting from the empty tables. *)
Definition replay (actions : list action) : db := foldl perform empty_db actions.

(** The codes of the shipments in the store. *)
Definition codes (d : db) : list string := sd_qr_code <$> ShipmentDetails d.

(** The shipment with key [i] held the received status at some point. *)
Definition was_received (actions : list action) (i : Z) : Prop :=
  ∃ (k : nat) (r : shipment),
    r ∈ ShipmentDetails (replay (take k actions)) ∧ sd_id r = i ∧
    sd_status r = RECEIVED.

(** What every row rewrite of the operations does: the key, the sent
    time and the creator stay, and the received time is either stamped
    together with the received status or left as it was. *)
Definition stamps_or_keeps (g : shipment → shipment) : Prop :=
  ∀ r, sd_id (g r) = sd_id r ∧ sd_sent_time (g r) = sd_sent_time r ∧
       sd_created_by (g r) = sd_created_by r ∧
       ((sd_status (g r) = RECEIVED ∧ sd_received_time (g r) ≠ None) ∨
        (sd_received_time (g r) = sd_received_time r ∧
         (sd_status (g r) = RECEIVED → sd_status r = RECEIVED))).

(** The change that only sets a status. *)
Definition status_change (status updated_by : string) : changes :=
  {| ch_qr_code := None; ch_imei := None; ch_device_name := None;
     ch_capacity := None; ch_supplier := None; ch_status := Some status;
     ch_notes := None; ch_updated_by := Some updated_by; ch_image_url := None;
     ch_telegram_message_id := None |}.

(** A store with two shipments, used in the examples. *)
Definition two_saves : list action :=
  [ Save "2024-05-01 08:00:00" (Executed "2024-05-01 08:00:00") "ABC123"
      "IMEI001" "iPhone 15" "128GB" "GHN" "admin" None None;
    Save "2024-05-01 09:00:00" (Executed "2024-05-01 09:00:00") "XYZ789"
      "IMEI002" "Pixel 8" "256GB" "J&T" "user" None None ].

Definition first_shipment : shipment :=
  {| sd_id := 1; sd_qr_code := "ABC123"; sd_imei := "IMEI001";
     sd_device_name := "iPhone 15"; sd_capacity := "128GB";
     sd_supplier := "GHN"; sd_status := DEFAULT_STATUS;
     sd_sent_time := "2024-05-01 08:00:00"; sd_received_time := None;
     sd_created_by := "admin"; sd_updated_by := None; sd_notes := None;
     sd_image_url := None; sd_telegram_message_id := None |}.

Definition second_shipment : shipment :=
  {| sd_id := 2; sd_qr_code := "XYZ789"; sd_imei := "IMEI002";
     sd_device_name := "Pixel 8"; sd_capacity := "256GB";
     sd_supplier := "J&T"; sd_status := DEFAULT_STATUS;
     sd_sent_time := "2024-05-01 09:00:00"; sd_received_time := None;
     sd_created_by := "user"; sd_updated_by := None; sd_notes := None;
     sd_image_url := None; sd_telegram_message_id := None |}.

(** The change that only sets a code. *)
Definition code_change (qr_code : string) : changes :=
  {| ch_qr_code := Some qr_code; ch_imei := None; ch_device_name := None;
     ch_capacity := None; ch_supplier := None; ch_status := None;
     ch_notes := None; ch_updated_by := None; ch_image_url := None;
     ch_telegram_message_id := None |}.

End DatabaseUpdates.

(* ===================================================================== *)
(** * telegram_helpers.py: the notification of a received shipment *)
(* ===================================================================== *)

Module TelegramHelpers.
Import Database DatabaseUpdates.

(** What [send_text] and [send_photo] return: they catch every exception
    themselves. *)
Record tg_result := {
  tg_success : bool;
  tg_error : option string;
  tg_message_id : option Z
}.

(** The chat service: what it answers to a photo with caption and to a
    text. *)
Record telegram := {
  send_photo : string → string → tg_result;
  send_text : string → tg_result
}.

(** A message handed to the chat service. *)
Inductive sent :=
| Photo (photo_url caption : string)
| Text (message : string).

(** The line feed of the message text. *)
Definition nl : string := String (Ascii.ascii_of_nat 10) "".

(** [v or ''] *)
Definition or_empty (v : option string) : string := default "" v.

(** [_format_shipment_text(shipment, is_update_image)] *)
Definition _format_shipment_text (s : shipment) (is_update_image : bool) : string :=
  let note := or_empty (sd_notes s) in
  let recv_time := or_empty (sd_received_time s) in
  let sent_time := sd_sent_time s in
  let header := if is_update_image then "Cập nhật ảnh" else "Phiếu đã nhận" in
  "<b>" +:+ header +:+ "</b>" +:+ nl +:+
  "QR: " +:+ sd_qr_code s +:+ nl +:+
  "IMEI: " +:+ sd_imei s +:+ nl +:+
  "Thiết bị: " +:+ sd_device_name s +:+ nl +:+
  "Dung lượng: " +:+ sd_capacity s +:+ nl +:+
  "NCC: " +:+ sd_supplier s +:+ nl +:+
  "Trạng thái: " +:+ sd_status s +:+ nl +:+
  "Thời gian gửi: " +:+ sent_time +:+ nl +:+
  "Thời gian nhận: " +:+ recv_time +:+ nl +:+
  "Ghi chú: " +:+ note.

(** Truthiness of a stored message id and of a stored link. *)
Definition id_truthy (m : option Z) : bool :=
  match m with
  | Some z => negb (bool_decide (z = 0))
  | None => false
  end.

Definition url_truthy (u : option string) : bool :=
  match u with
  | Some s => negb (bool_decide (s = ""))
  | None => false
  end.

(** [notify_shipment_if_received(shipment_id, force, is_update_image)]:
    what it returns ([None] for a bare [return]), the store afterwards and
    the messages handed to the chat service, in order. *)
Definition notify_shipment_if_received (tg : telegram) (d : db)
    (shipment_id : Z) (force is_update_image : bool)
    : option tg_result * db * list sent :=
  match get_shipment_by_id d shipment_id with
  | None => (None, d, [])
  | Some shipment =>
      if negb (bool_decide (sd_status shipment = RECEIVED)) then (None, d, [])
      else
        let already_sent := sd_telegram_message_id shipment in
        let image_url := sd_image_url shipment in
        if id_truthy already_sent &&
           negb (is_update_image && url_truthy image_url)
        then (None, d, [])
        else
          let message_text := _format_shipment_text shipment is_update_image in
          let '(res, outbox) :=
            if url_truthy image_url then
              let url := or_empty image_url in
              let res := send_photo tg url message_text in
              if negb (tg_success res) then
                let message_text := message_text +:+ nl +:+ "Ảnh: " +:+ url in
                (send_text tg message_text,
                 [Photo url (_format_shipment_text shipment is_update_image);
                  Text message_text])
              else (res, [Photo url message_text])
            else (send_text tg message_text, [Text message_text]) in
          let d' :=
            if tg_success res && id_truthy (tg_message_id res)
            then update_telegram_message d shipment_id
                   (default 0 (tg_message_id res))
            else d in
          (Some res, d', outbox)
  end.

(** A chat service that accepts every message under the id [m]. *)
Definition accepting (m : Z) : telegram :=
  {| send_photo := λ _ _, {| tg_success := true; tg_error := None;
                             tg_message_id := Some m |};
     send_text := λ _, {| tg_success := true; tg_error := None;
                          tg_message_id := Some m |} |}.

(** A chat service that refuses photos and accepts texts. *)
Definition refusing_photos (m : Z) : telegram :=
  {| send_photo := λ _ _, {| tg_success := false;
                             tg_error := Some "Bad Request: wrong file";
                             tg_message_id := None |};
     send_text := λ _, {| tg_success := true; tg_error := None;
                          tg_message_id := Some m |} |}.

End TelegramHelpers.

(* ===================================================================== *)
(** * database.py: suppliers, and the seeding of [init_database] *)
(* ===================================================================== *)

Module Suppliers.
Import Database.

(** A row of [Suppliers]. *)
Record supplier := {
  sp_id : Z;
  sp_name : string;
  sp_contact : option string;
  sp_address : option string;
  sp_is_active : bool
}.

(** [{'success': ..., 'id': ..., 'error': ...}] of [add_supplier] *)
Record add_result := {
  add_success : bool;
  add_id : option Z;
  add_error : option string
}.

(** [SELECT MAX(id) FROM Suppliers]: [None] on the empty table. *)
Definition max_id (rows : list supplier) : option Z :=
  match rows with
  | [] => None
  | r :: rest => Some (foldr Z.max (sp_id r) (sp_id <$> rest))
  end.

(** [(max_id or 0) + 1] *)
Definition new_id (rows : list supplier) : Z :=
  match max_id rows with
  | None => 0 + 1
  | Some m => (if bool_decide (m = 0) then 0 else m) + 1
  end.

Definition named (name : string) (r : supplier) : bool :=
  bool_decide (sp_name r = name).

Definition keyed (supplier_id : Z) (r : supplier) : bool :=
  bool_decide (sp_id r = supplier_id).

(** [add_supplier(name, contact, address)]: the [INSERT] violates the
    primary key or [name TEXT UNIQUE] when a row has the key or the name. *)
Definition add_supplier (rows : list supplier) (name : string)
    (contact address : option string) : add_result * list supplier :=
  let i := new_id rows in
  if existsb (keyed i) rows || existsb (named name) rows then
    ({| add_success := false; add_id := None;
        add_error := Some "Tên nhà cung cấp đã tồn tại" |}, rows)
  else
    ({| add_success := true; add_id := Some i; add_error := None |},
     rows ++ [{| sp_id := i; sp_name := name; sp_contact := contact;
                 sp_address := address; sp_is_active := true |}]).

(** The [SET] clause of [update_supplier] applied to a row. *)
Definition set_supplier_fields (name contact address : option string)
    (is_active : option bool) (r : supplier) : supplier :=
  {| sp_id := sp_id r;
     sp_name := default (sp_name r) name;
     sp_contact := match contact with Some c => Some c | None => sp_contact r end;
     sp_address := match address with Some a => Some a | None => sp_address r end;
     sp_is_active := default (sp_is_active r) is_active |}.

(** [update_supplier(supplier_id, name, contact, address, is_active)] *)
Definition update_supplier (rows : list supplier) (supplier_id : Z)
    (name contact address : option string) (is_active : option bool)
    : result * list supplier :=
  if bool_decide (name = None) && bool_decide (contact = None) &&
     bool_decide (address = None) && bool_decide (is_active = None) then
    ({| success := false; error := Some "Không có thông tin để cập nhật" |}, rows)
  else if match name with
          | Some n =>
              existsb (keyed supplier_id) rows &&
              existsb (λ r, negb (keyed supplier_id r) && named n r) rows
          | None => false
          end then
    ({| success := false; error := Some "Tên nhà cung cấp đã tồn tại" |}, rows)
  else
    ({| success := true; error := None |},
     (λ r, if keyed supplier_id r
           then set_supplier_fields name contact address is_active r else r)
       <$> rows).

(** [delete_supplier(supplier_id)]: the row is kept, its flag cleared. *)
Definition delete_supplier (rows : list supplier) (supplier_id : Z)
    : result * list supplier :=
  ({| success := true; error := None |},
   (λ r, if keyed supplier_id r
         then {| sp_id := sp_id r; sp_name := sp_name r;
                 sp_contact := sp_contact r; sp_address := sp_address r;
                 sp_is_active := false |}
         else r) <$> rows).

(** [ORDER BY name]: byte-wise comparison of the names. *)
Definition by_name (r1 r2 : supplier) : Prop :=
  String.leb (sp_name r1) (sp_name r2) = true.

Global Instance by_name_dec (r1 r2 : supplier) : Decision (by_name r1 r2).
Proof. unfold by_name. apply _. Defined.

(** [get_all_suppliers()] *)
Definition get_all_suppliers (rows : list supplier) : list supplier :=
  merge_sort by_name rows.

(** [get_suppliers()]: the active rows, without the flag column. *)
Definition get_suppliers (rows : list supplier)
    : list (Z * string * option string * option string) :=
  (λ r, (sp_id r, sp_name r, sp_contact r, sp_address r))
    <$> merge_sort by_name (filter (λ r, sp_is_active r = true) rows).

(** ** Seeding *)

(** [config.DEFAULT_SUPPLIERS] *)
Definition DEFAULT_SUPPLIERS : list supplier :=
  [ {| sp_id := 1; sp_name := "GHN"; sp_contact := Some "0987654321";
       sp_address := Some "Hà Nội"; sp_is_active := true |};
    {| sp_id := 2; sp_name := "J&T"; sp_contact := Some "0912345678";
       sp_address := Some "TP.HCM"; sp_is_active := true |};
    {| sp_id := 3; sp_name := "Ahamove"; sp_contact := Some "0998765432";
       sp_address := Some "TP.HCM"; sp_is_active := true |} ].

(** [INSERT OR IGNORE INTO Suppliers]: ignored when the key or the name is
    taken. *)
Definition insert_or_ignore (rows : list supplier) (s : supplier) : list supplier :=
  if existsb (keyed (sp_id s)) rows || existsb (named (sp_name s)) rows
  then rows else rows ++ [s].

(** The supplier loop of [init_database]. *)
Definition seed_suppliers (rows : list supplier) : list supplier :=
  foldl insert_or_ignore rows DEFAULT_SUPPLIERS.

(** [config.USERS], in the order the dictionary lists its items. *)
Definition USERS_items : list (string * string) :=
  [("admin", "admin123"); ("user", "user123"); ("staff", "staff123")].

(** [INSERT OR IGNORE INTO Users], with [is_admin = 1 if username ==
    'admin' else 0]. *)
Definition insert_user_or_ignore (rows : gmap string Auth.user)
    (item : string * string) : gmap string Auth.user :=
  match rows !! item.1 with
  | Some _ => rows
  | None =>
      <[item.1 := {| Auth.password := item.2;
                     Auth.is_admin := bool_decide (item.1 = "admin") |}]> rows
  end.

(** The user loop of [init_database]. *)
Definition seed_users (rows : gmap string Auth.user) : gmap string Auth.user :=
  foldl insert_user_or_ignore rows USERS_items.

End Suppliers.

(* ===================================================================== *)
(** * auth.py: remember tokens and the session *)
(* ===================================================================== *)

Module RememberTokens.
Import Auth.

(** A [datetime] without time zone, in microseconds since [datetime.min];
    [datetime.max] is the last microsecond of the year 9999. *)
Definition datetime := Z.

Definition DAY : Z := 86400 * 1000000.
Definition MAX_DATETIME : datetime := 3652059 * DAY - 1.

(** [timedelta] holds at most 999999999 days either way. *)
Definition MAX_DELTA_DAYS : Z := 999999999.

(** An entry of the token file. [expires_at] is kept as the [datetime]
    its ISO text stands for; [None] is a text [fromisoformat] rejects. *)
Record info := {
  username : string;
  expires_at : option datetime
}.

(** [remember_tokens.json]: [content] is [None] when the file is
    missing, unreadable or not a JSON object; [writable] tells whether
    [open(REMEMBER_FILE, "w")] and the dump succeed. *)
Record token_file := {
  content : option (gmap string info);
  writable : bool
}.

(** [_load_tokens()] *)
Definition _load_tokens (f : token_file) : gmap string info :=
  default ∅ (content f).

(** [_save_tokens(tokens)]: a failing write is swallowed. *)
Definition _save_tokens (f : token_file) (tokens : gmap string info)
    : token_file :=
  if writable f then {| content := Some tokens; writable := true |} else f.

(** [datetime.utcnow() + timedelta(days=days_valid)]; [None] when either
    raises [OverflowError]. *)
Definition expiry (now : datetime) (days_valid : Z) : option datetime :=
  if bool_decide (- MAX_DELTA_DAYS ≤ days_valid ≤ MAX_DELTA_DAYS) then
    let e := now + days_valid * DAY in
    if bool_decide (0 ≤ e ≤ MAX_DATETIME) then Some e else None
  else None.

(** [create_remember_token(username, days_valid)]: [token] is the text of
    the drawn UUID, [now] the clock reading; the result is [None] when
    the expiry overflows, which happens before the file is read. *)
Definition create_remember_token (f : token_file) (token : string)
    (now : datetime) (user : string) (days_valid : Z)
    : option string * token_file :=
  match expiry now days_valid with
  | None => (None, f)
  | Some e =>
      let tokens := _load_tokens f in
      (Some token,
       _save_tokens f (<[token := {| username := user;
                                     expires_at := Some e |}]> tokens))
  end.

(** [get_username_from_token(token)] at the clock reading [now] *)
Definition get_username_from_token (f : token_file) (now : datetime)
    (token : string) : option string * token_file :=
  if bool_decide (token = "") then (None, f)
  else
    let tokens := _load_tokens f in
    match tokens !! token with
    | None => (None, f)
    | Some i =>
        match expires_at i with
        | None => (None, f)
        | Some e =>
            if bool_decide (now > e) then
              (None, _save_tokens f (delete token tokens))
            else (Some (username i), f)
        end
    end.

(** [remove_token(token)] *)
Definition remove_token (f : token_file) (token : string) : token_file :=
  if bool_decide (token = "") then f
  else
    let tokens := _load_tokens f in
    if bool_decide (is_Some (tokens !! token))
    then _save_tokens f (delete token tokens)
    else f.

(** [st.session_state.get('username')] *)
Definition session := option string.

(** [get_current_user()] *)
Definition get_current_user (s : session) : option string := s.

(** [is_logged_in()] *)
Definition is_logged_in (s : session) : bool := bool_decide (is_Some s).

(** [login(username, password)] *)
Definition login (t : users_table) (s : session) (user pwd : string)
    : bool * session :=
  if check_login t user pwd then (true, Some user) else (false, s).

(** A token file that holds nothing and can be written. *)
Definition empty_file : token_file := {| content := None; writable := true |}.

(** A users table in which [staff] carries the admin flag. *)
Definition flagged_staff : users_table :=
  Some {[ "staff" := {| password := "s3cret"; is_admin := true |} ]}.

(** [is_admin()]: the name of the session's user is compared, the
    [is_admin] column of [Users] is not read. *)
Definition is_admin (s : session) : bool :=
  bool_decide (get_current_user s = Some "admin").

End RememberTokens.
(* ===================================================================== *)
(** * Part two: the properties *)
(* ===================================================================== *)

(* ===================================================================== *)
(** * Properties of the payload parser *)
(* ===================================================================== *)

Section ParserProperties.
Import PyStr QrParser.

Lemma split_comma_free (s : pystr) : comma_free s → split comma s = [s].
Proof.
  unfold comma_free. induction s as [|c s IH]; intros Hc; [done|].
  apply not_elem_of_cons in Hc as [Hne Hs]. simpl.
  destruct (N.eqb_spec c comma) as [->|_]; [done|].
  by rewrite IH.
Qed.

Lemma split_app_comma (a rest : pystr) :
  comma_free a → split comma (a ++ comma :: rest) = a :: split comma rest.
Proof.
  unfold comma_free. induction a as [|c a IH]; intros Hc; simpl.
  - reflexivity.
  - apply not_elem_of_cons in Hc as [Hne Ha].
    destruct (N.eqb_spec c comma) as [->|_]; [done|].
    by rewrite IH.
Qed.

Lemma lstrip_no_leading_space (s : pystr) :
  starts_with_space s = false → lstrip s = s.
Proof. destruct s as [|c s]; simpl; [done|]. by intros ->. Qed.

Lemma strip_trimmed (s : pystr) : trimmed s → strip s = s.
Proof.
  intros [Hl Hr]. unfold strip, rstrip.
  rewrite (lstrip_no_leading_space s Hl).
  rewrite (lstrip_no_leading_space (reverse s) Hr).
  apply reverse_involutive.
Qed.

(** The padding loop stops within its four iterations, with at least
    four parts. *)
Lemma pad_loop_four (parts : list pystr) :
  pad_loop 4 parts = parts ++ replicate (4 - length parts) [].
Proof.
  destruct parts as [|a [|b [|c [|d rest]]]]; simpl; try done.
  by rewrite app_nil_r.
Qed.

Lemma pad_loop_exits (parts : list pystr) :
  (length (pad_loop 4 parts) <? 4)%nat = false.
Proof. by destruct parts as [|a [|b [|c [|d rest]]]]. Qed.

Lemma padded_fields (parts : list pystr) :
  let padded := pad_loop 4 parts in
  [item_or_empty padded 0; item_or_empty padded 1;
   item_or_empty padded 2; item_or_empty padded 3] = first_four_padded parts.
Proof.
  unfold first_four_padded.
  by destruct parts as [|a [|b [|c [|d rest]]]].
Qed.

Lemma parse_nonempty (s : pystr) :
  s ≠ [] →
  parse_qr_code (Some s) =
    let parts := pad_loop 4 (strip <$> split comma s) in
    Some {| qr_code := item_or_empty parts 0; imei := item_or_empty parts 1;
            device_name := item_or_empty parts 2;
            capacity := item_or_empty parts 3 |}.
Proof. by destruct s. Qed.

(** C5: on a non-empty string the parser returns a record of exactly
    four fields, which are the first four comma-separated segments, each
    trimmed, with empty strings for the missing ones and the segments
    after the fourth dropped; a string without comma gives its trimmed
    text as the code and three empty fields; on the empty string and on
    [None] the parser returns [None]. *)
Theorem parse_qr_code_four_fields :
  (∀ s : pystr, s ≠ [] →
     ∃ d, parse_qr_code (Some s) = Some d ∧
          length (fields d) = 4%nat ∧
          fields d = first_four_padded (strip <$> split comma s) ∧
          (comma_free s →
           d = {| qr_code := strip s; imei := []; device_name := [];
                  capacity := [] |})) ∧
  parse_qr_code (Some []) = None ∧
  parse_qr_code None = None.
Proof.
  split; [|done].
  intros s Hs. rewrite (parse_nonempty s Hs). eexists. split; [done|].
  split; [done|]. split.
  - apply padded_fields.
  - intros Hfree. by rewrite (split_comma_free s Hfree).
Qed.

Lemma parse_qr_code_four_fields_witness :
  ∃ d, parse_qr_code (Some (of_string "ABC123, IMEI001")) = Some d ∧
       length (fields d) = 4%nat ∧
       fields d = first_four_padded
                    (strip <$> split comma (of_string "ABC123, IMEI001")) ∧
       (comma_free (of_string "ABC123, IMEI001") →
        d = {| qr_code := strip (of_string "ABC123, IMEI001"); imei := [];
               device_name := []; capacity := [] |}).
Proof.
  apply (proj1 parse_qr_code_four_fields). discriminate.
Defined.

(** The scenario of the specification, and the edge cases it lists. *)
Example parse_scenario :
  parse_qr_code (Some (of_string "ABC123,IMEI001,iPhone 15,128GB"))
  = Some {| qr_code := of_string "ABC123"; imei := of_string "IMEI001";
            device_name := of_string "iPhone 15";
            capacity := of_string "128GB" |}.
Proof. reflexivity. Qed.

Example parse_extra_segments_dropped :
  parse_qr_code (Some (of_string " A , B ,C,D,E,F"))
  = Some {| qr_code := of_string "A"; imei := of_string "B";
            device_name := of_string "C"; capacity := of_string "D" |}.
Proof. reflexivity. Qed.

Example parse_leading_and_trailing_comma :
  parse_qr_code (Some (of_string ",A,"))
  = Some {| qr_code := []; imei := of_string "A"; device_name := [];
            capacity := [] |}.
Proof. reflexivity. Qed.

(** C6: when the four fields of a record contain no comma and neither
    start nor end with white space, parsing the comma-joined fields gives
    the record back. *)
Theorem parse_serialize_roundtrip (d : qr_data) :
  Forall (λ f, comma_free f ∧ trimmed f) (fields d) →
  parse_qr_code (Some (serialize d)) = Some d.
Proof.
  destruct d as [q i n c]. intros H.
  change (serialize _) with (q ++ comma :: i ++ comma :: n ++ comma :: c).
  apply Forall_cons in H as [[Hq Tq] H].
  apply Forall_cons in H as [[Hi Ti] H].
  apply Forall_cons in H as [[Hn Tn] H].
  apply Forall_cons in H as [[Hc Tc] _].
  rewrite parse_nonempty by (by destruct q).
  rewrite !split_app_comma, (split_comma_free c) by done.
  cbn [fmap list_fmap]. rewrite pad_loop_four.
  unfold item_or_empty; simpl.
  by rewrite !strip_trimmed.
Qed.

Lemma parse_serialize_roundtrip_witness :
  let d := {| qr_code := of_string "ABC123"; imei := of_string "IMEI001";
              device_name := of_string "iPhone 15";
              capacity := of_string "128GB" |} in
  Forall (λ f, comma_free f ∧ trimmed f) (fields d) ∧
  parse_qr_code (Some (serialize d)) = Some d.
Proof.
  intros d.
  assert (Forall (λ f, comma_free f ∧ trimmed f) (fields d)) as Hd.
  { repeat (apply Forall_cons; split); try apply Forall_nil_2;
      (split; [unfold comma_free; apply (bool_decide_unpack _); vm_compute; exact I
              | split; reflexivity]). }
  split; [exact Hd|]. apply (parse_serialize_roundtrip d Hd).
Defined.

End ParserProperties.

(* ===================================================================== *)
(** * Properties of the decode chain *)
(* ===================================================================== *)

Section DecodeProperties.
Import PyStr QrDecode.
Context {ndarray pil : Type}.
Variable L : libs ndarray pil.

(** [m], and [K] when [m] returned nothing. *)
Local Notation "'chain_step' m K" :=
  (bind m (λ r, match r with Some result => ret (Some result) | None => K end))
  (at level 10, m at level 9, K at level 9, only parsing).

(** One round of the loop over the preprocessing methods. *)
Local Notation "'method_step' m K" :=
  (bind (try_except m (ret None))
     (λ result, match result with
                | Some r => if truthy r then ret (Some r) else K
                | None => K
                end))
  (at level 10, m at level 9, K at level 9, only parsing).

Ltac unfold_blocks :=
  cbv [method1_opencv method2_pyzbar
       decode_grayscale_opencv decode_resized_opencv decode_binarized_opencv
       resized_2x to_gray guarded run_strategy
       run_decoder fixed_binary adaptive_binary
       multi_on_gray single_on_gray fallback_on_original single_on_upscaled
       single_on_fixed_binary single_on_adaptive_binary
       prepare decoder_of nonempty
       bind ret call decode_call try_except].

(** A call assumed not to raise did raise. *)
Ltac absurd_raise :=
  match goal with
  | H : ∀ a, returns (detectAndDecodeMulti _ a),
    E : detectAndDecodeMulti _ ?x = Raised |- _ =>
      destruct (H x) as [? H']; rewrite H' in E; discriminate E
  | H : ∀ a, returns (detectAndDecode _ a),
    E : detectAndDecode _ ?x = Raised |- _ =>
      destruct (H x) as [? H']; rewrite H' in E; discriminate E
  | H : ∀ a, returns (threshold _ a _ _ _),
    E : threshold _ ?x _ _ _ = Raised |- _ =>
      destruct (H x) as [? H']; rewrite H' in E; discriminate E
  | H : ∀ a, returns (adaptiveThreshold _ a _ _ _ _ _),
    E : adaptiveThreshold _ ?x _ _ _ _ _ = Raised |- _ =>
      destruct (H x) as [? H']; rewrite H' in E; discriminate E
  end.

(** Case analysis on the next library call (or test) the goal mentions. *)
Ltac lib_case :=
  match goal with
  | |- context [is_3d ?l ?a] => destruct (is_3d l a) eqn:?
  | |- context [cvtColor ?l ?a ?c] => destruct (cvtColor l a c) eqn:?
  | |- context [QRCodeDetector ?l] => destruct (QRCodeDetector l) as [[]|] eqn:?
  | |- context [detectAndDecodeMulti ?l ?a] =>
      destruct (detectAndDecodeMulti l a) as [[[] ?]|] eqn:?
  | |- context [detectAndDecode ?l ?a] => destruct (detectAndDecode l a) eqn:?
  | |- context [pyzbar_decode ?l ?a] =>
      destruct (pyzbar_decode l a) as [[|[?|] ?]|] eqn:?
  | |- context [unpack2 ?t] => destruct (unpack2 t) as [[? ?]|] eqn:?
  | |- context [resize ?l ?a ?s ?i] => destruct (resize l a s i) eqn:?
  | |- context [threshold ?l ?a ?t ?m ?k] => destruct (threshold l a t m k) eqn:?
  | |- context [adaptiveThreshold ?l ?a ?m ?am ?k ?b ?c] =>
      destruct (adaptiveThreshold l a m am k b c) eqn:?
  | |- context [info_truthy ?i] => destruct (info_truthy i) eqn:?
  | |- context [truthy ?s] => destruct (truthy s) eqn:?
  end.

Ltac chain_cases :=
  repeat (cbn [app fst snd andb negb];
          first [reflexivity | discriminate | absurd_raise | lib_case]).

Lemma bind_ret_l {A B} (x : A) (f : A → M (ndarray:=ndarray) B) :
  bind (ret x) f = f x.
Proof. unfold bind, ret. by destruct (f x). Qed.

(** ** Each block of the source as strategies *)

Lemma method1_block (a : ndarray) (K : M (option pystr)) :
  (∀ b, returns (detectAndDecodeMulti L b)) →
  chain_step (try_except (method1_opencv L a) (ret None)) K =
  chain_step (run_strategy L (multi_on_gray L) a)
    (chain_step (run_strategy L (single_on_gray L) a) K).
Proof. intros Hm. destruct K as [lK oK]. unfold_blocks. chain_cases. Qed.

Lemma method2_block (a : ndarray) (K : M (option pystr)) :
  fallback_payload_nonempty L →
  chain_step (try_except (method2_pyzbar L a) (ret None)) K =
  chain_step (run_strategy L fallback_on_original a) K.
Proof.
  intros Hp. destruct K as [lK oK]. unfold_blocks.
  destruct (pyzbar_decode L a) as [[|[s|] objs]|] eqn:E; cbn [app];
    try reflexivity.
  rewrite (Hp _ _ _ E). reflexivity.
Qed.

Lemma grayscale_block (a : ndarray) (K : M (option pystr)) :
  CV2_AVAILABLE L = true →
  method_step (decode_grayscale_opencv L a) K =
  chain_step (run_strategy L (single_on_gray L) a) K.
Proof.
  intros Hcv. destruct K as [lK oK]. unfold_blocks. rewrite Hcv. chain_cases.
Qed.

Lemma resized_block (a : ndarray) (K : M (option pystr)) :
  CV2_AVAILABLE L = true →
  method_step (decode_resized_opencv L a) K =
  chain_step (run_strategy L (single_on_upscaled L) a) K.
Proof.
  intros Hcv. destruct K as [lK oK]. unfold_blocks. rewrite Hcv. chain_cases.
Qed.

Lemma binarized_block (a : ndarray) (K : M (option pystr)) :
  CV2_AVAILABLE L = true →
  (∀ b, returns (detectAndDecode L b)) →
  (∀ b, returns (threshold L b 127 255 THRESH_BINARY)) →
  (∀ b, returns (adaptiveThreshold L b 255 ADAPTIVE_THRESH_GAUSSIAN_C
                   THRESH_BINARY 11 2)) →
  method_step (decode_binarized_opencv L a) K =
  chain_step (run_strategy L (single_on_fixed_binary L) a)
    (chain_step (run_strategy L (single_on_adaptive_binary L) a) K).
Proof.
  intros Hcv Hs Ht Ha. destruct K as [lK oK]. unfold_blocks. rewrite Hcv.
  chain_cases.
Qed.

Lemma run_strategy_returns (s : strategy) (a : ndarray) :
  ∃ l r, run_strategy L s a = (l, Returned r).
Proof.
  unfold run_strategy, try_except, bind, ret.
  destruct (prepare s a) as [l [b|]]; [|by eauto].
  destruct (run_decoder L (decoder_of s) b) as [l' [r|]]; by eauto.
Qed.

Lemma first_success_returns (chain : list strategy) (a : ndarray) :
  ∃ l r, first_success L chain a = (l, Returned r).
Proof.
  induction chain as [|s chain IH]; simpl; [by eexists _, _|].
  destruct (run_strategy_returns s a) as (l & r & ->).
  unfold bind. destruct r as [x|]; [by eexists _, _|].
  destruct IH as (l' & r' & ->). by eexists _, _.
Qed.

(** C7, amended: with both libraries available, no decode call of the
    detector and no thresholding call raising, and the fallback library
    never delivering an empty first payload, the decode attempts made and
    the value returned are those of the strategies run in this order until
    the first yields a non-empty string: multi-code call on the grayscale
    buffer, single-code call on the same buffer, fallback library on the
    original buffer, then single-code call on the grayscale buffer, on the
    buffer upscaled twice with cubic interpolation (handed over without
    grayscale conversion), on the fixed-threshold-127 binarisation and on
    the adaptive Gaussian binarisation. *)
Theorem decode_follows_code_chain (img : image ndarray pil) (a : ndarray) :
  CV2_AVAILABLE L = true → PYZBAR_AVAILABLE L = true →
  detector_never_raises L → fallback_payload_nonempty L →
  match img with PILImage p => np_array L p | Array a' => Returned a' end
    = Returned a →
  decode_qr_from_image L img = first_success L (code_chain L) a.
Proof.
  intros Hcv Hzb (Hm & Hs & Ht & Ha) Hp Himg.
  assert (decode_qr_from_image L img = decode_qr_from_image L (Array a)) as ->.
  { unfold decode_qr_from_image. destruct img as [p|a']; [|congruence].
    rewrite Himg. reflexivity. }
  unfold decode_qr_from_image. rewrite Hcv, Hzb, bind_ret_l.
  cbn [try_methods methods].
  rewrite binarized_block, resized_block, grayscale_block by done.
  rewrite method2_block, method1_block by done.
  destruct (first_success_returns (code_chain L) a) as (l & r & E).
  unfold code_chain in E |- *. cbn [first_success] in E |- *.
  rewrite E. reflexivity.
Qed.

(** ** The chain never raises *)

Lemma guarded_returns (flag : bool) (block : ndarray → M (option pystr))
    (a : ndarray) :
  ∃ l r, guarded flag block a = (l, Returned r).
Proof.
  unfold guarded, try_except, ret. destruct flag; [|by eauto].
  destruct (block a) as [l [r|]]; by eauto.
Qed.

Lemma first_returned_returns (blocks : list (ndarray → M (option pystr)))
    (a : ndarray) :
  Forall (λ b, ∃ l r, b a = (l, Returned r)) blocks →
  ∃ l r, first_returned blocks a = (l, Returned r).
Proof.
  induction 1 as [|b blocks (l & r & Hb) _ IH]; simpl; [by eexists _, _|].
  rewrite Hb. unfold bind. destruct r as [x|]; [by eexists _, _|].
  destruct IH as (l' & r' & ->). by eexists _, _.
Qed.

Lemma guarded_blocks_return (a : ndarray) :
  ∃ l r, first_returned (guarded_blocks L) a = (l, Returned r).
Proof.
  apply first_returned_returns. unfold guarded_blocks.
  repeat constructor; apply guarded_returns.
Qed.

Lemma grayscale_guarded (a : ndarray) (K : M (option pystr)) :
  method_step (decode_grayscale_opencv L a) K =
  chain_step (guarded true (decode_grayscale_opencv L) a) K.
Proof.
  destruct K as [lK oK]. unfold_blocks.
  destruct (CV2_AVAILABLE L); chain_cases.
Qed.

Lemma resized_guarded (a : ndarray) (K : M (option pystr)) :
  method_step (decode_resized_opencv L a) K =
  chain_step (guarded true (decode_resized_opencv L) a) K.
Proof.
  destruct K as [lK oK]. unfold_blocks.
  destruct (CV2_AVAILABLE L); chain_cases.
Qed.

Lemma binarized_guarded (a : ndarray) (K : M (option pystr)) :
  method_step (decode_binarized_opencv L a) K =
  chain_step (guarded true (decode_binarized_opencv L) a) K.
Proof.
  destruct K as [lK oK]. unfold_blocks.
  destruct (CV2_AVAILABLE L); chain_cases.
Qed.

Lemma decode_as_guarded_blocks (a : ndarray) :
  decode_qr_from_image L (Array a) = first_returned (guarded_blocks L) a.
Proof.
  destruct (guarded_blocks_return a) as (l & r & E).
  unfold guarded_blocks in E |- *. cbn [first_returned] in E |- *.
  unfold decode_qr_from_image. rewrite bind_ret_l. cbn [try_methods methods].
  destruct (CV2_AVAILABLE L).
  - rewrite binarized_guarded, resized_guarded, grayscale_guarded.
    change (if PYZBAR_AVAILABLE L
            then try_except (method2_pyzbar L a) (ret None) else ret None)
      with (guarded (PYZBAR_AVAILABLE L) (method2_pyzbar L) a).
    change (try_except (method1_opencv L a) (ret None))
      with (guarded true (method1_opencv L) a).
    rewrite E. reflexivity.
  - change (if PYZBAR_AVAILABLE L
            then try_except (method2_pyzbar L a) (ret None) else ret None)
      with (guarded (PYZBAR_AVAILABLE L) (method2_pyzbar L) a).
    destruct (guarded_returns (PYZBAR_AVAILABLE L) (method2_pyzbar L) a)
      as (l2 & r2 & E2).
    rewrite E2. destruct r2; reflexivity.
Qed.

(** Rewriting with the answers the case analysis has recorded. *)
Ltac use_answers :=
  repeat match goal with
         | E : ?x = _ |- context [?x] => rewrite E
         end.

(** A decoder assumed to find nothing on a prepared buffer did find a
    code there. *)
Ltac absurd_found :=
  match goal with
  | E : detectAndDecode _ ?b = Returned ?d, T : truthy ?d = true,
    H : ∀ g, _ = Returned g → single_found_nothing (detectAndDecode _ g) = true
    |- _ =>
      exfalso;
      assert (single_found_nothing (detectAndDecode L b) = true) as Hs
        by (apply H; unfold_blocks; use_answers; reflexivity);
      rewrite E in Hs; simpl in Hs; rewrite T in Hs; discriminate Hs
  | E : detectAndDecodeMulti _ ?b = Returned (true, ?i),
    T1 : info_truthy ?i = true, T2 : truthy (info_first ?i) = true,
    H : ∀ g, _ = Returned g →
             multi_found_nothing (detectAndDecodeMulti _ g) = true
    |- _ =>
      exfalso;
      assert (multi_found_nothing (detectAndDecodeMulti L b) = true) as Hm
        by (apply H; unfold_blocks; use_answers; reflexivity);
      rewrite E in Hm; simpl in Hm; rewrite T1, T2 in Hm; discriminate Hm
  | E : pyzbar_decode _ ?b = Returned (Returned _ :: _),
    H : fallback_found_nothing (pyzbar_decode _ ?b) = true |- _ =>
      exfalso; rewrite E in H; discriminate H
  | H : fallback_found_nothing (Returned (Returned _ :: _)) = true |- _ =>
      exfalso; discriminate H
  end.

Ltac nothing_cases :=
  repeat (cbn [app fst snd andb negb];
          first [absurd_found | by eexists | lib_case]).

Ltac in_chain :=
  unfold code_chain;
  repeat first [apply list_elem_of_here | apply list_elem_of_further].

Lemma guarded_blocks_find_nothing (a : ndarray) :
  no_strategy_finds L a →
  Forall (λ b, ∃ l, b a = (l, Returned None)) (guarded_blocks L).
Proof.
  intros H.
  assert (∀ g, (to_gray L a).2 = Returned g →
               multi_found_nothing (detectAndDecodeMulti L g) = true)
    as Hmulti by (intros g; apply (H (multi_on_gray L) g); in_chain).
  assert (∀ g, (to_gray L a).2 = Returned g →
               single_found_nothing (detectAndDecode L g) = true)
    as Hsingle by (intros g; apply (H (single_on_gray L) g); in_chain).
  assert (fallback_found_nothing (pyzbar_decode L a) = true)
    as Hfallback by (apply (H fallback_on_original a); [in_chain|done]).
  assert (∀ g, (resized_2x L a).2 = Returned g →
               single_found_nothing (detectAndDecode L g) = true)
    as Hupscaled by (intros g; apply (H (single_on_upscaled L) g); in_chain).
  assert (∀ g, (fixed_binary L a).2 = Returned g →
               single_found_nothing (detectAndDecode L g) = true)
    as Hfixed by (intros g; apply (H (single_on_fixed_binary L) g); in_chain).
  assert (∀ g, (adaptive_binary L a).2 = Returned g →
               single_found_nothing (detectAndDecode L g) = true)
    as Hadaptive
    by (intros g; apply (H (single_on_adaptive_binary L) g); in_chain).
  clear H. unfold guarded_blocks.
  repeat constructor; unfold guarded.
  - clear Hfallback Hupscaled Hfixed Hadaptive.
    unfold_blocks. destruct (CV2_AVAILABLE L); nothing_cases.
  - clear Hmulti Hsingle Hupscaled Hfixed Hadaptive.
    unfold_blocks. destruct (PYZBAR_AVAILABLE L); nothing_cases.
  - clear Hmulti Hfallback Hupscaled Hfixed Hadaptive.
    unfold_blocks. destruct (CV2_AVAILABLE L); nothing_cases.
  - clear Hmulti Hsingle Hfallback Hfixed Hadaptive.
    unfold_blocks. destruct (CV2_AVAILABLE L); nothing_cases.
  - clear Hmulti Hsingle Hfallback Hupscaled.
    unfold_blocks. destruct (CV2_AVAILABLE L); nothing_cases.
Qed.

Lemma first_returned_nothing (blocks : list (ndarray → M (option pystr)))
    (a : ndarray) :
  Forall (λ b, ∃ l, b a = (l, Returned None)) blocks →
  ∃ l, first_returned blocks a = (l, Returned None).
Proof.
  induction 1 as [|b blocks (l & Hb) _ (l' & IH)]; simpl; [by eexists|].
  rewrite Hb. unfold bind. rewrite IH. by eexists.
Qed.

(** C8: [decode_qr_from_image] never raises; for an image in which no
    strategy finds a code (on the buffer each strategy prepares from that
    image, its decoder finds nothing, whatever the decoders read from
    other buffers) it returns [None], as it does when the image cannot be
    converted; and its result is that of the five guarded blocks run in
    order, where a block that raises counts as one that found nothing and
    the next block runs. *)
Theorem decode_not_found_without_raising (img : image ndarray pil) :
  (∃ l r, decode_qr_from_image L img = (l, Returned r)) ∧
  (∀ a, img = Array a ∨ (∃ p, img = PILImage p ∧ np_array L p = Returned a) →
        no_strategy_finds L a →
        (decode_qr_from_image L img).2 = Returned None) ∧
  (∀ p, img = PILImage p → np_array L p = Raised →
        decode_qr_from_image L img = ([], Returned None)) ∧
  (∀ a, img = Array a ∨ (∃ p, img = PILImage p ∧ np_array L p = Returned a) →
        decode_qr_from_image L img = first_returned (guarded_blocks L) a).
Proof.
  assert (∀ p a, np_array L p = Returned a →
            decode_qr_from_image L (PILImage p) = decode_qr_from_image L (Array a))
    as Hpil.
  { intros p a E. unfold decode_qr_from_image. by rewrite E. }
  assert (∀ p, np_array L p = Raised →
            decode_qr_from_image L (PILImage p) = ([], Returned None)) as Hraise.
  { intros p E. unfold decode_qr_from_image. by rewrite E. }
  split; [|split; [|split]].
  - destruct img as [p|a].
    + destruct (np_array L p) as [a|] eqn:E.
      * rewrite (Hpil p a E), decode_as_guarded_blocks.
        apply guarded_blocks_return.
      * rewrite (Hraise p E). by eexists _, _.
    + rewrite decode_as_guarded_blocks. apply guarded_blocks_return.
  - intros a Himg Hnone.
    assert ((decode_qr_from_image L (Array a)).2 = Returned None) as Harr.
    { rewrite decode_as_guarded_blocks.
      destruct (first_returned_nothing _ a (guarded_blocks_find_nothing a Hnone))
        as (l & ->). done. }
    destruct Himg as [->|(p & -> & E)]; [done|]. by rewrite (Hpil p a E).
  - intros p -> E. by apply Hraise.
  - intros a [->|(p & -> & E)].
    + apply decode_as_guarded_blocks.
    + rewrite (Hpil p a E). apply decode_as_guarded_blocks.
Qed.

End DecodeProperties.

Section DecodeExamples.
Import PyStr QrDecode.

(** C7 as stated fails: on a colour image whose code only the grayscale
    version of the upscaled image shows, the order of the specification
    reads the code at its fifth attempt, while [decode_qr_from_image]
    hands the upscaled colour buffer to the detector, goes on to the
    binarisations and returns [None]. *)
Lemma upscaled_buffer_is_not_converted_to_gray :
  let L := symbolic_libs reads_gray_upscaled in
  decode_qr_from_image L (Array Captured)
  = ([ DetectMulti (Gray Captured); DetectSingle (Gray Captured);
       Pyzbar Captured; DetectSingle (Gray Captured);
       DetectSingle (Upscaled Captured);
       DetectSingle (Binary127 (Gray Captured));
       DetectSingle (AdaptiveGaussian (Gray Captured)) ],
     Returned None) ∧
  first_success L (claimed_chain L) Captured
  = ([ DetectMulti (Gray Captured); DetectSingle (Gray Captured);
       Pyzbar Captured; DetectSingle (Gray Captured);
       DetectSingle (Gray (Upscaled Captured)) ],
     Returned (Some (of_string "ABC123"))) ∧
  decode_qr_from_image L (Array Captured)
  ≠ first_success L (claimed_chain L) Captured.
Proof. vm_compute. repeat split; discriminate. Qed.

Lemma symbolic_libs_never_raise (single : buffer → pystr) :
  detector_never_raises (symbolic_libs single) ∧
  fallback_payload_nonempty (symbolic_libs single).
Proof.
  split.
  - repeat split; intros a; eexists; reflexivity.
  - intros a objs s. discriminate.
Qed.

Lemma decode_follows_code_chain_witness :
  decode_qr_from_image (symbolic_libs reads_nothing) (Array Captured)
  = first_success (symbolic_libs reads_nothing)
      (code_chain (symbolic_libs reads_nothing)) Captured.
Proof.
  apply (decode_follows_code_chain (symbolic_libs reads_nothing)
           (Array Captured) Captured).
  - reflexivity.
  - reflexivity.
  - repeat split; intros a; eexists; reflexivity.
  - intros a objs s; discriminate.
  - reflexivity.
Defined.

Lemma decode_not_found_without_raising_witness :
  let L := symbolic_libs reads_gray_upscaled in
  detectAndDecode L (Gray (Upscaled Captured)) = Returned (of_string "ABC123") ∧
  no_strategy_finds L Captured ∧
  (decode_qr_from_image L (PILImage ())).2 = Returned None.
Proof.
  intros L.
  assert (no_strategy_finds L Captured) as Hnone.
  { intros s buf Hs Hbuf. unfold code_chain in Hs.
    repeat (apply elem_of_cons in Hs as [->|Hs];
            [vm_compute in Hbuf; injection Hbuf as <-; reflexivity|]).
    by apply elem_of_nil in Hs. }
  split; [reflexivity|]. split; [exact Hnone|].
  apply (proj1 (proj2 (decode_not_found_without_raising L (PILImage ())))
           Captured);
    [right; exists (); split; reflexivity | exact Hnone].
Defined.

(** A block that raises is skipped: with a conversion to grayscale that
    always raises, only the fallback library is consulted, and its code
    is returned. *)
Example exception_in_a_block_is_skipped :
  let L0 := symbolic_libs reads_nothing in
  let L :=
    {| CV2_AVAILABLE := true; PYZBAR_AVAILABLE := true;
       np_array := np_array L0; shape := shape L0;
       cvtColor := λ _ _, Raised;
       resize := λ _ _ _, Raised;
       threshold := threshold L0; adaptiveThreshold := adaptiveThreshold L0;
       QRCodeDetector := QRCodeDetector L0;
       detectAndDecodeMulti := detectAndDecodeMulti L0;
       detectAndDecode := detectAndDecode L0;
       pyzbar_decode := λ _, Returned [Returned (of_string "ABC123")] |} in
  decode_qr_from_image L (Array Captured)
  = ([Pyzbar Captured], Returned (Some (of_string "ABC123"))).
Proof. reflexivity. Qed.

End DecodeExamples.

(* ===================================================================== *)
(** * Properties of the shipment store *)
(* ===================================================================== *)

Section DatabaseProperties.
Import Database.

Lemma existsb_has_qr_code (qr_code : string) (rows : list shipment) (r : shipment) :
  r ∈ rows → sd_qr_code r = qr_code →
  existsb (has_qr_code qr_code) rows = true.
Proof.
  intros Hin Hqr. apply existsb_exists. exists r. split.
  - by apply list_elem_of_In.
  - unfold has_qr_code. by apply bool_decide_eq_true_2.
Qed.

(** C4: creating a shipment under a code that a stored record already
    carries fails with the duplicate-code error, success false and no
    identifier, and leaves the store as it was: no record is inserted and
    the existing ones are untouched. *)
Theorem save_shipment_duplicate_code (d : db) (r : shipment)
    (now : string) (w : audit_insert)
    (qr_code imei device_name capacity supplier created_by : string)
    (notes image_url : option string) :
  r ∈ ShipmentDetails d → sd_qr_code r = qr_code →
  save_shipment d now w qr_code imei device_name capacity supplier created_by
    notes image_url
  = ({| save_success := false; save_id := None;
        save_error := Some "Mã QR đã tồn tại" |}, d).
Proof.
  intros Hin Hqr. unfold save_shipment.
  by rewrite (existsb_has_qr_code qr_code _ r Hin Hqr).
Qed.

Lemma save_shipment_duplicate_code_witness :
  let d := run [sample_create] in
  ∃ r, ShipmentDetails d = [r] ∧
       save_shipment d "2024-05-04 12:00:00" (Executed "2024-05-04 12:00:00")
         "ABC123" "IMEI999" "Pixel 8" "256GB" "J&T" "user" (Some "again") None
       = ({| save_success := false; save_id := None;
             save_error := Some "Mã QR đã tồn tại" |}, d).
Proof.
  intros d. eexists. split; [reflexivity|].
  eapply save_shipment_duplicate_code;
    [apply list_elem_of_here | reflexivity].
Defined.

(** C3 as stated fails.  The audit [INSERT] of [log_audit] can fail, and
    [log_audit] swallows the failure: a transition called without a user
    name (the column [changed_by] is [NOT NULL]), or one whose audit
    [INSERT] raises, updates the shipment and reports success, and no
    audit entry is appended. *)
Lemma transition_succeeds_without_audit_entry :
  let d := run [sample_create] in
  let unnamed := update_shipment_status d "2024-05-02T09:30:00"
                   (Executed "2024-05-02 02:30:00") "ABC123" "Đã nhận"
                   None None in
  let refused := update_shipment_status d "2024-05-02T09:30:00" Raises
                   "ABC123" "Đã nhận" (Some "staff") None in
  (sd_status <$> get_shipment_by_qr_code d "ABC123") = Some "Đang gửi" ∧
  unnamed.1 = {| success := true; error := None |} ∧
  (sd_status <$> get_shipment_by_qr_code unnamed.2 "ABC123") = Some "Đã nhận" ∧
  AuditLog unnamed.2 = AuditLog d ∧
  refused.1 = {| success := true; error := None |} ∧
  (sd_status <$> get_shipment_by_qr_code refused.2 "ABC123") = Some "Đã nhận" ∧
  AuditLog refused.2 = AuditLog d.
Proof. vm_compute. repeat split. Qed.

(** C3, amended: a status transition that succeeds, is made under a user
    name and has its audit [INSERT] executed appends exactly one audit
    entry; its action is [STATUS_CHANGED], its shipment the one found
    under the code, its old value the status that record had, its new
    value the requested status and its actor that user name, whichever
    the two status values are.  A transition that succeeds without a user
    name, or whose audit [INSERT] raises, appends no entry. *)
Theorem transition_appends_one_audit_entry (d d' : db) (res : result)
    (now : string) (w : audit_insert) (qr_code new_status : string)
    (updated_by notes : option string) :
  update_shipment_status d now w qr_code new_status updated_by notes
  = (res, d') →
  success res = true →
  ∃ r : shipment,
    get_shipment_by_qr_code d qr_code = Some r ∧
    (∀ current_timestamp user,
       w = Executed current_timestamp → updated_by = Some user →
       ∃ e : audit_entry,
         AuditLog d' = AuditLog d ++ [e] ∧
         al_shipment_id e = sd_id r ∧
         al_action e = "STATUS_CHANGED" ∧
         al_old_value e = Some (sd_status r) ∧
         al_new_value e = new_status ∧
         al_changed_by e = user) ∧
    (w = Raises ∨ updated_by = None → AuditLog d' = AuditLog d).
Proof.
  unfold update_shipment_status, get_shipment_by_qr_code.
  destruct (find _ _) as [found|]; intros [= <- <-]; [|done].
  intros _. exists found. split; [done|]. split.
  - intros current_timestamp user -> ->. eexists. by repeat split.
  - intros [-> | ->]; [done|]. by destruct w.
Qed.

Lemma transition_appends_one_audit_entry_witness :
  let d := run [sample_create] in
  let out := update_shipment_status d "2024-05-02T09:30:00"
               (Executed "2024-05-02 02:30:00") "ABC123" "Mất"
               (Some "staff") None in
  ∃ r : shipment,
    get_shipment_by_qr_code d "ABC123" = Some r ∧
    (∀ current_timestamp user,
       Executed "2024-05-02 02:30:00" = Executed current_timestamp →
       Some "staff" = Some user →
       ∃ e : audit_entry,
         AuditLog out.2 = AuditLog d ++ [e] ∧
         al_shipment_id e = sd_id r ∧
         al_action e = "STATUS_CHANGED" ∧
         al_old_value e = Some (sd_status r) ∧
         al_new_value e = "Mất" ∧
         al_changed_by e = user) ∧
    (Executed "2024-05-02 02:30:00" = Raises ∨ Some "staff" = None →
     AuditLog out.2 = AuditLog d).
Proof.
  intros d out.
  apply (transition_appends_one_audit_entry d out.2 out.1
           "2024-05-02T09:30:00" (Executed "2024-05-02 02:30:00") "ABC123"
           "Mất" (Some "staff") None);
    reflexivity.
Defined.

(** The scenario of the specification: the first transition to received
    logs the pair sent, received, at the time SQLite reads. *)
Example audit_entry_of_scenario :
  AuditLog (run (take 2 sample_history))
  = AuditLog (run [sample_create]) ++
    [{| al_id := 2; al_shipment_id := 1; al_action := "STATUS_CHANGED";
        al_old_value := Some "Đang gửi"; al_new_value := "Đã nhận";
        al_changed_by := "staff"; al_timestamp := "2024-05-02 02:30:00" |}].
Proof. reflexivity. Qed.

(** C1 as stated fails.  The stored record is in the received status and
    a request for that same status arrives: [update_shipment_status]
    applies it, stamping the received time anew and replacing updated-by;
    and the update button lets such a request through when the screen
    still holds the record as it was before it was received. *)
Lemma same_status_request_is_applied :
  let d := run (take 2 sample_history) in
  let stale := {| sd_id := 1; sd_qr_code := "ABC123"; sd_imei := "IMEI001";
                  sd_device_name := "iPhone 15"; sd_capacity := "128GB";
                  sd_supplier := "GHN"; sd_status := "Đang gửi";
                  sd_sent_time := "2024-05-01 08:00:00";
                  sd_received_time := None; sd_created_by := "admin";
                  sd_updated_by := None; sd_notes := None;
                  sd_image_url := None; sd_telegram_message_id := None |} in
  let out := update_shipment_status d "2024-05-09T18:00:00"
               (Executed "2024-05-09 11:00:00") "ABC123" "Đã nhận"
               (Some "user") (Some "lần hai") in
  (sd_status <$> get_shipment_by_qr_code d "ABC123") = Some "Đã nhận" ∧
  (sd_received_time <$> get_shipment_by_qr_code d "ABC123")
    = Some (Some "2024-05-02T09:30:00") ∧
  (sd_updated_by <$> get_shipment_by_qr_code d "ABC123") = Some (Some "staff") ∧
  out.1 = {| success := true; error := None |} ∧
  (sd_received_time <$> get_shipment_by_qr_code out.2 "ABC123")
    = Some (Some "2024-05-09T18:00:00") ∧
  (sd_updated_by <$> get_shipment_by_qr_code out.2 "ABC123") = Some (Some "user") ∧
  (sd_notes <$> get_shipment_by_qr_code out.2 "ABC123") = Some (Some "lần hai") ∧
  length (AuditLog out.2) = S (length (AuditLog d)) ∧
  update_status_button d "2024-05-09T18:00:00" (Executed "2024-05-09 11:00:00")
    stale "Đã nhận" "lần hai" "user"
  = (st_success, out.2).
Proof. vm_compute. repeat split. Qed.

(** C1, amended: when the requested status equals the status of the
    record the status screen holds, the update button answers with a
    warning, does not call [update_shipment_status] and leaves the store,
    and with it the record's status, received time, notes and updated-by,
    as it was. *)
Theorem update_status_button_rejects_same_status (d : db) (shipment : shipment)
    (now : string) (w : audit_insert) (new_status notes current_user : string) :
  new_status = sd_status shipment →
  update_status_button d now w shipment new_status notes current_user
  = (st_warning, d).
Proof.
  intros ->. unfold update_status_button.
  by rewrite bool_decide_eq_true_2.
Qed.

Lemma update_status_button_rejects_same_status_witness :
  let d := run (take 2 sample_history) in
  ∃ r, get_shipment_by_qr_code d "ABC123" = Some r ∧
       update_status_button d "2024-05-09T18:00:00"
         (Executed "2024-05-09 11:00:00") r "Đã nhận" "lần hai" "user"
       = (st_warning, d).
Proof.
  intros d. eexists. split; [reflexivity|].
  apply update_status_button_rejects_same_status. reflexivity.
Defined.

(** ** Histories *)

Lemma run_snoc (ops : list op) (o : op) : run (ops ++ [o]) = step (run ops) o.
Proof. unfold run. by rewrite foldl_app. Qed.

Lemma no_match_no_change (qr_code : string) (f : shipment → shipment)
    (rows : list shipment) :
  find (λ r, has_qr_code qr_code r) rows = None →
  (λ r, if has_qr_code qr_code r then f r else r) <$> rows = rows.
Proof.
  induction rows as [|r rows IH]; [done|]. simpl.
  destruct (has_qr_code qr_code r); [done|]. intros E. f_equal. by apply IH.
Qed.

Lemma update_shipment_status_rows (d : db) (now : string) (w : audit_insert)
    (qr_code new_status : string) (updated_by notes : option string) :
  ShipmentDetails
    (update_shipment_status d now w qr_code new_status updated_by notes).2
  = (λ r, if has_qr_code qr_code r
          then set_status_fields now new_status updated_by notes r else r)
      <$> ShipmentDetails d.
Proof.
  unfold update_shipment_status.
  destruct (find _ _) as [found|] eqn:E.
  - cbn [snd]. unfold log_audit. by destruct w, updated_by.
  - simpl. by rewrite no_match_no_change.
Qed.

Lemma next_rowid_fresh (seq : Z) (keys : list Z) : next_rowid seq keys ∉ keys.
Proof.
  assert (∀ x, x ∈ keys → x ≤ foldr Z.max seq keys) as Hle.
  { induction keys as [|y keys IH]; intros x Hx; [by apply elem_of_nil in Hx|].
    apply elem_of_cons in Hx as [->|Hx]; simpl; [lia|].
    specialize (IH x Hx). lia. }
  intros Hin. apply Hle in Hin. unfold next_rowid in Hin. lia.
Qed.

Lemma save_shipment_rows (d : db) (now : string) (w : audit_insert)
    (qr_code imei device_name capacity supplier created_by : string)
    (notes image_url : option string) :
  let d' := (save_shipment d now w qr_code imei device_name capacity supplier
               created_by notes image_url).2 in
  ShipmentDetails d' = ShipmentDetails d ∨
  ∃ row, ShipmentDetails d' = ShipmentDetails d ++ [row] ∧
         (sd_id row ∉ ids d) ∧
         sd_status row = DEFAULT_STATUS ∧ sd_received_time row = None.
Proof.
  unfold save_shipment. destruct (existsb _ _); [by left|]. right.
  eexists. split; [by destruct w|]. split; [|done]. apply next_rowid_fresh.
Qed.

Lemma update_shipment_status_ids (d : db) (now : string) (w : audit_insert)
    (qr_code new_status : string) (updated_by notes : option string) :
  ids (update_shipment_status d now w qr_code new_status updated_by notes).2
  = ids d.
Proof.
  unfold ids. rewrite update_shipment_status_rows, <- list_fmap_compose.
  apply list_fmap_ext. intros _ r _. simpl. by destruct (has_qr_code qr_code r).
Qed.

(** A step keeps the keys, or adds a fresh one at the end. *)
Lemma step_ids (d : db) (o : op) :
  ids (step d o) = ids d ∨
  ∃ i, ids (step d o) = ids d ++ [i] ∧ i ∉ ids d.
Proof.
  destruct o; simpl.
  - destruct (save_shipment_rows d now w qr_code imei device_name capacity
                supplier created_by notes image_url) as [E|(row & E & Hf & _)];
      unfold ids; rewrite E; [by left|right].
    exists (sd_id row). by rewrite fmap_app.
  - left. apply update_shipment_status_ids.
Qed.

Lemma run_ids_nodup (ops : list op) : NoDup (ids (run ops)).
Proof.
  induction ops as [|o ops IH] using rev_ind; [constructor|].
  rewrite run_snoc. destruct (step_ids (run ops) o) as [->|(i & -> & Hi)]; [done|].
  apply NoDup_app. split; [done|]. split; [|apply NoDup_singleton].
  intros x Hx Hx'. by apply list_elem_of_singleton in Hx' as ->.
Qed.

Lemma run_ids_persist (ops : list op) (k : nat) (i : Z) :
  i ∈ ids (run (take k ops)) → i ∈ ids (run ops).
Proof.
  induction ops as [|o ops IH] using rev_ind; [by rewrite take_nil|].
  destruct (decide (k ≤ length ops)%nat) as [Hk|Hk].
  - rewrite take_app_le by done. intros Hi%IH. rewrite run_snoc.
    destruct (step_ids (run ops) o) as [->|(j & -> & _)]; [done|].
    apply elem_of_app. by left.
  - rewrite take_ge; [done|]. rewrite length_app; simpl; lia.
Qed.

Lemma ever_received_snoc (ops : list op) (o : op) (i : Z) :
  ever_received (ops ++ [o]) i ↔
  ever_received ops i ∨
  ∃ r, r ∈ ShipmentDetails (run (ops ++ [o])) ∧ sd_id r = i ∧ sd_status r = RECEIVED.
Proof.
  split.
  - intros (k & r & Hin & Hid & Hst).
    destruct (decide (k ≤ length ops)%nat) as [Hk|Hk].
    + left. exists k, r. by rewrite take_app_le in Hin.
    + right. exists r. rewrite take_ge in Hin; [done|].
      rewrite length_app; simpl; lia.
  - intros [(k & r & Hin & Hid & Hst)|(r & Hin & Hid & Hst)].
    + destruct (decide (k ≤ length ops)%nat) as [Hk|Hk].
      * exists k, r. by rewrite take_app_le.
      * exists (length ops), r. rewrite take_ge in Hin by lia.
        by rewrite take_app_length.
    + exists (length (ops ++ [o])), r. by rewrite firstn_all.
Qed.

Lemma default_status_is_not_received : DEFAULT_STATUS ≠ RECEIVED.
Proof. done. Qed.

Lemma id_determines_row (rows : list shipment) (r1 r2 : shipment) :
  NoDup (sd_id <$> rows) → r1 ∈ rows → r2 ∈ rows → sd_id r1 = sd_id r2 → r1 = r2.
Proof.
  induction rows as [|r rows IH]; intros Hnd H1 H2 Hid.
  - by apply elem_of_nil in H1.
  - rewrite fmap_cons in Hnd. apply NoDup_cons in Hnd as [Hnot Hnd].
    apply elem_of_cons in H1 as [->|H1]; apply elem_of_cons in H2 as [->|H2].
    + done.
    + exfalso. apply Hnot. rewrite Hid. by apply list_elem_of_fmap_2.
    + exfalso. apply Hnot. rewrite <- Hid. by apply list_elem_of_fmap_2.
    + by apply IH.
Qed.

Lemma received_time_invariant (ops : list op) (r : shipment) :
  r ∈ ShipmentDetails (run ops) →
  sd_received_time r ≠ None ↔ ever_received ops (sd_id r).
Proof.
  revert r. induction ops as [|o ops IH] using rev_ind; intros r Hin.
  { by apply elem_of_nil in Hin. }
  rewrite ever_received_snoc.
  pose proof (run_ids_nodup ops) as Hnd. unfold ids in Hnd.
  assert (∀ r0 : shipment, r0 ∈ ShipmentDetails (run ops) →
            sd_status r0 = RECEIVED → ever_received ops (sd_id r0)) as Hnow.
  { intros r0 H0 Hst. exists (length ops), r0. by rewrite firstn_all. }
  assert (∀ i, ever_received ops i → i ∈ ids (run ops)) as Hknown.
  { intros i (k & r0 & H0 & <- & _). apply (run_ids_persist ops k).
    by apply list_elem_of_fmap_2. }
  rewrite run_snoc in Hin |- *. destruct o; simpl in Hin |- *.
  - (* a shipment is created *)
    destruct (save_shipment_rows (run ops) now w qr_code imei device_name
                capacity supplier created_by notes image_url)
      as [E|(row & E & Hfresh & Hst & Hrt)]; rewrite E in Hin |- *.
    + rewrite (IH r Hin). split; [by left|].
      intros [?|(r0 & H0 & <- & Hs)]; [done|]. by apply Hnow.
    + apply elem_of_app in Hin as [Hin|Hin].
      * rewrite (IH r Hin). split; [by left|].
        intros [?|(r0 & H0 & Hid & Hs)]; [done|].
        apply elem_of_app in H0 as [H0|H0].
        -- rewrite <- Hid. by apply Hnow.
        -- apply list_elem_of_singleton in H0 as ->.
           rewrite Hst in Hs. by destruct default_status_is_not_received.
      * apply list_elem_of_singleton in Hin as ->. rewrite Hrt.
        split; [done|]. intros [Hev|(r0 & H0 & Hid & Hs)].
        -- by apply Hknown in Hev.
        -- apply elem_of_app in H0 as [H0|H0].
           ++ destruct Hfresh. rewrite <- Hid. by apply list_elem_of_fmap_2.
           ++ apply list_elem_of_singleton in H0 as ->.
              rewrite Hst in Hs. by destruct default_status_is_not_received.
  - (* a status transition *)
    rewrite update_shipment_status_rows in Hin |- *.
    apply list_elem_of_fmap in Hin as (r0 & -> & Hin0).
    assert (∀ x : shipment,
              sd_id (if has_qr_code qr_code x
                     then set_status_fields now new_status updated_by notes x
                     else x) = sd_id x) as Hid.
    { intros x. by destruct (has_qr_code qr_code x). }
    rewrite Hid. specialize (IH r0 Hin0).
    destruct (has_qr_code qr_code r0) eqn:Hq; simpl.
    + (* the row is updated *)
      case_bool_decide as Hnew.
      * split; [|done]. intros _. right.
        exists (set_status_fields now new_status updated_by notes r0).
        split; [|done]. apply list_elem_of_fmap. exists r0. by rewrite Hq.
      * rewrite IH. split; [by left|].
        intros [?|(r1 & H1 & Hid1 & Hs1)]; [done|].
        apply list_elem_of_fmap in H1 as (r2 & -> & H2).
        rewrite Hid in Hid1.
        assert (r2 = r0) as -> by by apply (id_determines_row _ _ _ Hnd).
        rewrite Hq in Hs1. simpl in Hs1. done.
    + (* the row is left alone *)
      rewrite IH. split; [by left|].
      intros [?|(r1 & H1 & Hid1 & Hs1)]; [done|].
      apply list_elem_of_fmap in H1 as (r2 & -> & H2).
      rewrite Hid in Hid1.
      assert (r2 = r0) as -> by by apply (id_determines_row _ _ _ Hnd).
      rewrite Hq in Hs1. by apply Hnow.
Qed.

(** C2: a status transition rewrites the rows stored under the code, and
    in a row it rewrites the received time becomes the current time when
    the requested status is the received value and stays what it was
    otherwise, so a transition away from received does not clear it; and
    in every store reached from the empty one by creations and status
    transitions, a shipment has a received time if and only if it held the
    received status at some point of the history. *)
Theorem received_time_iff_ever_received :
  (∀ (d : db) (now : string) (w : audit_insert) (qr_code new_status : string)
     (updated_by notes : option string),
     ShipmentDetails
       (update_shipment_status d now w qr_code new_status updated_by notes).2
     = (λ r, if has_qr_code qr_code r
             then set_status_fields now new_status updated_by notes r else r)
         <$> ShipmentDetails d) ∧
  (∀ (now new_status : string) (updated_by notes : option string)
     (r : shipment),
     sd_received_time (set_status_fields now new_status updated_by notes r)
     = if bool_decide (new_status = RECEIVED) then Some now
       else sd_received_time r) ∧
  (∀ (ops : list op) (r : shipment),
     r ∈ ShipmentDetails (run ops) →
     sd_received_time r ≠ None ↔ ever_received ops (sd_id r)).
Proof.
  split; [apply update_shipment_status_rows|]. split; [done|].
  apply received_time_invariant.
Qed.

Lemma received_time_iff_ever_received_witness :
  ∃ r, ShipmentDetails (run sample_history) = [r] ∧
       sd_status r = "Hư hỏng" ∧
       sd_received_time r = Some "2024-05-02T09:30:00" ∧
       (sd_received_time r ≠ None ↔ ever_received sample_history (sd_id r)).
Proof.
  eexists. split; [reflexivity|]. split; [reflexivity|].
  split; [reflexivity|].
  apply (proj2 (proj2 received_time_iff_ever_received) sample_history).
  apply list_elem_of_here.
Defined.

End DatabaseProperties.

(* ===================================================================== *)
(** * Properties of the spreadsheet push *)
(* ===================================================================== *)

Section SheetsProperties.
Import PyStr GoogleSheets.

Variable E : env.

Lemma setup_headers_returns (ws : worksheet) :
  ∃ b, setup_headers E ws = (Replied b, sheet_after_setup E ws).
Proof.
  unfold sheet_after_setup, setup_headers, try_catch, and_then, row_values_1,
    clear, append_row, format_header, api_call, pure.
  destruct (api_raises E RowValues); [by eexists|].
  destruct (_ || _); [|by eexists].
  destruct (api_raises E Clear); [by eexists|].
  destruct (api_raises E AppendRow); [by eexists|].
  destruct (api_raises E Format); by eexists.
Qed.

(** A worksheet that already carries the header row is left as it is. *)
Lemma setup_headers_keeps (ws : worksheet) :
  head ws = Some headers → sheet_after_setup E ws = ws.
Proof.
  intros Hh.
  unfold sheet_after_setup, setup_headers, try_catch, and_then, row_values_1,
    api_call, pure.
  destruct (api_raises E RowValues); [done|].
  by rewrite Hh.
Qed.

Lemma row_key_row_data (sync_time : pystr) (r : df_row) :
  row_key (row_data sync_time r) = strip (str_int (df_id r)).
Proof. done. Qed.

Lemma filter_none {A} (P : A → Prop) `{!∀ x, Decision (P x)} (l : list A) :
  (∀ x, x ∈ l → ¬ P x) → filter P l = [].
Proof.
  induction l as [|x l IH]; intros Hno; [done|].
  rewrite filter_cons_False by (apply Hno; left).
  apply IH. intros y Hy. apply Hno. by right.
Qed.

(** ** The text of an integer *)

Lemma of_string_ascii (c : Ascii.ascii) (t : string) :
  (Ascii.N_of_ascii c <? 128)%N = true →
  of_string (String c t) = Ascii.N_of_ascii c :: of_string t.
Proof.
  intros Hc. unfold of_string. cbn [String.list_ascii_of_string].
  rewrite fmap_cons. cbn [utf8_decode]. by rewrite Hc.
Qed.

Lemma digits_no_space (d : Decimal.uint) :
  Forall (λ c, isspace c = false) (of_string (NilEmpty.string_of_uint d)).
Proof.
  induction d; cbn [NilEmpty.string_of_uint];
    [by apply Forall_nil_2|..];
    (rewrite of_string_ascii by done; apply Forall_cons; by split).
Qed.

Lemma str_int_no_space (n : Z) : Forall (λ c, isspace c = false) (str_int n).
Proof.
  assert (∀ d, Forall (λ c, isspace c = false)
                 (of_string (NilZero.string_of_uint d))) as Huint.
  { intros d. destruct d; try apply (digits_no_space (_ _)).
    cbn [NilZero.string_of_uint]. rewrite of_string_ascii by done.
    apply Forall_cons. split; [done|]. by apply Forall_nil_2. }
  unfold str_int. destruct (Z.to_int n) as [d|d]; cbn [NilZero.string_of_int].
  - apply Huint.
  - rewrite of_string_ascii by done. apply Forall_cons. split; [done|].
    apply Huint.
Qed.

Lemma no_space_trimmed (t : pystr) :
  Forall (λ c, isspace c = false) t → trimmed t.
Proof.
  assert (∀ u : pystr, Forall (λ c, isspace c = false) u →
                       starts_with_space u = false) as Hstart.
  { intros u Hu. destruct Hu; [done|]. done. }
  intros Ht. split; [by apply Hstart|].
  unfold ends_with_space. apply Hstart. by apply Forall_reverse.
Qed.

Lemma strip_str_int (n : Z) : strip (str_int n) = str_int n.
Proof. apply strip_trimmed, no_space_trimmed, str_int_no_space. Qed.

Lemma str_int_truthy (n : Z) : truthy (str_int n) = true.
Proof.
  unfold str_int, of_string.
  destruct (Z.to_int n) as [d|d]; [by destruct d|done].
Qed.

(** ** The duplicate check *)

(** The identifiers the code collects from column A are those the
    worksheet lists. *)
Lemma existing_ids_of_listed (ws : worksheet) (i : Z) :
  strip (str_int i)
    ∈ existing_ids_of ((λ r, default [] (head r)) <$> ws)
  ↔ id_listed ws i.
Proof.
  unfold existing_ids_of, id_listed. rewrite strip_str_int.
  rewrite <- fmap_drop, Exists_exists. split.
  - intros (c & Hc & Hin)%list_elem_of_fmap.
    apply list_elem_of_filter in Hin as [_ Hin].
    apply list_elem_of_fmap in Hin as (r & -> & Hr).
    exists r. by split.
  - intros (r & Hr & Hkey). apply list_elem_of_fmap.
    exists (cell_A r). split; [done|].
    apply list_elem_of_filter. split; [|by apply list_elem_of_fmap_2].
    destruct (cell_A r) as [|c t] eqn:Ecell; [|done].
    pose proof (str_int_truthy i) as Hi. rewrite <- Hkey in Hi. done.
Qed.

Lemma duplicate_check_keeps_unlisted (sync_time : pystr)
    (shipments_df : list df_row) (ws : worksheet) :
  filter (λ r, row_key r ∉ existing_ids_of ((λ r, default [] (head r)) <$> ws))
    (row_data sync_time <$> shipments_df)
  = row_data sync_time <$> unlisted ws shipments_df.
Proof.
  unfold unlisted. induction shipments_df as [|r df IH]; [done|].
  rewrite fmap_cons, !filter_cons, IH, row_key_row_data.
  destruct (decide (id_listed ws (df_id r))) as [Hin|Hout].
  - rewrite decide_False by (intros Hn; by apply Hn, existing_ids_of_listed).
    by rewrite decide_False by (by intros Hn).
  - rewrite decide_True by (by intros Hn%existing_ids_of_listed).
    by rewrite decide_True.
Qed.

(** C9, amended: an append push of at least one row that reaches the
    duplicate check (the spreadsheet and the worksheet are opened), finds
    the header row in place and reads column A appends the rows whose
    identifier the worksheet does not list yet, provided the append call
    succeeds when there is such a row, and skips every row whose
    identifier is already in column A below the header; it reports
    success with the number of rows appended; when every row's
    identifier is already listed, no row is added and the result is
    success with zero rows and the no-new-data message. *)
Theorem push_append_skips_existing_ids (sync_time : pystr)
    (shipments_df : list df_row) (ws : worksheet) :
  shipments_df ≠ [] →
  client_error E = None → open_by_key_raises E = None →
  worksheet_error E = None →
  head ws = Some headers →
  api_raises E ColValues = None →
  (unlisted ws shipments_df ≠ [] → api_raises E AppendRows = None) →
  ∃ p,
    push_shipments_to_sheets E sync_time shipments_df true ws
    = (Replied p, ws ++ (row_data sync_time <$> unlisted ws shipments_df)) ∧
    success p = true ∧
    rows_added p = length (unlisted ws shipments_df) ∧
    (∀ r, r ∈ shipments_df → id_listed ws (df_id r) →
          r ∉ unlisted ws shipments_df) ∧
    ((∀ r, r ∈ shipments_df → id_listed ws (df_id r)) →
     unlisted ws shipments_df = [] ∧ p = no_new_data).
Proof.
  intros Hdf Hc Ho Hw Hhead Hcol Happ.
  assert (∀ r, r ∈ shipments_df → id_listed ws (df_id r) →
               r ∉ unlisted ws shipments_df) as Hskip.
  { intros r _ Hin Hr. unfold unlisted in Hr.
    apply list_elem_of_filter in Hr as [Hnot _]. by apply Hnot. }
  assert ((∀ r, r ∈ shipments_df → id_listed ws (df_id r)) →
          unlisted ws shipments_df = []) as Hall.
  { intros Hin. apply filter_none. intros r Hr Hnot. by apply Hnot, Hin. }
  unfold push_shipments_to_sheets.
  rewrite bool_decide_eq_false_2 by done.
  rewrite Hc, Ho, Hw.
  unfold try_catch at 1. unfold and_then at 1. unfold and_then at 1.
  unfold pure at 1. unfold and_then at 1.
  destruct (setup_headers_returns ws) as (b & Hs). rewrite Hs.
  rewrite (setup_headers_keeps ws Hhead). cbn [negb].
  unfold and_then at 1. unfold try_catch, and_then at 1, col_values_1, api_call.
  rewrite Hcol. unfold pure at 1.
  rewrite duplicate_check_keeps_unlisted.
  case_bool_decide as Hfresh; cbn [negb].
  - apply fmap_nil_inv in Hfresh. rewrite Hfresh, app_nil_r.
    unfold pure. eexists. split; [done|].
    split; [done|]. split; [done|]. split; [by rewrite <- Hfresh|done].
  - assert (unlisted ws shipments_df ≠ []) as Hsome
      by (intros Hnil; apply Hfresh; by rewrite Hnil).
    unfold and_then, append_rows, api_call. rewrite (Happ Hsome).
    unfold pure. eexists. split; [done|].
    split; [done|]. split; [cbn [rows_added]; by rewrite length_fmap|].
    split; [done|]. intros Hin. by destruct Hsome, Hall.
Qed.

End SheetsProperties.

Section SheetsExamples.
Import PyStr GoogleSheets.

Lemma push_append_skips_existing_ids_witness :
  ∃ p,
    push_shipments_to_sheets all_calls_succeed (of_string "2024-05-06 07:00:00")
      [sample_row] true sample_sheet
    = (Replied p,
       sample_sheet ++
       (row_data (of_string "2024-05-06 07:00:00")
          <$> unlisted sample_sheet [sample_row])) ∧
    success p = true ∧
    rows_added p = length (unlisted sample_sheet [sample_row]) ∧
    (∀ r, r ∈ [sample_row] → id_listed sample_sheet (df_id r) →
          r ∉ unlisted sample_sheet [sample_row]) ∧
    ((∀ r, r ∈ [sample_row] → id_listed sample_sheet (df_id r)) →
     unlisted sample_sheet [sample_row] = [] ∧ p = no_new_data).
Proof.
  apply (push_append_skips_existing_ids all_calls_succeed
           (of_string "2024-05-06 07:00:00") [sample_row] sample_sheet);
    first [discriminate | reflexivity | (intros _; reflexivity)].
Defined.

(** C9 as stated fails.  The sheet lists shipment 5 in column A.  When
    the read of column A raises, the push takes every row as new; and
    when the header row differs from the expected one, header set-up
    clears the sheet before the check: either way the push of shipment 5
    appends it and reports one row added. *)
Lemma listed_id_is_appended_again :
  let sync := of_string "2024-05-06 07:00:00" in
  let pushed := {| success := true;
                   message := "Đã push 1 dòng dữ liệu lên Google Sheets thành công!";
                   rows_added := 1 |} in
  id_listed sample_sheet 5 ∧
  push_shipments_to_sheets column_read_fails sync [sample_row] true sample_sheet
  = (Replied pushed, sample_sheet ++ [row_data sync sample_row]) ∧
  id_listed old_header_sheet 5 ∧
  push_shipments_to_sheets all_calls_succeed sync [sample_row] true
    old_header_sheet
  = (Replied pushed, [headers; row_data sync sample_row]).
Proof.
  intros sync pushed.
  assert (∀ t, id_listed
                 [t; row_data (of_string "2024-05-01 08:05:00") sample_row] 5)
    as Hlisted by (intros t; apply Exists_cons_hd; reflexivity).
  split; [apply Hlisted|]. split; [by vm_compute|].
  split; [apply Hlisted|]. by vm_compute.
Qed.

(** The scenario of the specification: the sheet already lists shipment
    5, the push of shipment 5 adds nothing and reports that. *)
Example push_of_a_listed_shipment :
  push_shipments_to_sheets all_calls_succeed (of_string "2024-05-06 07:00:00")
    [sample_row] true sample_sheet
  = (Replied no_new_data, sample_sheet).
Proof. vm_compute. reflexivity. Qed.

(** A shipment the sheet does not list is appended. *)
Example push_of_a_new_shipment :
  let other := {| df_id := 6; df_qr_code := of_string "XYZ789";
                  df_imei := of_string "IMEI002";
                  df_device_name := of_string "Pixel 8";
                  df_capacity := of_string "256GB";
                  df_supplier := of_string "J&T";
                  df_status := of_string "Đang gửi";
                  df_sent_time := of_string "2024-05-05 11:00:00";
                  df_received_time := PyNone;
                  df_created_by := of_string "user";
                  df_updated_by := PyNone; df_notes := PyNaN |} in
  let sync := of_string "2024-05-06 07:00:00" in
  push_shipments_to_sheets all_calls_succeed sync [sample_row; other] true
    sample_sheet
  = (Replied {| success := true;
                 message := "Đã push 1 dòng dữ liệu lên Google Sheets thành công!";
                 rows_added := 1 |},
     sample_sheet ++ [row_data sync other]).
Proof. vm_compute. reflexivity. Qed.

End SheetsExamples.

(* ===================================================================== *)
(** * Properties of the login check *)
(* ===================================================================== *)

Section AuthProperties.
Import Auth.

Lemma check_login_iff (t : users_table) (username pwd : string) :
  check_login t username pwd = true ↔
  (∃ u, get_user t username = Some u ∧ password u = pwd) ∨
  USERS !! username = Some pwd.
Proof.
  unfold check_login. destruct (get_user t username) as [u|].
  - case_bool_decide as Hp.
    + split; [|done]. intros _. left. by exists u.
    + rewrite bool_decide_eq_true. split; [by right|].
      intros [(u' & [= <-] & Hu)|H]; done.
  - rewrite bool_decide_eq_true. split; [by right|].
    intros [(u' & [=] & _)|H]; done.
Qed.

(** C10: the login check succeeds exactly when the password is the one
    the user table stores for the name or the one the static table gives
    it; so for a name of the static table its static password is accepted
    whatever the user table holds, also after the stored password has been
    changed. *)
Theorem static_password_always_accepted :
  (∀ (t : users_table) (username pwd : string),
     check_login t username pwd = true ↔
     (∃ u, get_user t username = Some u ∧ password u = pwd) ∨
     USERS !! username = Some pwd) ∧
  (∀ (t : users_table) (username static new_password : string) (admin : bool),
     USERS !! username = Some static →
     check_login t username static = true ∧
     check_login (set_user_password t username new_password admin)
       username static = true).
Proof.
  split; [apply check_login_iff|].
  intros t username static new_password admin Hs.
  split; apply check_login_iff; by right.
Qed.

Lemma static_password_always_accepted_witness :
  check_login (Some ∅) "admin" "admin123" = true ∧
  check_login (set_user_password (Some ∅) "admin" "changed" true)
    "admin" "admin123" = true.
Proof.
  apply (proj2 static_password_always_accepted). reflexivity.
Defined.

(** After a password change both the new and the static password open
    the account, and nothing else does. *)
Example changed_password_both_accepted :
  let t := set_user_password (Some ∅) "admin" "changed" true in
  check_login t "admin" "changed" = true ∧
  check_login t "admin" "admin123" = true ∧
  check_login t "admin" "other" = false.
Proof. vm_compute. done. Qed.

End AuthProperties.

(* ===================================================================== *)
(** * Further properties of the shipment store *)
(* ===================================================================== *)

Section StoreProperties.
Import Database DatabaseUpdates.

Lemma find_app_last {A} (p : A → bool) (l : list A) (x : A) :
  find p l = None → find p (l ++ [x]) = if p x then Some x else None.
Proof.
  induction l as [|y l IH]; simpl; [done|].
  destruct (p y); [done|]. apply IH.
Qed.

Lemma find_none_iff {A} (p : A → bool) (l : list A) :
  find p l = None ↔ ∀ x, x ∈ l → p x = false.
Proof.
  induction l as [|y l IH]; simpl.
  - split; [|done]. intros _ x Hx. by apply elem_of_nil in Hx.
  - destruct (p y) eqn:Hy.
    + split; [done|]. intros H. specialize (H y (list_elem_of_here _ _)).
      congruence.
    + rewrite IH. split.
      * intros H x [->|Hx]%elem_of_cons; [done|by apply H].
      * intros H x Hx. apply H. by right.
Qed.

Lemma find_unique {A} (p : A → bool) (l : list A) (x : A) :
  x ∈ l → p x = true → (∀ y, y ∈ l → p y = true → y = x) →
  find p l = Some x.
Proof.
  induction l as [|y l IH]; intros Hx Hp Huniq.
  - by apply elem_of_nil in Hx.
  - simpl. destruct (p y) eqn:Hy.
    + f_equal. apply Huniq; [left|done].
    + apply elem_of_cons in Hx as [->|Hx]; [congruence|].
      apply IH; [done|done|]. intros z Hz. apply Huniq. by right.
Qed.

Lemma log_audit_rows (d : db) (w : audit_insert) (i : Z) (a : string)
    (o : option string) (n : string) (u : option string) :
  ShipmentDetails (log_audit d w i a o n u) = ShipmentDetails d.
Proof. unfold log_audit. by destruct w, u. Qed.

(** X1: saving under a code no stored shipment carries succeeds with a
    key no stored shipment has; afterwards the new record is the one found
    under the code and under the key, it is in the default status with no
    received time and every earlier record is still stored; the audit log
    has grown by one [CREATED] entry for the new key when the audit
    [INSERT] was executed, and is unchanged when it raised. *)
Theorem save_then_lookup (d : db) (now : string) (w : audit_insert)
    (qr_code imei device_name capacity supplier created_by : string)
    (notes image_url : option string) :
  (∀ r, r ∈ ShipmentDetails d → sd_qr_code r ≠ qr_code) →
  ∃ (i : Z) (d' : db),
    save_shipment d now w qr_code imei device_name capacity supplier
      created_by notes image_url
    = ({| save_success := true; save_id := Some i; save_error := None |}, d') ∧
    (i ∉ ids d) ∧
    let row :=
      {| sd_id := i; sd_qr_code := qr_code; sd_imei := imei;
         sd_device_name := device_name; sd_capacity := capacity;
         sd_supplier := supplier; sd_status := DEFAULT_STATUS;
         sd_sent_time := now; sd_received_time := None;
         sd_created_by := created_by; sd_updated_by := None;
         sd_notes := notes; sd_image_url := image_url;
         sd_telegram_message_id := None |} in
    get_shipment_by_qr_code d' qr_code = Some row ∧
    get_shipment_by_id d' i = Some row ∧
    ShipmentDetails d' = ShipmentDetails d ++ [row] ∧
    match w with
    | Executed _ =>
        ∃ e, AuditLog d' = AuditLog d ++ [e] ∧ al_shipment_id e = i ∧
             al_action e = "CREATED" ∧ al_changed_by e = created_by
    | Raises => AuditLog d' = AuditLog d
    end.
Proof.
  intros Hfree. unfold save_shipment.
  assert (existsb (has_qr_code qr_code) (ShipmentDetails d) = false) as ->.
  { apply not_true_is_false. intros (r & Hr & Hq)%existsb_exists.
    apply (Hfree r); [by apply list_elem_of_In|].
    unfold has_qr_code in Hq. by apply bool_decide_eq_true in Hq. }
  pose proof (next_rowid_fresh (ShipmentDetails_seq d) (sd_id <$> ShipmentDetails d))
    as Hfresh.
  set (i := next_rowid _ _) in *.
  eexists i, _. split; [reflexivity|]. split; [exact Hfresh|].
  unfold get_shipment_by_qr_code, get_shipment_by_id.
  rewrite log_audit_rows. cbn [ShipmentDetails].
  split; [|split; [|split; [done|]]].
  - rewrite find_app_last.
    + unfold has_qr_code; simpl. by rewrite bool_decide_eq_true_2.
    + apply find_none_iff. intros r Hr. unfold has_qr_code.
      apply bool_decide_eq_false_2. by apply Hfree.
  - rewrite find_app_last.
    + unfold has_id; simpl. by rewrite bool_decide_eq_true_2.
    + apply find_none_iff. intros r Hr. unfold has_id.
      apply bool_decide_eq_false_2. intros Hid. apply Hfresh. rewrite <- Hid.
      by apply list_elem_of_fmap_2.
  - destruct w; [|done]. eexists. by repeat split.
Qed.

Lemma save_then_lookup_witness :
  ∃ (i : Z) (d' : db),
    save_shipment empty_db "2024-05-01 08:00:00"
      (Executed "2024-05-01 08:00:00") "ABC123" "IMEI001"
      "iPhone 15" "128GB" "GHN" "admin" None None
    = ({| save_success := true; save_id := Some i; save_error := None |}, d') ∧
    (i ∉ ids empty_db) ∧
    let row :=
      {| sd_id := i; sd_qr_code := "ABC123"; sd_imei := "IMEI001";
         sd_device_name := "iPhone 15"; sd_capacity := "128GB";
         sd_supplier := "GHN"; sd_status := DEFAULT_STATUS;
         sd_sent_time := "2024-05-01 08:00:00"; sd_received_time := None;
         sd_created_by := "admin"; sd_updated_by := None;
         sd_notes := None; sd_image_url := None;
         sd_telegram_message_id := None |} in
    get_shipment_by_qr_code d' "ABC123" = Some row ∧
    get_shipment_by_id d' i = Some row ∧
    ShipmentDetails d' = ShipmentDetails empty_db ++ [row] ∧
    ∃ e, AuditLog d' = AuditLog empty_db ++ [e] ∧ al_shipment_id e = i ∧
         al_action e = "CREATED" ∧ al_changed_by e = "admin".
Proof.
  apply (save_then_lookup empty_db "2024-05-01 08:00:00"
           (Executed "2024-05-01 08:00:00")).
  intros r Hr. by apply elem_of_nil in Hr.
Defined.

(** ** What the operations do to the rows *)

Lemma update_shipment_rows (d : db) (now : string) (w : audit_insert)
    (shipment_id : Z) (c : changes) :
  ShipmentDetails (update_shipment d now w shipment_id c).2 = ShipmentDetails d ∨
  ShipmentDetails (update_shipment d now w shipment_id c).2
  = (λ r, if has_id shipment_id r then set_fields now c r else r)
      <$> ShipmentDetails d.
Proof.
  unfold update_shipment. destruct (no_changes c); [by left|].
  destruct (code_taken_by_other d shipment_id c); [by left|right].
  cbn [snd]. by rewrite log_audit_rows.
Qed.

Lemma stamps_or_keeps_id : stamps_or_keeps (λ r, r).
Proof. intros r. repeat split. by right. Qed.

Lemma stamps_or_keeps_set_status (now qr_code new_status : string)
    (updated_by notes : option string) :
  stamps_or_keeps
    (λ r, if has_qr_code qr_code r
          then set_status_fields now new_status updated_by notes r else r).
Proof.
  intros r. destruct (has_qr_code qr_code r); [|apply stamps_or_keeps_id].
  repeat split. simpl. case_bool_decide; [by left|by right].
Qed.

Lemma stamps_or_keeps_set_fields (now : string) (i : Z) (c : changes) :
  stamps_or_keeps (λ r, if has_id i r then set_fields now c r else r).
Proof.
  intros r. destruct (has_id i r); [|apply stamps_or_keeps_id].
  repeat split. simpl. destruct (ch_status c) as [s|]; simpl; [|by right].
  case_bool_decide; [by left|by right].
Qed.

(** Every action rewrites the rows in place, or adds one fresh row in
    the default status. *)
Lemma perform_rows (d : db) (a : action) :
  (∃ g, stamps_or_keeps g ∧
        ShipmentDetails (perform d a) = g <$> ShipmentDetails d) ∨
  (∃ row, ShipmentDetails (perform d a) = ShipmentDetails d ++ [row] ∧
          (sd_id row ∉ ids d) ∧ sd_status row = DEFAULT_STATUS ∧
          sd_received_time row = None).
Proof.
  destruct a; simpl.
  - destruct (save_shipment_rows d now w qr_code imei device_name capacity
                supplier created_by notes image_url) as [E|(row & E & H)].
    + left. exists (λ r, r). split; [apply stamps_or_keeps_id|].
      by rewrite E, list_fmap_id.
    + right. by exists row.
  - left. eexists. split; [|apply update_shipment_status_rows].
    apply stamps_or_keeps_set_status.
  - left. destruct (update_shipment_rows d now w shipment_id c) as [E|E].
    + exists (λ r, r). split; [apply stamps_or_keeps_id|].
      by rewrite E, list_fmap_id.
    + eexists. split; [|exact E]. apply stamps_or_keeps_set_fields.
  - left. eexists. split; [|reflexivity].
    intros r. destruct (has_id shipment_id r); [|apply stamps_or_keeps_id].
    repeat split. by right.
Qed.

Lemma replay_snoc (actions : list action) (a : action) :
  replay (actions ++ [a]) = perform (replay actions) a.
Proof. unfold replay. by rewrite foldl_app. Qed.

Lemma perform_ids (d : db) (a : action) :
  ids (perform d a) = ids d ∨
  ∃ i, ids (perform d a) = ids d ++ [i] ∧ i ∉ ids d.
Proof.
  unfold ids.
  destruct (perform_rows d a) as [(g & Hg & ->)|(row & -> & Hf & _)].
  - left. rewrite <- list_fmap_compose. apply list_fmap_ext.
    intros _ r _. apply Hg.
  - right. exists (sd_id row). by rewrite fmap_app.
Qed.

Lemma replay_ids_nodup (actions : list action) : NoDup (ids (replay actions)).
Proof.
  induction actions as [|a actions IH] using rev_ind; [constructor|].
  rewrite replay_snoc.
  destruct (perform_ids (replay actions) a) as [->|(i & -> & Hi)]; [done|].
  apply NoDup_app. split; [done|]. split; [|apply NoDup_singleton].
  intros x Hx Hx'. by apply list_elem_of_singleton in Hx' as ->.
Qed.

Lemma replay_take_snoc (actions : list action) (a : action) (k : nat) :
  (k ≤ length actions)%nat ∧ take k (actions ++ [a]) = take k actions ∨
  take k (actions ++ [a]) = actions ++ [a].
Proof.
  destruct (decide (k ≤ length actions)%nat) as [Hk|Hk].
  - left. split; [done|]. by rewrite take_app_le.
  - right. rewrite take_ge; [done|]. rewrite length_app; simpl; lia.
Qed.

Lemma shipments_persist (actions : list action) (k : nat) (r : shipment) :
  r ∈ ShipmentDetails (replay (take k actions)) →
  ∃ r', r' ∈ ShipmentDetails (replay actions) ∧ sd_id r' = sd_id r ∧
        sd_sent_time r' = sd_sent_time r ∧ sd_created_by r' = sd_created_by r.
Proof.
  induction actions as [|a actions IH] using rev_ind.
  { rewrite take_nil. intros Hr. by exists r. }
  destruct (replay_take_snoc actions a k) as [[_ ->]| ->]; [|intros Hr; by exists r].
  intros (r1 & H1 & Hid & Hsent & Hby)%IH. rewrite replay_snoc.
  destruct (perform_rows (replay actions) a) as [(g & Hg & ->)|(row & -> & _)].
  - exists (g r1). destruct (Hg r1) as (Gid & Gsent & Gby & _).
    split; [by apply list_elem_of_fmap_2|]. by rewrite Gid, Gsent, Gby.
  - exists r1. split; [|done]. apply elem_of_app. by left.
Qed.

(** X2: no action deletes a shipment or rewrites how it came to be: a
    shipment seen at any point of a history of saves, status changes,
    updates and message-id updates is still stored at the end, under the
    same key, with the same sent time and the same creator. *)
Theorem creation_data_is_permanent (actions : list action) (k : nat) (r : shipment) :
  r ∈ ShipmentDetails (replay (take k actions)) →
  ∃ r', r' ∈ ShipmentDetails (replay actions) ∧ sd_id r' = sd_id r ∧
        sd_sent_time r' = sd_sent_time r ∧ sd_created_by r' = sd_created_by r.
Proof. apply shipments_persist. Qed.

Lemma creation_data_is_permanent_witness :
  ∃ r', r' ∈ ShipmentDetails
               (replay [ Save "2024-05-01 08:00:00" (Executed "2024-05-01 08:00:00") "ABC123" "IMEI001"
                           "iPhone 15" "128GB" "GHN" "admin" None None;
                         Update "2024-05-02 10:00:00" (Executed "2024-05-02 10:00:00") 1
                           (status_change "Mất" "staff") ]) ∧
        sd_id r' = 1 ∧ sd_sent_time r' = "2024-05-01 08:00:00" ∧
        sd_created_by r' = "admin".
Proof.
  apply (creation_data_is_permanent
           [ Save "2024-05-01 08:00:00" (Executed "2024-05-01 08:00:00") "ABC123" "IMEI001" "iPhone 15" "128GB"
               "GHN" "admin" None None;
             Update "2024-05-02 10:00:00" (Executed "2024-05-02 10:00:00") 1 (status_change "Mất" "staff") ]
           1
           {| sd_id := 1; sd_qr_code := "ABC123"; sd_imei := "IMEI001";
              sd_device_name := "iPhone 15"; sd_capacity := "128GB";
              sd_supplier := "GHN"; sd_status := DEFAULT_STATUS;
              sd_sent_time := "2024-05-01 08:00:00"; sd_received_time := None;
              sd_created_by := "admin"; sd_updated_by := None;
              sd_notes := None; sd_image_url := None;
              sd_telegram_message_id := None |}).
  apply list_elem_of_here.
Defined.

Lemma was_received_snoc (actions : list action) (a : action) (i : Z) :
  was_received (actions ++ [a]) i ↔
  was_received actions i ∨
  ∃ r, r ∈ ShipmentDetails (replay (actions ++ [a])) ∧ sd_id r = i ∧
       sd_status r = RECEIVED.
Proof.
  split.
  - intros (k & r & Hin & Hid & Hst).
    destruct (replay_take_snoc actions a k) as [[_ E]|E]; rewrite E in Hin.
    + left. by exists k, r.
    + right. by exists r.
  - intros [(k & r & Hin & Hid & Hst)|(r & Hin & Hid & Hst)].
    + destruct (decide (k ≤ length actions)%nat) as [Hk|Hk].
      * exists k, r. by rewrite take_app_le.
      * exists (length actions), r. rewrite take_ge in Hin by lia.
        by rewrite take_app_length.
    + exists (length (actions ++ [a])), r. by rewrite firstn_all.
Qed.

(** X3: whichever operation writes the status, [update_shipment_status]
    or [update_shipment], the received time follows: in every store
    reached from the empty one by saves, status changes, updates and
    message-id updates, a shipment has a received time if and only if it
    held the received status at some point of the history. *)
Theorem received_time_tracks_every_writer (actions : list action) (r : shipment) :
  r ∈ ShipmentDetails (replay actions) →
  sd_received_time r ≠ None ↔ was_received actions (sd_id r).
Proof.
  revert r. induction actions as [|a actions IH] using rev_ind; intros r Hin.
  { by apply elem_of_nil in Hin. }
  rewrite was_received_snoc.
  pose proof (replay_ids_nodup actions) as Hnd. unfold ids in Hnd.
  assert (∀ r0 : shipment, r0 ∈ ShipmentDetails (replay actions) →
            sd_status r0 = RECEIVED → was_received actions (sd_id r0)) as Hnow.
  { intros r0 H0 Hst. exists (length actions), r0. by rewrite firstn_all. }
  assert (∀ i, was_received actions i → i ∈ ids (replay actions)) as Hknown.
  { intros i (k & r0 & H0 & <- & _).
    destruct (shipments_persist actions k r0 H0) as (r1 & H1 & <- & _).
    by apply list_elem_of_fmap_2. }
  rewrite replay_snoc in Hin |- *.
  destruct (perform_rows (replay actions) a)
    as [(g & Hg & E)|(row & E & Hfresh & Hst & Hrt)]; rewrite E in Hin |- *.
  - apply list_elem_of_fmap in Hin as (r0 & -> & Hin0).
    destruct (Hg r0) as (Gid & _ & _ & Gcase). rewrite Gid.
    specialize (IH r0 Hin0).
    assert (∀ r1, r1 ∈ g <$> ShipmentDetails (replay actions) →
              sd_id r1 = sd_id r0 → r1 = g r0) as Hsame.
    { intros r1 (r2 & -> & H2)%list_elem_of_fmap Hid1.
      destruct (Hg r2) as (Gid2 & _). rewrite Gid2 in Hid1.
      by rewrite (id_determines_row _ r2 r0 Hnd H2 Hin0 Hid1). }
    destruct Gcase as [[Gst Grt]|[Grt Gst]].
    + split; [|done]. intros _. right. exists (g r0).
      split; [by apply list_elem_of_fmap_2|]. by rewrite Gid.
    + rewrite Grt, IH. split; [by left|].
      intros [?|(r1 & H1 & Hid1 & Hs1)]; [done|].
      rewrite (Hsame r1 H1 Hid1) in Hs1. by apply Hnow, Gst.
  - apply elem_of_app in Hin as [Hin|Hin].
    + rewrite (IH r Hin). split; [by left|].
      intros [?|(r0 & H0 & Hid & Hs)]; [done|].
      apply elem_of_app in H0 as [H0|H0].
      * rewrite <- Hid. by apply Hnow.
      * apply list_elem_of_singleton in H0 as ->.
        rewrite Hst in Hs. by destruct default_status_is_not_received.
    + apply list_elem_of_singleton in Hin as ->. rewrite Hrt.
      split; [done|]. intros [Hev|(r0 & H0 & Hid & Hs)].
      * by apply Hknown in Hev.
      * apply elem_of_app in H0 as [H0|H0].
        -- destruct Hfresh. rewrite <- Hid. by apply list_elem_of_fmap_2.
        -- apply list_elem_of_singleton in H0 as ->.
           rewrite Hst in Hs. by destruct default_status_is_not_received.
Qed.

Lemma received_time_tracks_every_writer_witness :
  let actions :=
    [ Save "2024-05-01 08:00:00" (Executed "2024-05-01 08:00:00") "ABC123" "IMEI001" "iPhone 15" "128GB" "GHN"
        "admin" None None;
      Update "2024-05-02 10:00:00" (Executed "2024-05-02 10:00:00") 1 (status_change "Đã nhận" "staff");
      SetStatus "2024-05-03T10:00:00" (Executed "2024-05-03 03:00:00") "ABC123"
        "Hư hỏng" (Some "staff") None ] in
  ∃ r, ShipmentDetails (replay actions) = [r] ∧
       sd_status r = "Hư hỏng" ∧
       sd_received_time r = Some "2024-05-02 10:00:00" ∧
       (sd_received_time r ≠ None ↔ was_received actions (sd_id r)).
Proof.
  intros actions. eexists. split; [reflexivity|]. split; [reflexivity|].
  split; [reflexivity|].
  apply (received_time_tracks_every_writer actions).
  apply list_elem_of_here.
Defined.

(** ** Keys and codes *)

Lemma untouched_rows (i : Z) (g : shipment → shipment) (rows : list shipment) :
  (∀ r, r ∈ rows → sd_id r ≠ i) →
  (λ r, if has_id i r then g r else r) <$> rows = rows.
Proof.
  induction rows as [|r rows IH]; intros Hno; [done|].
  rewrite fmap_cons. f_equal.
  - unfold has_id. rewrite bool_decide_eq_false_2; [done|]. apply Hno. left.
  - apply IH. intros r' Hr'. apply Hno. by right.
Qed.

Lemma set_code_nodup (i : Z) (q : string) (g : shipment → shipment)
    (rows : list shipment) :
  (∀ r, sd_qr_code (g r) = q) →
  NoDup (sd_id <$> rows) → NoDup (sd_qr_code <$> rows) →
  (∀ r, r ∈ rows → sd_id r ≠ i → sd_qr_code r ≠ q) →
  NoDup (sd_qr_code <$> ((λ r, if has_id i r then g r else r) <$> rows)).
Proof.
  intros Hg. induction rows as [|r rows IH]; intros Hids Hcodes Hother.
  { constructor. }
  rewrite fmap_cons in Hids. rewrite fmap_cons in Hcodes.
  apply NoDup_cons in Hids as [Hid Hids].
  apply NoDup_cons in Hcodes as [Hcode Hcodes].
  rewrite !fmap_cons. unfold has_id at 1. case_bool_decide as Hi.
  - rewrite untouched_rows.
    + apply NoDup_cons. split; [|done]. rewrite Hg.
      intros (r' & Hq & Hr')%list_elem_of_fmap.
      apply (Hother r'); [by right| |done].
      intros Hi'. apply Hid. rewrite Hi, <- Hi'. by apply list_elem_of_fmap_2.
    + intros r' Hr' Hi'. apply Hid. rewrite Hi, <- Hi'.
      by apply list_elem_of_fmap_2.
  - apply NoDup_cons. split.
    + intros (r1 & Hq & (r' & -> & Hr')%list_elem_of_fmap)%list_elem_of_fmap.
      destruct (has_id i r').
      * rewrite Hg in Hq. apply (Hother r); [left|done|done].
      * apply Hcode. rewrite Hq. by apply list_elem_of_fmap_2.
    + apply IH; [done|done|]. intros r' Hr'. apply Hother. by right.
Qed.

Lemma update_shipment_codes (d : db) (now : string) (w : audit_insert) (i : Z)
    (c : changes) :
  NoDup (ids d) → NoDup (codes d) →
  NoDup (codes (update_shipment d now w i c).2).
Proof.
  intros Hids Hcodes. unfold codes, ids, update_shipment in *.
  destruct (no_changes c); [done|].
  destruct (code_taken_by_other d i c) eqn:Htaken; [done|].
  cbn [snd]. rewrite log_audit_rows. cbn [ShipmentDetails].
  destruct (ch_qr_code c) as [q|] eqn:Hq.
  - unfold code_taken_by_other in Htaken. rewrite Hq in Htaken.
    apply andb_false_iff in Htaken as [Hnone|Hfree].
    + rewrite untouched_rows; [done|]. intros r Hr Hi.
      apply not_true_iff_false in Hnone. apply Hnone, existsb_exists.
      exists r. split; [by apply list_elem_of_In|].
      unfold has_id. by apply bool_decide_eq_true_2.
    + apply (set_code_nodup i q); [|done|done|].
      * intros r. simpl. by rewrite Hq.
      * intros r Hr Hi Hcode. apply not_true_iff_false in Hfree.
        apply Hfree, existsb_exists. exists r.
        split; [by apply list_elem_of_In|]. unfold has_id, has_qr_code.
        rewrite bool_decide_eq_false_2, bool_decide_eq_true_2; done.
  - rewrite <- list_fmap_compose.
    erewrite list_fmap_ext; [exact Hcodes|].
    intros _ r _. simpl. destruct (has_id i r); [|done]. simpl. by rewrite Hq.
Qed.

Lemma perform_codes (d : db) (a : action) :
  NoDup (ids d) → NoDup (codes d) → NoDup (codes (perform d a)).
Proof.
  intros Hids Hcodes. destruct a; simpl.
  - unfold save_shipment, codes in *.
    destruct (existsb _ _) eqn:Hex; [done|].
    cbn [snd]. rewrite log_audit_rows. cbn [ShipmentDetails].
    rewrite fmap_app. apply NoDup_app. split; [done|].
    split; [|apply NoDup_singleton]. intros q Hq Hq'. simpl in Hq'.
    apply list_elem_of_singleton in Hq' as ->.
    apply list_elem_of_fmap in Hq as (r & Hcode & Hr).
    apply not_true_iff_false in Hex. apply Hex, existsb_exists. exists r.
    split; [by apply list_elem_of_In|]. unfold has_qr_code.
    by apply bool_decide_eq_true_2.
  - unfold codes in *. rewrite update_shipment_status_rows, <- list_fmap_compose.
    erewrite list_fmap_ext; [exact Hcodes|].
    intros _ r _. simpl. by destruct (has_qr_code qr_code r).
  - by apply update_shipment_codes.
  - unfold codes in *. cbn [update_telegram_message ShipmentDetails].
    rewrite <- list_fmap_compose.
    erewrite list_fmap_ext; [exact Hcodes|].
    intros _ r _. simpl. by destruct (has_id shipment_id r).
Qed.

Lemma replay_codes_nodup (actions : list action) : NoDup (codes (replay actions)).
Proof.
  induction actions as [|a actions IH] using rev_ind; [constructor|].
  rewrite replay_snoc. apply perform_codes; [apply replay_ids_nodup|done].
Qed.

(** X4: in every store reached from the empty one by saves, status
    changes, updates and message-id updates, keys are unique and codes are
    unique, so each stored shipment is exactly what the lookup by its code
    and the lookup by its key return. *)
Theorem stored_shipments_are_found (actions : list action) (r : shipment) :
  r ∈ ShipmentDetails (replay actions) →
  NoDup (ids (replay actions)) ∧ NoDup (codes (replay actions)) ∧
  get_shipment_by_qr_code (replay actions) (sd_qr_code r) = Some r ∧
  get_shipment_by_id (replay actions) (sd_id r) = Some r.
Proof.
  intros Hr.
  pose proof (replay_ids_nodup actions) as Hids.
  pose proof (replay_codes_nodup actions) as Hcodes.
  split; [done|]. split; [done|]. split.
  - apply find_unique; [done|by apply bool_decide_eq_true_2|].
    intros r' Hr' Hq. unfold has_qr_code in Hq. apply bool_decide_eq_true in Hq.
    unfold codes in Hcodes.
    destruct (list_elem_of_lookup_1 _ _ Hr) as [j Hj].
    destruct (list_elem_of_lookup_1 _ _ Hr') as [j' Hj'].
    assert (j' = j) as ->.
    { apply (NoDup_lookup _ _ _ (sd_qr_code r) Hcodes);
        rewrite list_lookup_fmap; [rewrite Hj'|rewrite Hj]; simpl; congruence. }
    congruence.
  - apply find_unique; [done|by apply bool_decide_eq_true_2|].
    intros r' Hr' Hq. unfold has_id in Hq. apply bool_decide_eq_true in Hq.
    by apply (id_determines_row _ _ _ Hids).
Qed.

Lemma stored_shipments_are_found_witness :
  let actions :=
    [ Save "2024-05-01 08:00:00" (Executed "2024-05-01 08:00:00") "ABC123" "IMEI001" "iPhone 15" "128GB" "GHN"
        "admin" None None;
      Save "2024-05-01 09:00:00" (Executed "2024-05-01 09:00:00") "XYZ789" "IMEI002" "Pixel 8" "256GB" "J&T"
        "user" None None ] in
  ∃ r, ShipmentDetails (replay actions) !! 1%nat = Some r ∧
       NoDup (ids (replay actions)) ∧ NoDup (codes (replay actions)) ∧
       get_shipment_by_qr_code (replay actions) (sd_qr_code r) = Some r ∧
       get_shipment_by_id (replay actions) (sd_id r) = Some r.
Proof.
  intros actions. eexists. split; [reflexivity|].
  apply (stored_shipments_are_found actions).
  apply list_elem_of_further, list_elem_of_here.
Defined.

(** ** The audit log *)

Lemma next_rowid_above (seq : Z) (keys : list Z) (x : Z) :
  x ∈ keys → x < next_rowid seq keys.
Proof.
  unfold next_rowid. induction keys as [|y keys IH]; intros Hx.
  - by apply elem_of_nil in Hx.
  - apply elem_of_cons in Hx as [->|Hx]; simpl; [lia|].
    specialize (IH Hx). lia.
Qed.

(** Every action leaves the audit log as it is or appends one entry with
    a key above all the keys in it. *)
Lemma perform_audit (d : db) (a : action) :
  AuditLog (perform d a) = AuditLog d ∨
  ∃ e, AuditLog (perform d a) = AuditLog d ++ [e] ∧
       (∀ x, x ∈ al_id <$> AuditLog d → x < al_id e).
Proof.
  assert (∀ d1 w i action old_value new_value changed_by,
            AuditLog d1 = AuditLog d →
            AuditLog (log_audit d1 w i action old_value new_value changed_by)
            = AuditLog d ∨
            ∃ e, AuditLog (log_audit d1 w i action old_value new_value
                             changed_by) = AuditLog d ++ [e] ∧
                 (∀ x, x ∈ al_id <$> AuditLog d → x < al_id e)) as Hlog.
  { intros d1 w i action old_value new_value changed_by E.
    unfold log_audit. destruct w as [ts|]; [|by left].
    destruct changed_by as [user|]; [|by left]. right.
    cbn [AuditLog]. rewrite E.
    eexists. split; [reflexivity|]. intros x Hx. cbn [al_id].
    by apply next_rowid_above. }
  destruct a; simpl.
  - unfold save_shipment. destruct (existsb _ _); [by left|].
    by apply Hlog.
  - unfold update_shipment_status. destruct (find _ _); [|by left].
    by apply Hlog.
  - unfold update_shipment. destruct (no_changes c); [by left|].
    destruct (code_taken_by_other _ _ _); [by left|].
    by apply Hlog.
  - by left.
Qed.

(** X5: the audit log only grows: the log at any earlier point of a
    history of saves, status changes, updates and message-id updates is a
    prefix of the log at the end, so no entry is ever changed or removed;
    and the keys of its entries increase strictly along the log. *)
Theorem audit_log_is_append_only (actions : list action) (k : nat) :
  AuditLog (replay (take k actions)) `prefix_of` AuditLog (replay actions) ∧
  StronglySorted Z.lt (al_id <$> AuditLog (replay actions)).
Proof.
  induction actions as [|a actions IH] using rev_ind.
  { rewrite take_nil. split; [done|constructor]. }
  destruct IH as [Hpre Hsorted]. rewrite replay_snoc.
  destruct (perform_audit (replay actions) a) as [E|(e & E & Habove)];
    rewrite E.
  - split; [|done].
    destruct (replay_take_snoc actions a k) as [[_ ->]| ->]; [done|].
    by rewrite replay_snoc, E.
  - split.
    + destruct (replay_take_snoc actions a k) as [[_ ->]| ->].
      * by apply prefix_app_r.
      * by rewrite replay_snoc, E.
    + rewrite fmap_app. apply StronglySorted_app_2; [|done|].
      * intros x1 x2 H1 H2. simpl in H2.
        apply list_elem_of_singleton in H2 as ->. by apply Habove.
      * repeat constructor.
Qed.

(** ** Edge cases of [update_shipment] *)

(** X6: an update that would give a stored shipment the code of another
    stored shipment fails with the duplicate-code error and leaves the
    store as it was. *)
Theorem update_shipment_duplicate_code (d : db) (now : string)
    (w : audit_insert) (q : string) (c : changes) (target other : shipment) :
  target ∈ ShipmentDetails d → other ∈ ShipmentDetails d →
  sd_id other ≠ sd_id target → ch_qr_code c = Some q → sd_qr_code other = q →
  update_shipment d now w (sd_id target) c
  = ({| success := false; error := Some "Mã QR đã tồn tại" |}, d).
Proof.
  intros Ht Ho Hne Hq Hcode. unfold update_shipment.
  assert (no_changes c = false) as ->.
  { unfold no_changes. rewrite Hq. done. }
  assert (code_taken_by_other d (sd_id target) c = true) as ->; [|done].
  unfold code_taken_by_other. rewrite Hq. apply andb_true_iff. split.
  - apply existsb_exists. exists target. split; [by apply list_elem_of_In|].
    unfold has_id. by apply bool_decide_eq_true_2.
  - apply existsb_exists. exists other. split; [by apply list_elem_of_In|].
    unfold has_id, has_qr_code.
    rewrite bool_decide_eq_false_2, bool_decide_eq_true_2; done.
Qed.

(** X7: an update under a key no stored shipment has does not fail: as
    long as one field is given it reports success and leaves every
    shipment as it was, and, its audit [INSERT] executed, still appends
    an [UPDATED] audit entry naming that key. *)
Theorem update_shipment_unknown_key (d : db) (now current_timestamp : string)
    (i : Z) (c : changes) :
  (∀ r, r ∈ ShipmentDetails d → sd_id r ≠ i) →
  no_changes c = false →
  ∃ (d' : db) (e : audit_entry),
    update_shipment d now (Executed current_timestamp) i c
    = ({| success := true; error := None |}, d') ∧
    ShipmentDetails d' = ShipmentDetails d ∧
    AuditLog d' = AuditLog d ++ [e] ∧
    al_shipment_id e = i ∧ al_action e = "UPDATED" ∧
    al_changed_by e = actor (ch_updated_by c).
Proof.
  intros Hno Hc. unfold update_shipment. rewrite Hc.
  assert (code_taken_by_other d i c = false) as ->.
  { unfold code_taken_by_other. destruct (ch_qr_code c); [|done].
    apply andb_false_iff. left. apply not_true_iff_false.
    intros (r & Hr & Hi)%existsb_exists. apply (Hno r).
    - by apply list_elem_of_In.
    - unfold has_id in Hi. by apply bool_decide_eq_true in Hi. }
  eexists _, _. split; [reflexivity|].
  cbn [log_audit ShipmentDetails AuditLog]. split; [|by repeat split].
  by apply untouched_rows.
Qed.

(** ** What a status transition leaves alone *)

(** X8: [update_shipment_status] succeeds exactly when a shipment is
    stored under the code; when it fails the store is unchanged; and when
    it succeeds every shipment stored under another code is untouched,
    while a shipment under the code keeps its key, code, device data,
    supplier, sent time, creator, image and message id, takes the new
    status and the user as updated-by, and keeps its notes unless a
    non-empty note was given. *)
Theorem update_shipment_status_frame (d : db) (now : string)
    (w : audit_insert) (qr_code new_status : string)
    (updated_by notes : option string) :
  let out :=
    update_shipment_status d now w qr_code new_status updated_by notes in
  (success out.1 = true ↔ ∃ r, r ∈ ShipmentDetails d ∧ sd_qr_code r = qr_code) ∧
  (success out.1 = false →
   out = ({| success := false; error := Some "Phiếu không tồn tại" |}, d)) ∧
  ShipmentDetails out.2
  = (λ r, if has_qr_code qr_code r
          then {| sd_id := sd_id r; sd_qr_code := sd_qr_code r;
                  sd_imei := sd_imei r; sd_device_name := sd_device_name r;
                  sd_capacity := sd_capacity r; sd_supplier := sd_supplier r;
                  sd_status := new_status; sd_sent_time := sd_sent_time r;
                  sd_received_time :=
                    if bool_decide (new_status = RECEIVED) then Some now
                    else sd_received_time r;
                  sd_created_by := sd_created_by r;
                  sd_updated_by := updated_by;
                  sd_notes :=
                    match notes with
                    | Some n => if bool_decide (n = "") then sd_notes r
                                else Some n
                    | None => sd_notes r
                    end;
                  sd_image_url := sd_image_url r;
                  sd_telegram_message_id := sd_telegram_message_id r |}
          else r) <$> ShipmentDetails d ∧
  (∀ r, r ∈ ShipmentDetails d → sd_qr_code r ≠ qr_code →
        r ∈ ShipmentDetails out.2).
Proof.
  intros out.
  assert (ShipmentDetails out.2
          = (λ r, if has_qr_code qr_code r
                  then set_status_fields now new_status updated_by notes r
                  else r) <$> ShipmentDetails d) as Hrows
    by apply update_shipment_status_rows.
  split; [|split; [|split]].
  - unfold out, update_shipment_status.
    destruct (find _ _) as [found|] eqn:E; simpl.
    + split; [|done]. intros _. exists found.
      apply find_some in E as [Hin Hq]. split; [by apply list_elem_of_In|].
      unfold has_qr_code in Hq. by apply bool_decide_eq_true in Hq.
    + split; [done|]. intros (r & Hr & Hq).
      pose proof (proj1 (find_none_iff _ _) E r Hr) as Hf.
      unfold has_qr_code in Hf. by apply bool_decide_eq_false in Hf.
  - unfold out, update_shipment_status.
    destruct (find _ _) as [found|]; [|done]. cbn [fst success]. done.
  - rewrite Hrows. apply list_fmap_ext. intros _ r _.
    destruct (has_qr_code qr_code r); [|done].
    unfold set_status_fields, notes_given. f_equal.
    destruct notes as [n|]; [|done]. by case_bool_decide.
  - intros r Hr Hq. rewrite Hrows. apply list_elem_of_fmap. exists r.
    split; [|done]. unfold has_qr_code. by rewrite bool_decide_eq_false_2.
Qed.

Lemma update_shipment_duplicate_code_witness :
  update_shipment (replay two_saves) "2024-05-02 09:00:00"
    (Executed "2024-05-02 09:00:00") 2 (code_change "ABC123")
  = ({| success := false; error := Some "Mã QR đã tồn tại" |}, replay two_saves).
Proof.
  apply (update_shipment_duplicate_code (replay two_saves)
           "2024-05-02 09:00:00" (Executed "2024-05-02 09:00:00") "ABC123"
           (code_change "ABC123")
           second_shipment first_shipment).
  - apply list_elem_of_further, list_elem_of_here.
  - apply list_elem_of_here.
  - discriminate.
  - reflexivity.
  - reflexivity.
Defined.

Lemma update_shipment_unknown_key_witness :
  ∃ (d' : db) (e : audit_entry),
    update_shipment (replay two_saves) "2024-05-02 09:00:00"
      (Executed "2024-05-02 09:00:00") 7 (code_change "NEW001")
    = ({| success := true; error := None |}, d') ∧
    ShipmentDetails d' = ShipmentDetails (replay two_saves) ∧
    AuditLog d' = AuditLog (replay two_saves) ++ [e] ∧
    al_shipment_id e = 7 ∧ al_action e = "UPDATED" ∧
    al_changed_by e = actor (ch_updated_by (code_change "NEW001")).
Proof.
  apply (update_shipment_unknown_key (replay two_saves)).
  - intros r Hr.
    apply elem_of_cons in Hr as [->|Hr]; [discriminate|].
    apply elem_of_cons in Hr as [->|Hr]; [discriminate|].
    by apply elem_of_nil in Hr.
  - reflexivity.
Defined.

(** A transition of one shipment leaves the other one as it was. *)
Example status_change_leaves_other_codes :
  let out := update_shipment_status (replay two_saves) "2024-05-02T09:30:00"
               (Executed "2024-05-02 02:30:00") "ABC123" "Đã nhận"
               (Some "staff") (Some "") in
  success out.1 = true ∧ ShipmentDetails out.2 !! 1%nat = Some second_shipment.
Proof. by vm_compute. Qed.

(** An update that changes the status to received stamps the received
    time, like a status transition. *)
Example update_to_received :
  ShipmentDetails
    (update_shipment (replay two_saves) "2024-05-02 10:00:00"
       (Executed "2024-05-02 10:00:00") 1
       (status_change "Đã nhận" "staff")).2 !! 0%nat
  = Some {| sd_id := 1; sd_qr_code := "ABC123"; sd_imei := "IMEI001";
            sd_device_name := "iPhone 15"; sd_capacity := "128GB";
            sd_supplier := "GHN"; sd_status := "Đã nhận";
            sd_sent_time := "2024-05-01 08:00:00";
            sd_received_time := Some "2024-05-02 10:00:00";
            sd_created_by := "admin"; sd_updated_by := Some "staff";
            sd_notes := None; sd_image_url := None;
            sd_telegram_message_id := None |}.
Proof. reflexivity. Qed.

End StoreProperties.

(* ===================================================================== *)
(** * Properties of the notification *)
(* ===================================================================== *)

Section NotificationProperties.
Import Database DatabaseUpdates TelegramHelpers.

Lemma find_has_id_rewritten (i : Z) (g : shipment → shipment)
    (rows : list shipment) :
  (∀ r, sd_id (g r) = sd_id r) →
  find (λ r, has_id i r) ((λ r, if has_id i r then g r else r) <$> rows)
  = g <$> find (λ r, has_id i r) rows.
Proof.
  intros Hg. induction rows as [|r rows IH]; [done|].
  rewrite fmap_cons. cbn [find]. destruct (has_id i r) eqn:Hi.
  - assert (has_id i (g r) = true) as ->; [|done].
    unfold has_id in *. by rewrite Hg.
  - by rewrite Hi.
Qed.

(** X9: a call hands a message to the chat service, changes the store or
    returns a result only when the key is that of a stored shipment in
    the received status which either has no message id yet or is given an
    image follow-up while it has an image; the [force] argument plays no
    part in it. *)
Theorem notification_only_for_received (tg : telegram) (d : db) (i : Z)
    (force is_update_image : bool) :
  notify_shipment_if_received tg d i force is_update_image ≠ (None, d, []) →
  ∃ r, get_shipment_by_id d i = Some r ∧ sd_status r = RECEIVED ∧
       (id_truthy (sd_telegram_message_id r) = false ∨
        is_update_image = true ∧ url_truthy (sd_image_url r) = true).
Proof.
  unfold notify_shipment_if_received.
  destruct (get_shipment_by_id d i) as [r|]; [|done].
  case_bool_decide as Hst; [|done]. cbn [negb].
  destruct (id_truthy (sd_telegram_message_id r)) eqn:Hid; cbn [andb].
  - destruct is_update_image; cbn [andb negb]; [|done].
    destruct (url_truthy (sd_image_url r)) eqn:Hu; cbn [negb]; [|done].
    intros _. exists r. split; [done|]. split; [done|]. by right.
  - intros _. exists r. split; [done|]. split; [done|]. by left.
Qed.

Lemma notification_only_for_received_witness :
  let d := (update_shipment (replay two_saves) "2024-05-02 10:00:00" Raises 1
              (status_change "Đã nhận" "staff")).2 in
  ∃ r, get_shipment_by_id d 1 = Some r ∧ sd_status r = RECEIVED ∧
       (id_truthy (sd_telegram_message_id r) = false ∨
        false = true ∧ url_truthy (sd_image_url r) = true).
Proof.
  intros d.
  apply (notification_only_for_received (accepting 4711) d 1 true false).
  discriminate.
Defined.

(** X10: once the chat service has accepted the notification of a
    shipment under a non-zero message id, that id is stored with the
    shipment, and every later call for it that is not an image follow-up
    sends nothing, changes nothing and returns nothing, also with
    [force] set. *)
Theorem no_second_notification (tg tg' : telegram) (d d' : db) (i m : Z)
    (force force' is_update_image : bool) (res : tg_result)
    (outbox : list sent) :
  notify_shipment_if_received tg d i force is_update_image
  = (Some res, d', outbox) →
  tg_success res = true → tg_message_id res = Some m → m ≠ 0 →
  (sd_telegram_message_id <$> get_shipment_by_id d' i) = Some (Some m) ∧
  notify_shipment_if_received tg' d' i force' false = (None, d', []).
Proof.
  unfold notify_shipment_if_received at 1.
  destruct (get_shipment_by_id d i) as [r|] eqn:Hr; [|done].
  case_bool_decide as Hst; [|done]. cbn [negb].
  destruct (_ && _); [done|].
  set (sending := if url_truthy (sd_image_url r) then _ else _).
  destruct sending as [res0 out0]. intros [= -> <- <-] Hok Hm Hnz.
  rewrite Hok, Hm. cbn [id_truthy andb]. change (default 0 (Some m)) with m.
  rewrite bool_decide_eq_false_2 by done. cbn [negb].
  assert (get_shipment_by_id (update_telegram_message d i m) i
          = Some {| sd_id := sd_id r; sd_qr_code := sd_qr_code r;
                    sd_imei := sd_imei r; sd_device_name := sd_device_name r;
                    sd_capacity := sd_capacity r; sd_supplier := sd_supplier r;
                    sd_status := sd_status r; sd_sent_time := sd_sent_time r;
                    sd_received_time := sd_received_time r;
                    sd_created_by := sd_created_by r;
                    sd_updated_by := sd_updated_by r; sd_notes := sd_notes r;
                    sd_image_url := sd_image_url r;
                    sd_telegram_message_id := Some m |}) as Hget.
  { unfold get_shipment_by_id, update_telegram_message in *.
    cbn [ShipmentDetails]. rewrite find_has_id_rewritten by done.
    by rewrite Hr. }
  split; [by rewrite Hget|].
  unfold notify_shipment_if_received. rewrite Hget. cbn [sd_status].
  rewrite bool_decide_eq_true_2 by done. cbn [negb sd_telegram_message_id].
  cbn [id_truthy]. rewrite bool_decide_eq_false_2 by done. done.
Qed.

Lemma no_second_notification_witness :
  let d := (update_shipment (replay two_saves) "2024-05-02 10:00:00" Raises 1
              (status_change "Đã nhận" "staff")).2 in
  let first := notify_shipment_if_received (accepting 4711) d 1 false false in
  (sd_telegram_message_id <$> get_shipment_by_id first.1.2 1)
    = Some (Some 4711) ∧
  notify_shipment_if_received (accepting 4712) first.1.2 1 true false
  = (None, first.1.2, []).
Proof.
  intros d first.
  apply (no_second_notification (accepting 4711) (accepting 4712) d first.1.2
           1 4711 false true false
           {| tg_success := true; tg_error := None;
              tg_message_id := Some 4711 |} first.2);
    first [reflexivity | discriminate].
Defined.

(** A refused photo is followed by the text with the link to the image. *)
Example refused_photo_falls_back_to_text :
  let c := {| ch_qr_code := None; ch_imei := None; ch_device_name := None;
              ch_capacity := None; ch_supplier := None;
              ch_status := Some "Đã nhận"; ch_notes := None;
              ch_updated_by := Some "staff";
              ch_image_url := Some "https://drive.example/abc";
              ch_telegram_message_id := None |} in
  let d := (update_shipment (replay two_saves) "2024-05-02 10:00:00" Raises 1 c).2 in
  let out := notify_shipment_if_received (refusing_photos 9) d 1 true false in
  match out.2 with
  | [Photo u caption; Text t] =>
      u = "https://drive.example/abc" ∧
      t = caption +:+ nl +:+ "Ảnh: " +:+ u
  | _ => False
  end ∧
  (sd_telegram_message_id <$> get_shipment_by_id out.1.2 1) = Some (Some 9).
Proof. vm_compute. repeat split. Qed.

End NotificationProperties.

(* ===================================================================== *)
(** * Properties of the suppliers and of the seeding *)
(* ===================================================================== *)

Section SupplierProperties.
Import Database Suppliers.

Lemma foldr_max_bounds (seed : Z) (ids : list Z) :
  seed ≤ foldr Z.max seed ids ∧ ∀ i, i ∈ ids → i ≤ foldr Z.max seed ids.
Proof.
  induction ids as [|y ids [IH1 IH2]]; cbn [foldr].
  - split; [lia|]. intros i Hi. by apply elem_of_nil in Hi.
  - split; [lia|]. intros i [->|Hi]%elem_of_cons; [lia|].
    specialize (IH2 i Hi). lia.
Qed.

Lemma new_id_above (rows : list supplier) (r : supplier) :
  r ∈ rows → sp_id r < new_id rows.
Proof.
  unfold new_id, max_id. destruct rows as [|r0 rest]; intros Hr.
  { by apply elem_of_nil in Hr. }
  assert (sp_id r ≤ foldr Z.max (sp_id r0) (sp_id <$> rest)) as Hle.
  { destruct (foldr_max_bounds (sp_id r0) (sp_id <$> rest)) as [H1 H2].
    apply elem_of_cons in Hr as [->|Hr]; [done|].
    apply H2. by apply list_elem_of_fmap_2. }
  case_bool_decide; lia.
Qed.

Lemma new_id_not_keyed (rows : list supplier) :
  existsb (keyed (new_id rows)) rows = false.
Proof.
  apply not_true_iff_false. intros (r & Hr & Hk)%existsb_exists.
  unfold keyed in Hk. apply bool_decide_eq_true in Hk.
  apply list_elem_of_In, new_id_above in Hr. lia.
Qed.

Instance by_name_total : Total by_name.
Proof. intros r1 r2. apply String.leb_total. Qed.

(** X11: a supplier added under a name no row carries gets a key above
    every key of the table, is stored as active with the given contact
    and address, and is listed by [get_suppliers]. *)
Theorem add_supplier_fresh_name (rows : list supplier) (name : string)
    (contact address : option string) :
  (∀ r, r ∈ rows → sp_name r ≠ name) →
  ∃ i,
    add_supplier rows name contact address
    = ({| add_success := true; add_id := Some i; add_error := None |},
       rows ++ [{| sp_id := i; sp_name := name; sp_contact := contact;
                   sp_address := address; sp_is_active := true |}]) ∧
    (∀ r, r ∈ rows → sp_id r < i) ∧
    (i, name, contact, address)
      ∈ get_suppliers (add_supplier rows name contact address).2.
Proof.
  intros Hfree. exists (new_id rows).
  assert (add_supplier rows name contact address
          = ({| add_success := true; add_id := Some (new_id rows);
                add_error := None |},
             rows ++ [{| sp_id := new_id rows; sp_name := name;
                         sp_contact := contact; sp_address := address;
                         sp_is_active := true |}])) as E.
  { unfold add_supplier. rewrite new_id_not_keyed.
    assert (existsb (named name) rows = false) as ->; [|done].
    apply not_true_iff_false. intros (r & Hr & Hn)%existsb_exists.
    unfold named in Hn. apply bool_decide_eq_true in Hn.
    by apply (Hfree r); [apply list_elem_of_In|]. }
  split; [exact E|]. split; [apply new_id_above|].
  rewrite E. cbn [snd]. unfold get_suppliers.
  apply list_elem_of_fmap.
  exists {| sp_id := new_id rows; sp_name := name; sp_contact := contact;
            sp_address := address; sp_is_active := true |}.
  split; [done|]. rewrite merge_sort_Permutation.
  apply list_elem_of_filter. split; [done|]. apply elem_of_app. right.
  apply list_elem_of_here.
Qed.

Lemma add_supplier_fresh_name_witness :
  ∃ i,
    add_supplier DEFAULT_SUPPLIERS "Viettel Post" (Some "19008095") None
    = ({| add_success := true; add_id := Some i; add_error := None |},
       DEFAULT_SUPPLIERS ++
       [{| sp_id := i; sp_name := "Viettel Post";
           sp_contact := Some "19008095"; sp_address := None;
           sp_is_active := true |}]) ∧
    (∀ r, r ∈ DEFAULT_SUPPLIERS → sp_id r < i) ∧
    (i, "Viettel Post", Some "19008095", None)
      ∈ get_suppliers
          (add_supplier DEFAULT_SUPPLIERS "Viettel Post" (Some "19008095")
             None).2.
Proof.
  apply (add_supplier_fresh_name DEFAULT_SUPPLIERS).
  intros r Hr.
  repeat (apply elem_of_cons in Hr as [->|Hr]; [discriminate|]).
  by apply elem_of_nil in Hr.
Defined.

Lemma delete_keeps_names (rows : list supplier) (i : Z) :
  sp_name <$> (delete_supplier rows i).2 = sp_name <$> rows.
Proof.
  cbn [delete_supplier snd]. rewrite <- list_fmap_compose.
  apply list_fmap_ext. intros _ r _. simpl. by destruct (keyed i r).
Qed.

(** X12: deleting a supplier removes no row: the table keeps its length,
    keys and names, and every other supplier as it was; the suppliers
    under the deleted key are no longer listed by [get_suppliers], while
    [get_all_suppliers] still lists as many suppliers as before. *)
Theorem delete_supplier_is_soft (rows : list supplier) (i : Z) :
  let rows' := (delete_supplier rows i).2 in
  (delete_supplier rows i).1 = {| success := true; error := None |} ∧
  sp_id <$> rows' = sp_id <$> rows ∧
  sp_name <$> rows' = sp_name <$> rows ∧
  (∀ r, r ∈ rows → sp_id r ≠ i → r ∈ rows') ∧
  (∀ v, v ∈ get_suppliers rows' → v.1.1.1 ≠ i) ∧
  length (get_all_suppliers rows') = length rows.
Proof.
  intros rows'. split; [done|]. split; [|split; [|split; [|split]]].
  - unfold rows'. cbn [delete_supplier snd]. rewrite <- list_fmap_compose.
    apply list_fmap_ext. intros _ r _. simpl. by destruct (keyed i r).
  - apply delete_keeps_names.
  - intros r Hr Hi. unfold rows'. cbn [delete_supplier snd].
    apply list_elem_of_fmap. exists r. split; [|done].
    unfold keyed. by rewrite bool_decide_eq_false_2.
  - intros v Hv. unfold get_suppliers in Hv.
    apply list_elem_of_fmap in Hv as (r & -> & Hr).
    rewrite merge_sort_Permutation in Hr.
    apply list_elem_of_filter in Hr as [Hact Hr]. unfold rows' in Hr.
    cbn [delete_supplier snd] in Hr.
    apply list_elem_of_fmap in Hr as (r0 & -> & _). simpl.
    unfold keyed in *. case_bool_decide as Hk; [|done].
    simpl in Hact. discriminate.
  - unfold get_all_suppliers. rewrite merge_sort_Permutation. unfold rows'.
    cbn [delete_supplier snd]. apply length_fmap.
Qed.

(** X13: the name of a deleted supplier stays taken: adding a supplier
    under the name of any stored supplier, deleted or not, fails with the
    name error and leaves the table as it was. *)
Theorem deleted_name_stays_taken (rows : list supplier) (r : supplier)
    (contact address : option string) :
  r ∈ rows →
  let rows' := (delete_supplier rows (sp_id r)).2 in
  add_supplier rows' (sp_name r) contact address
  = ({| add_success := false; add_id := None;
        add_error := Some "Tên nhà cung cấp đã tồn tại" |}, rows') ∧
  add_supplier rows (sp_name r) contact address
  = ({| add_success := false; add_id := None;
        add_error := Some "Tên nhà cung cấp đã tồn tại" |}, rows).
Proof.
  intros Hr rows'.
  assert (∀ l, sp_name r ∈ sp_name <$> l →
               add_supplier l (sp_name r) contact address
               = ({| add_success := false; add_id := None;
                     add_error := Some "Tên nhà cung cấp đã tồn tại" |}, l))
    as Htaken.
  { intros l (r0 & Hn & H0)%list_elem_of_fmap. unfold add_supplier.
    assert (existsb (named (sp_name r)) l = true) as ->.
    { apply existsb_exists. exists r0. split; [by apply list_elem_of_In|].
      unfold named. by apply bool_decide_eq_true_2. }
    by rewrite orb_true_r. }
  split; apply Htaken.
  - unfold rows'. rewrite delete_keeps_names. by apply list_elem_of_fmap_2.
  - by apply list_elem_of_fmap_2.
Qed.

Lemma deleted_name_stays_taken_witness :
  let ghn := {| sp_id := 1; sp_name := "GHN"; sp_contact := Some "0987654321";
                sp_address := Some "Hà Nội"; sp_is_active := true |} in
  let rows' := (delete_supplier DEFAULT_SUPPLIERS 1).2 in
  add_supplier rows' "GHN" None None
  = ({| add_success := false; add_id := None;
        add_error := Some "Tên nhà cung cấp đã tồn tại" |}, rows') ∧
  add_supplier DEFAULT_SUPPLIERS "GHN" None None
  = ({| add_success := false; add_id := None;
        add_error := Some "Tên nhà cung cấp đã tồn tại" |}, DEFAULT_SUPPLIERS).
Proof.
  intros ghn rows'.
  apply (deleted_name_stays_taken DEFAULT_SUPPLIERS ghn None None).
  apply list_elem_of_here.
Defined.

(** X14: [get_suppliers] lists exactly the active suppliers, each once
    per stored row, in the order of their names. *)
Theorem get_suppliers_active_sorted (rows : list supplier) :
  (∀ v, v ∈ get_suppliers rows ↔
        ∃ r, r ∈ rows ∧ sp_is_active r = true ∧
             v = (sp_id r, sp_name r, sp_contact r, sp_address r)) ∧
  length (get_suppliers rows)
  = length (filter (λ r, sp_is_active r = true) rows) ∧
  Sorted (λ v1 v2, String.leb v1.1.1.2 v2.1.1.2 = true) (get_suppliers rows).
Proof.
  unfold get_suppliers. split; [|split].
  - intros v. rewrite list_elem_of_fmap. split.
    + intros (r & -> & Hr). rewrite merge_sort_Permutation in Hr.
      apply list_elem_of_filter in Hr as [Hact Hr]. by exists r.
    + intros (r & Hr & Hact & ->). exists r. split; [done|].
      rewrite merge_sort_Permutation. by apply list_elem_of_filter.
  - by rewrite length_fmap, merge_sort_Permutation.
  - apply (Sorted_fmap _ by_name); [done|]. apply (Sorted_merge_sort by_name).
Qed.

(** ** Seeding *)

Lemma insert_or_ignore_prefix (rows : list supplier) (s : supplier) :
  rows `prefix_of` insert_or_ignore rows s.
Proof.
  unfold insert_or_ignore. destruct (_ || _); [done|].
  by apply prefix_app_r.
Qed.

Lemma taken_mono (rows rows' : list supplier) (s : supplier) :
  rows `prefix_of` rows' →
  existsb (keyed (sp_id s)) rows || existsb (named (sp_name s)) rows = true →
  existsb (keyed (sp_id s)) rows' || existsb (named (sp_name s)) rows' = true.
Proof.
  intros [k ->]. rewrite !existsb_app.
  intros [->| ->]%orb_true_iff; simpl; [done|]. by rewrite !orb_true_r.
Qed.

Lemma insert_or_ignore_taken (rows : list supplier) (s : supplier) :
  let rows' := insert_or_ignore rows s in
  existsb (keyed (sp_id s)) rows' || existsb (named (sp_name s)) rows' = true.
Proof.
  unfold insert_or_ignore.
  destruct (existsb (keyed (sp_id s)) rows || existsb (named (sp_name s)) rows)
    eqn:E; simpl; [done|].
  rewrite existsb_app. simpl. unfold keyed at 2.
  rewrite bool_decide_eq_true_2 by done. simpl. by rewrite orb_true_r.
Qed.

Lemma seeding_prefix (defaults rows : list supplier) :
  rows `prefix_of` foldl insert_or_ignore rows defaults.
Proof.
  revert rows. induction defaults as [|s defaults IH]; intros rows; [done|].
  simpl. etrans; [apply insert_or_ignore_prefix|apply IH].
Qed.

Lemma seeding_takes (defaults rows : list supplier) (s : supplier) :
  existsb (keyed (sp_id s)) rows || existsb (named (sp_name s)) rows = true
  ∨ s ∈ defaults →
  let rows' := foldl insert_or_ignore rows defaults in
  existsb (keyed (sp_id s)) rows' || existsb (named (sp_name s)) rows' = true.
Proof.
  revert rows. induction defaults as [|s0 defaults IH]; intros rows [H|H].
  - done.
  - by apply elem_of_nil in H.
  - simpl. apply IH. left.
    apply (taken_mono rows); [apply insert_or_ignore_prefix|exact H].
  - simpl. apply IH. apply elem_of_cons in H as [->|H]; [left|by right].
    apply insert_or_ignore_taken.
Qed.

Lemma seeding_ignored (defaults rows : list supplier) :
  (∀ s, s ∈ defaults →
        existsb (keyed (sp_id s)) rows || existsb (named (sp_name s)) rows
        = true) →
  foldl insert_or_ignore rows defaults = rows.
Proof.
  induction defaults as [|s defaults IH]; intros H; [done|].
  simpl. unfold insert_or_ignore at 2. rewrite (H s) by left.
  apply IH. intros s' Hs'. apply H. by right.
Qed.

(** X15: running the supplier seeding again changes nothing it finds:
    the table it is run on stays a prefix of the result, so a soft delete
    or an edit of a default supplier survives; a second run adds nothing;
    and on the empty table the result is the three default suppliers. *)
Theorem seed_suppliers_keeps_rows (rows : list supplier) :
  rows `prefix_of` seed_suppliers rows ∧
  seed_suppliers (seed_suppliers rows) = seed_suppliers rows ∧
  seed_suppliers [] = DEFAULT_SUPPLIERS.
Proof.
  split; [apply seeding_prefix|]. split; [|done].
  apply seeding_ignored. intros s Hs.
  apply (seeding_takes DEFAULT_SUPPLIERS rows s). by right.
Qed.

(** X16: the user seeding never resets a password: a name the user
    table already holds keeps its row, a name of the static table that is
    missing gets the static password and the admin flag only if it is
    [admin], and every other name stays absent; so seeding twice is
    seeding once. *)
Theorem seed_users_keeps_rows (rows : gmap string Auth.user) :
  (∀ u, seed_users rows !! u
        = match rows !! u with
          | Some row => Some row
          | None =>
              (λ p, {| Auth.password := p;
                       Auth.is_admin := bool_decide (u = "admin") |})
                <$> Auth.USERS !! u
          end) ∧
  seed_users (seed_users rows) = seed_users rows.
Proof.
  assert (∀ rows0 u, seed_users rows0 !! u
        = match rows0 !! u with
          | Some row => Some row
          | None =>
              (λ p, {| Auth.password := p;
                       Auth.is_admin := bool_decide (u = "admin") |})
                <$> Auth.USERS !! u
          end) as Hchar.
  { intros rows0 u. unfold seed_users, USERS_items, Auth.USERS. cbn [foldl].
    unfold insert_user_or_ignore. cbn [fst snd].
    destruct (rows0 !! "admin") as [a|] eqn:Ha;
      [|rewrite lookup_insert_ne by done];
      (destruct (rows0 !! "user") as [b|] eqn:Hb;
       [|rewrite !lookup_insert_ne by done; try rewrite Hb]);
      try rewrite Hb;
      (destruct (rows0 !! "staff") as [c|] eqn:Hc; try rewrite Hc);
      (destruct (decide (u = "admin")) as [Ea|Hua];
       [subst u
       |destruct (decide (u = "user")) as [Eu|Huu];
        [subst u
        |destruct (decide (u = "staff")) as [Es|Hus]; [subst u|]]]);
      simplify_map_eq; try done;
      destruct (rows0 !! u); by simplify_map_eq. }
  split; [apply Hchar|].
  apply map_eq. intros u. rewrite !Hchar.
  destruct (rows !! u); [done|]. by destruct (Auth.USERS !! u).
Qed.

End SupplierProperties.

(* ===================================================================== *)
(** * Properties of the remember tokens and of the session *)
(* ===================================================================== *)

Section TokenProperties.
Import Auth RememberTokens.

Lemma load_written (tokens : gmap string info) (w : bool) :
  _load_tokens {| content := Some tokens; writable := w |} = tokens.
Proof. done. Qed.

Lemma load_after_save (f : token_file) (tokens : gmap string info) :
  writable f = true → _load_tokens (_save_tokens f tokens) = tokens.
Proof. unfold _save_tokens, _load_tokens. by intros ->. Qed.

Lemma save_keeps_writable (f : token_file) (tokens : gmap string info) :
  writable (_save_tokens f tokens) = writable f.
Proof. unfold _save_tokens. by destruct (writable f) eqn:E. Qed.

(** The answer of a lookup depends on the entry of its token only. *)
Lemma answer_by_entry (f f' : token_file) (t : datetime) (token : string) :
  _load_tokens f !! token = _load_tokens f' !! token →
  (get_username_from_token f t token).1
  = (get_username_from_token f' t token).1.
Proof.
  intros E. unfold get_username_from_token. case_bool_decide; [done|].
  rewrite <- E. destruct (_load_tokens f !! token) as [i|]; [|done].
  destruct (expires_at i) as [e|]; [|done]. by case_bool_decide.
Qed.

Lemma absent_is_refused (f : token_file) (t : datetime) (token : string) :
  _load_tokens f !! token = None →
  (get_username_from_token f t token).1 = None.
Proof.
  intros E. unfold get_username_from_token. case_bool_decide; [done|].
  by rewrite E.
Qed.

(** What a save of the tokens without [token] leaves of another entry. *)
Lemma save_delete_other (f : token_file) (token other : string) :
  other ≠ token →
  _load_tokens (_save_tokens f (delete token (_load_tokens f))) !! other
  = _load_tokens f !! other.
Proof.
  intros Hne. unfold _save_tokens. destruct (writable f); [|done].
  by rewrite load_written, lookup_delete_ne.
Qed.

(** X17: on a writable token file, a token created for a user resolves
    to that user at every clock reading up to the expiry, the expiry
    included; at the first later reading it is refused and removed, and
    from then on it is refused at every reading. *)
Theorem remember_token_valid_until_expiry (f : token_file)
    (token user : string) (now : datetime) (days_valid : Z) :
  writable f = true →
  token ≠ "" →
  - MAX_DELTA_DAYS ≤ days_valid ≤ MAX_DELTA_DAYS →
  0 ≤ now + days_valid * DAY ≤ MAX_DATETIME →
  let created := create_remember_token f token now user days_valid in
  created.1 = Some token ∧
  ∀ t,
    (t ≤ now + days_valid * DAY →
     get_username_from_token created.2 t token = (Some user, created.2)) ∧
    (now + days_valid * DAY < t →
     (get_username_from_token created.2 t token).1 = None ∧
     ∀ t', (get_username_from_token
              (get_username_from_token created.2 t token).2 t' token).1
           = None).
Proof.
  intros Hw Htok Hdays Hrange created.
  assert (created
          = (Some token,
             {| content :=
                  Some (<[token := {| username := user;
                                      expires_at :=
                                        Some (now + days_valid * DAY) |}]>
                          (_load_tokens f));
                writable := true |})) as ->.
  { unfold created, create_remember_token, expiry.
    rewrite !bool_decide_eq_true_2 by done.
    unfold _save_tokens. by rewrite Hw. }
  split; [done|]. intros t. cbn [fst snd].
  set (e := now + days_valid * DAY) in *.
  set (tokens := <[token := {| username := user; expires_at := Some e |}]>
                   (_load_tokens f)).
  set (f' := {| content := Some tokens; writable := true |}).
  assert (get_username_from_token f' t token
          = if bool_decide (t > e)
            then (None, {| content := Some (delete token tokens);
                           writable := true |})
            else (Some user, f')) as ->.
  { unfold get_username_from_token. rewrite bool_decide_eq_false_2 by done.
    unfold f' at 1. rewrite load_written. unfold tokens at 1.
    by rewrite lookup_insert_eq. }
  split; intros Ht.
  - by rewrite bool_decide_eq_false_2 by lia.
  - rewrite bool_decide_eq_true_2 by lia. split; [done|].
    intros t'. apply absent_is_refused. cbn [snd]. rewrite load_written.
    apply lookup_delete_eq.
Qed.

Lemma remember_token_valid_until_expiry_witness :
  let created :=
    create_remember_token empty_file "0f8fad5b-d9cb-469f-a165-70867728950e"
      (737425 * DAY) "staff" 30 in
  created.1 = Some "0f8fad5b-d9cb-469f-a165-70867728950e" ∧
  ∀ t,
    (t ≤ 737425 * DAY + 30 * DAY →
     get_username_from_token created.2 t
       "0f8fad5b-d9cb-469f-a165-70867728950e" = (Some "staff", created.2)) ∧
    (737425 * DAY + 30 * DAY < t →
     (get_username_from_token created.2 t
        "0f8fad5b-d9cb-469f-a165-70867728950e").1 = None ∧
     ∀ t', (get_username_from_token
              (get_username_from_token created.2 t
                 "0f8fad5b-d9cb-469f-a165-70867728950e").2 t'
              "0f8fad5b-d9cb-469f-a165-70867728950e").1
           = None).
Proof.
  apply (remember_token_valid_until_expiry empty_file
           "0f8fad5b-d9cb-469f-a165-70867728950e" "staff" (737425 * DAY) 30);
    [reflexivity | discriminate | vm_compute; split; discriminate
    | vm_compute; split; discriminate].
Defined.

(** X18: on a writable token file, a removed token is refused at every
    clock reading, whether or not it had expired. *)
Theorem remove_token_revokes (f : token_file) (token : string)
    (t : datetime) :
  writable f = true →
  (get_username_from_token (remove_token f token) t token).1 = None.
Proof.
  intros Hw. unfold remove_token.
  destruct (decide (token = "")) as [->|Hne]; [done|].
  rewrite (bool_decide_eq_false_2 _ Hne). apply absent_is_refused.
  case_bool_decide as Hin.
  - rewrite load_after_save by done. apply lookup_delete_eq.
  - by apply eq_None_not_Some.
Qed.

Lemma remove_token_revokes_witness :
  (get_username_from_token
     (remove_token
        (create_remember_token empty_file "tok-1" 0 "staff" 30).2 "tok-1")
     0 "tok-1").1 = None.
Proof.
  apply (remove_token_revokes
           (create_remember_token empty_file "tok-1" 0 "staff" 30).2
           "tok-1" 0).
  reflexivity.
Defined.

(** X19: creating, looking up or removing a token never changes what
    another token resolves to. *)
Theorem token_operations_are_local (f : token_file) (token other : string)
    (now t t' : datetime) (user : string) (days_valid : Z) :
  other ≠ token →
  (get_username_from_token
     (create_remember_token f token now user days_valid).2 t' other).1
  = (get_username_from_token f t' other).1 ∧
  (get_username_from_token
     (get_username_from_token f t token).2 t' other).1
  = (get_username_from_token f t' other).1 ∧
  (get_username_from_token (remove_token f token) t' other).1
  = (get_username_from_token f t' other).1.
Proof.
  intros Hne. split; [|split]; apply answer_by_entry.
  - unfold create_remember_token. destruct (expiry now days_valid); [|done].
    cbn [snd]. unfold _save_tokens. destruct (writable f); [|done].
    by rewrite load_written, lookup_insert_ne.
  - unfold get_username_from_token. case_bool_decide; [done|].
    destruct (_load_tokens f !! token) as [i|]; [|done].
    destruct (expires_at i) as [e|]; [|done].
    case_bool_decide; [|done]. cbn [snd]. by apply save_delete_other.
  - unfold remove_token. case_bool_decide; [done|].
    case_bool_decide; [|done]. by apply save_delete_other.
Qed.

Lemma token_operations_are_local_witness :
  let f := (create_remember_token empty_file "tok-2" 0 "admin" 30).2 in
  (get_username_from_token
     (create_remember_token f "tok-1" 0 "staff" 1).2 5 "tok-2").1
  = (get_username_from_token f 5 "tok-2").1 ∧
  (get_username_from_token
     (get_username_from_token f 9 "tok-1").2 5 "tok-2").1
  = (get_username_from_token f 5 "tok-2").1 ∧
  (get_username_from_token (remove_token f "tok-1") 5 "tok-2").1
  = (get_username_from_token f 5 "tok-2").1.
Proof.
  intros f.
  apply (token_operations_are_local f "tok-1" "tok-2" 0 9 5 "staff" 1).
  discriminate.
Defined.

(** X20: the removal of an expired token at a lookup is not observable:
    while the clock does not run backwards, every later lookup of any
    token answers as it would have without the earlier lookup. *)
Theorem expired_cleanup_is_unobservable (f : token_file)
    (token other : string) (t t' : datetime) :
  t ≤ t' →
  (get_username_from_token
     (get_username_from_token f t token).2 t' other).1
  = (get_username_from_token f t' other).1.
Proof.
  intros Htime. destruct (decide (other = token)) as [->|Hne].
  - unfold get_username_from_token at 2.
    destruct (decide (token = "")) as [->|Htok]; [done|].
    rewrite (bool_decide_eq_false_2 _ Htok).
    destruct (_load_tokens f !! token) as [i|] eqn:Ei; [|done].
    destruct (expires_at i) as [e|] eqn:Ee; [|done].
    case_bool_decide as Hexp; [|done]. cbn [snd].
    unfold get_username_from_token at 2.
    rewrite (bool_decide_eq_false_2 _ Htok), Ei, Ee.
    rewrite bool_decide_eq_true_2 by lia. cbn [fst].
    unfold _save_tokens. destruct (writable f) eqn:Hw.
    + apply absent_is_refused. rewrite load_written.
      apply lookup_delete_eq.
    + unfold get_username_from_token.
      rewrite (bool_decide_eq_false_2 _ Htok), Ei, Ee.
      by rewrite bool_decide_eq_true_2 by lia.
  - apply answer_by_entry. unfold get_username_from_token.
    case_bool_decide; [done|].
    destruct (_load_tokens f !! token) as [i|]; [|done].
    destruct (expires_at i) as [e|]; [|done].
    case_bool_decide; [|done]. cbn [snd]. by apply save_delete_other.
Qed.

Lemma expired_cleanup_is_unobservable_witness :
  let f := (create_remember_token empty_file "tok-1" 0 "staff" 1).2 in
  (get_username_from_token
     (get_username_from_token f (2 * DAY) "tok-1").2 (3 * DAY) "tok-1").1
  = (get_username_from_token f (3 * DAY) "tok-1").1.
Proof.
  intros f.
  apply (expired_cleanup_is_unobservable f "tok-1" "tok-1" (2 * DAY) (3 * DAY)).
  vm_compute. discriminate.
Defined.

(** X21: the admin right follows the name, not the [Users] table: after
    a successful login the session is logged in as that user and is an
    admin session exactly when the name is [admin], whatever the
    [is_admin] column holds; a failed login leaves the session as it
    was. *)
Theorem admin_right_follows_the_name (t : users_table) (s : session)
    (user pwd : string) :
  check_login t user pwd = true →
  let s' := (login t s user pwd).2 in
  (login t s user pwd).1 = true ∧
  is_logged_in s' = true ∧
  get_current_user s' = Some user ∧
  (is_admin s' = true ↔ user = "admin") ∧
  ∀ wrong, check_login t user wrong = false →
           login t s' user wrong = (false, s').
Proof.
  intros Hok s'. unfold s', login. rewrite Hok. cbn [fst snd].
  split; [done|]. split; [done|]. split; [done|]. split.
  - unfold is_admin, get_current_user. rewrite bool_decide_eq_true.
    split; [by intros [= ->]|by intros ->].
  - intros wrong Hwrong. by rewrite Hwrong.
Qed.

Lemma admin_right_follows_the_name_witness :
  let s' := (login flagged_staff None "staff" "s3cret").2 in
  (login flagged_staff None "staff" "s3cret").1 = true ∧
  is_logged_in s' = true ∧
  get_current_user s' = Some "staff" ∧
  (is_admin s' = true ↔ "staff" = "admin") ∧
  ∀ wrong, check_login flagged_staff "staff" wrong = false →
           login flagged_staff s' "staff" wrong = (false, s').
Proof.
  apply (admin_right_follows_the_name flagged_staff None "staff" "s3cret").
  reflexivity.
Defined.

End TokenProperties.

(* ===================================================================== *)
(** * Further properties of the push to the worksheet *)
(* ===================================================================== *)

Section PushProperties.
Import PyStr GoogleSheets.

Variable E : env.

Lemma headers_nonempty : headers ≠ [].
Proof. unfold headers. rewrite fmap_cons. discriminate. Qed.

(** With its calls answered, header set-up leaves the header row first. *)
Lemma setup_headers_establishes (ws : worksheet) :
  (∀ c, api_raises E c = None) →
  head (sheet_after_setup E ws) = Some headers.
Proof.
  intros Hok.
  unfold sheet_after_setup, setup_headers, try_catch, and_then, row_values_1,
    clear, append_row, format_header, api_call, pure.
  rewrite !Hok. cbn [fst snd].
  pose proof headers_nonempty as Hne. revert Hne.
  generalize headers. intros h Hh.
  destruct ws as [|r ws]; cbn [head default].
  - case_bool_decide; [|done]. by cbn [orb fst snd app head].
  - change (id r) with r.
    case_bool_decide as H1; [by cbn [orb fst snd app head]|].
    case_bool_decide as H2; cbn [orb negb fst snd app head]; [|done].
    by subst.
Qed.

(** An append push with the spreadsheet reachable and the column read:
    what it appends and what it answers. *)
Lemma push_append_runs (sync_time : pystr) (shipments_df : list df_row)
    (ws : worksheet) :
  shipments_df ≠ [] →
  client_error E = None → open_by_key_raises E = None →
  worksheet_error E = None →
  api_raises E ColValues = None → api_raises E AppendRows = None →
  let sheet := sheet_after_setup E ws in
  ∃ p,
    push_shipments_to_sheets E sync_time shipments_df true ws
    = (Replied p,
       sheet ++ (row_data sync_time <$> unlisted sheet shipments_df)) ∧
    (unlisted sheet shipments_df = [] → p = no_new_data).
Proof.
  intros Hdf Hc Ho Hw Hcol Happ sheet.
  unfold push_shipments_to_sheets.
  rewrite bool_decide_eq_false_2 by done.
  rewrite Hc, Ho, Hw.
  unfold try_catch at 1. unfold and_then at 1. unfold and_then at 1.
  unfold pure at 1. unfold and_then at 1.
  destruct (setup_headers_returns E ws) as (b & Hs). rewrite Hs.
  fold sheet. cbn [negb].
  unfold and_then at 1. unfold try_catch, and_then at 1, col_values_1, api_call.
  rewrite Hcol. unfold pure at 1.
  rewrite duplicate_check_keeps_unlisted.
  case_bool_decide as Hfresh; cbn [negb].
  - apply fmap_nil_inv in Hfresh. rewrite Hfresh, app_nil_r.
    unfold pure. by eexists.
  - unfold and_then, append_rows, api_call. rewrite Happ.
    unfold pure. eexists. split; [done|].
    intros Hnone. destruct Hfresh. by rewrite Hnone.
Qed.

(** X22: an append push repeated on the sheet it left adds nothing: with
    every call answered, the second push of the same rows finds every
    identifier in the first column and returns the no-new-data result,
    the sheet unchanged. *)
Theorem push_append_twice_adds_nothing (sync_time sync_time' : pystr)
    (shipments_df : list df_row) (ws : worksheet) :
  shipments_df ≠ [] →
  client_error E = None → open_by_key_raises E = None →
  worksheet_error E = None →
  (∀ c, api_raises E c = None) →
  let ws1 := (push_shipments_to_sheets E sync_time shipments_df true ws).2 in
  push_shipments_to_sheets E sync_time' shipments_df true ws1
  = (Replied no_new_data, ws1).
Proof.
  intros Hdf Hc Ho Hw Hok ws1.
  destruct (push_append_runs sync_time shipments_df ws) as (p1 & Hrun1 & _);
    try done.
  set (sheet := sheet_after_setup E ws) in *.
  assert (ws1 = sheet ++ (row_data sync_time <$> unlisted sheet shipments_df))
    as Hws1 by (unfold ws1; by rewrite Hrun1).
  pose proof (setup_headers_establishes ws Hok) as Hhead. fold sheet in Hhead.
  assert (head ws1 = Some headers) as Hhead1.
  { rewrite Hws1. destruct sheet; [done|exact Hhead]. }
  assert (sheet_after_setup E ws1 = ws1) as Hkeep
    by by apply setup_headers_keeps.
  assert (unlisted ws1 shipments_df = []) as Hnone.
  { apply filter_none. intros x Hx Hnot. apply Hnot. clear Hnot.
    unfold id_listed. rewrite Hws1.
    destruct sheet as [|h rest] eqn:Esheet; [done|].
    cbn [app skipn]. rewrite drop_0. apply Exists_app.
    destruct (decide (id_listed (h :: rest) (df_id x))) as [Hold|Hnew].
    - left. unfold id_listed in Hold. cbn [skipn] in Hold.
      by rewrite drop_0 in Hold.
    - right. apply Exists_exists. exists (row_data sync_time x). split.
      + apply list_elem_of_fmap_2. unfold unlisted.
        by apply list_elem_of_filter.
      + change (cell_A (row_data sync_time x)) with (str_int (df_id x)).
        apply strip_str_int. }
  destruct (push_append_runs sync_time' shipments_df ws1) as (p2 & H2 & H1);
    try done.
  rewrite Hkeep in H1. rewrite Hkeep, Hnone, app_nil_r in H2.
  by rewrite H2, (H1 Hnone).
Qed.


(** X24: an append push never removes a row from a sheet whose header
    row is in place: whatever call fails, it returns a result instead of
    raising, the sheet it leaves is the old sheet followed by rows of
    the frame in their order, none when it reports a failure, and as
    many as it reports otherwise. *)
Theorem push_append_only_appends (sync_time : pystr)
    (shipments_df : list df_row) (ws : worksheet) :
  head ws = Some headers →
  ∃ p added,
    push_shipments_to_sheets E sync_time shipments_df true ws
    = (Replied p, ws ++ added) ∧
    added `sublist_of` (row_data sync_time <$> shipments_df) ∧
    (success p = false → added = []) ∧
    (success p = true → rows_added p = length added).
Proof.
  intros Hhead.
  assert (∀ A (p : A), ∃ added : list row,
            ws = ws ++ added ∧
            added `sublist_of` (row_data sync_time <$> shipments_df) ∧
            added = []) as Hsame.
  { intros. exists []. rewrite app_nil_r. split; [done|].
    split; [apply sublist_nil_l|done]. }
  unfold push_shipments_to_sheets. case_bool_decide as Hdf.
  { exists {| success := false;
              message := "Không có dữ liệu để push lên Google Sheets";
              rows_added := 0 |}, [].
    unfold pure. rewrite app_nil_r. split; [done|]. split; [|done].
    apply sublist_nil_l. }
  destruct (client_error E) as [err|].
  { exists {| success := false; message := err; rows_added := 0 |}, [].
    unfold try_catch, pure. rewrite app_nil_r. split; [done|].
    split; [apply sublist_nil_l|done]. }
  destruct (open_by_key_raises E) as [e|].
  { unfold try_catch, and_then, raise, pure.
    destruct e as [msg|msg]; eexists; exists []; rewrite app_nil_r;
      (split; [done|]); (split; [apply sublist_nil_l|done]). }
  destruct (worksheet_error E) as [err|].
  { exists {| success := false; message := err; rows_added := 0 |}, [].
    unfold try_catch, and_then, pure. rewrite app_nil_r. split; [done|].
    split; [apply sublist_nil_l|done]. }
  unfold try_catch at 1. unfold and_then at 1. unfold and_then at 1.
  unfold pure at 1. unfold and_then at 1.
  destruct (setup_headers_returns E ws) as (b & Hs). rewrite Hs.
  rewrite (setup_headers_keeps E ws Hhead). cbn [negb].
  unfold and_then at 1. unfold try_catch, and_then at 1, col_values_1, api_call.
  set (rows := row_data sync_time <$> shipments_df).
  assert (∀ to_add : list row,
            to_add `sublist_of` rows →
            ∃ p added,
              match
                (if negb (bool_decide (to_add = []))
                 then
                   and_then (append_rows E to_add)
                     (λ _, pure
                        {| success := true;
                           message := "Đã push " +:+ str_nat (length to_add) +:+
                             " dòng dữ liệu lên Google Sheets thành công!";
                           rows_added := length to_add |})
                 else
                   pure
                     {| success := true;
                        message := "Tất cả dữ liệu đã tồn tại trong Google Sheets. Không có dữ liệu mới để thêm.";
                        rows_added := 0 |}) ws
              with
              | (Failed e, ws') =>
                  match e with
                  | APIError msg =>
                      pure {| success := false;
                              message := "Lỗi API Google Sheets: " +:+ msg;
                              rows_added := 0 |}
                  | Exception msg =>
                      pure {| success := false;
                              message := "Lỗi không xác định: " +:+ msg;
                              rows_added := 0 |}
                  end ws'
              | r => r
              end = (Replied p, ws ++ added) ∧
              added `sublist_of` rows ∧
              (success p = false → added = []) ∧
              (success p = true → rows_added p = length added)) as Hrest.
  { intros to_add Hsub. case_bool_decide as Hempty; cbn [negb].
    - eexists; exists []. unfold pure. rewrite app_nil_r.
      split; [done|]. split; [apply sublist_nil_l|done].
    - unfold and_then, append_rows, api_call, pure.
      destruct (api_raises E AppendRows) as [[msg|msg]|].
      + eexists; exists []. rewrite app_nil_r.
        split; [done|]. split; [apply sublist_nil_l|done].
      + eexists; exists []. rewrite app_nil_r.
        split; [done|]. split; [apply sublist_nil_l|done].
      + eexists; exists to_add. split; [done|]. split; [done|].
        split; [done|done]. }
  destruct (api_raises E ColValues) as [e|].
  - unfold pure at 1. cbn [fst snd]. apply Hrest. done.
  - unfold pure at 1. cbn [fst snd]. apply Hrest. apply sublist_filter.
Qed.

End PushProperties.

Section PushExamples.
Import PyStr GoogleSheets.

Lemma push_append_twice_adds_nothing_witness :
  let ws1 := (push_shipments_to_sheets all_calls_succeed
                (of_string "2024-05-06 07:00:00") [sample_row] true []).2 in
  push_shipments_to_sheets all_calls_succeed (of_string "2024-05-07 07:00:00")
    [sample_row] true ws1
  = (Replied no_new_data, ws1).
Proof.
  apply (push_append_twice_adds_nothing all_calls_succeed
           (of_string "2024-05-06 07:00:00") (of_string "2024-05-07 07:00:00")
           [sample_row] []);
    first [discriminate | reflexivity].
Defined.


Lemma push_append_only_appends_witness :
  ∃ p added,
    push_shipments_to_sheets all_calls_succeed
      (of_string "2024-05-06 07:00:00") [sample_row] true sample_sheet
    = (Replied p, sample_sheet ++ added) ∧
    added `sublist_of`
      (row_data (of_string "2024-05-06 07:00:00") <$> [sample_row]) ∧
    (success p = false → added = []) ∧
    (success p = true → rows_added p = length added).
Proof.
  apply (push_append_only_appends all_calls_succeed
           (of_string "2024-05-06 07:00:00") [sample_row] sample_sheet).
  reflexivity.
Defined.

End PushExamples.
